(** * Verification of the geospatial plotting module (geoplot.py)

    A shallow embedding of [GeoPlot.__init__] and [GeoPlot.render] together
    with the pieces of the Python runtime they rely on (dynamic values,
    exceptions, [string.Template], [json], the array conversions and the
    timestamps), followed by the properties of the extraction loop, the
    timeline, the feature collections and the viewer document. *)

From Stdlib Require Import String Ascii List ZArith Lia Bool DecimalString.
Import ListNotations.
Open Scope string_scope.
Open Scope Z_scope.

Set Warnings "-register-all".

(** ** Python values and exceptions *)

(** Dynamic values as they occur in the configuration, the options, the
    simulation state and the GeoJSON output.  A float is carried by its
    shortest round-trip literal (what [repr] prints): the program moves
    floats around and prints them; where it computes with one, in the
    multiples of a float step time and in the conversion of integers next
    to floats in an array, the result is modelled as far as it is exact. *)
Inductive pyval : Type :=
| PNone
| PBool (b : bool)
| PInt (z : Z)
| PFloat (literal : string)
| PStr (s : string)
| PList (items : list pyval)
| PDict (entries : list (string * pyval)).

(** The exceptions that can leave the module.  [PathNotFound] is the failure
    of the path resolver; [OutOfBounds] is pandas' refusal of a time span
    that does not fit its 64-bit nanosecond count; [NotModelled] marks
    Python behaviour that this development leaves out: values outside the
    documented input types (containers printed with [str], string and
    object arrays), floating-point results that are rounded, and behaviour
    that differs between library versions. *)
Inductive exn : Type :=
| KeyError (key : string)
| IndexError
| TypeError
| ValueError
| OutOfBounds
| PathNotFound
| NotModelled.

Inductive result (A : Type) : Type :=
| Ok (a : A)
| Raise (e : exn).
Arguments Ok {A} a.
Arguments Raise {A} e.

Definition bind {A B} (r : result A) (k : A -> result B) : result B :=
  match r with
  | Ok a => k a
  | Raise e => Raise e
  end.

Notation "x <- e ;; k" := (bind e (fun x => k))
  (at level 61, e at next level, right associativity).
Notation "' pat <- e ;; k" := (bind e (fun x => match x with pat => k end))
  (at level 61, pat pattern, e at next level, right associativity).

Fixpoint mapM {A B} (f : A -> result B) (l : list A) : result (list B) :=
  match l with
  | [] => Ok []
  | x :: t => y <- f x ;; ys <- mapM f t ;; Ok (y :: ys)
  end.

(** The double quote character, kept out of string literals. *)
Definition dq : string := String (ascii_of_nat 34) EmptyString.

Fixpoint dict_get (k : string) (d : list (string * pyval)) : option pyval :=
  match d with
  | [] => None
  | (k', v) :: rest => if String.eqb k k' then Some v else dict_get k rest
  end.

(** [obj[key]] with a string key. *)
Definition getitem (obj : pyval) (key : string) : result pyval :=
  match obj with
  | PDict d =>
      match dict_get key d with
      | Some v => Ok v
      | None => Raise (KeyError key)
      end
  | _ => Raise TypeError
  end.

(** [seq[i]] on a Python list; a negative index counts from the end. *)
Definition list_index {A} (l : list A) (i : Z) : result A :=
  let j := if i <? 0 then i + Z.of_nat (length l) else i in
  if j <? 0 then Raise IndexError
  else match nth_error l (Z.to_nat j) with
       | Some v => Ok v
       | None => Raise IndexError
       end.

(** [obj[i]] with an integer index on a dynamic value. *)
Definition index (obj : pyval) (i : Z) : result pyval :=
  match obj with
  | PList l => list_index l i
  | PDict _ | PStr _ => Raise NotModelled
  | _ => Raise TypeError
  end.

(** [range(n)]: empty when [n <= 0]. *)
Definition range (n : Z) : list Z := map Z.of_nat (seq 0 (Z.to_nat n)).

Definition string_of_Z (z : Z) : string := NilZero.string_of_int (Z.to_int z).

(** The limit of the conversion of an integer to decimal text: integers of
    more than 4300 digits are refused (Python 3.11 and later). *)
Definition int_str_limit : Z := 10 ^ 4300.

(** [str(z)] and [repr(z)] of an integer. *)
Definition int_str (z : Z) : result string :=
  if Z.abs z <? int_str_limit then Ok (string_of_Z z) else Raise ValueError.

(** [str(v)], as [Template.substitute] and f-strings apply it. *)
Definition py_str (v : pyval) : result string :=
  match v with
  | PNone => Ok "None"
  | PBool true => Ok "True"
  | PBool false => Ok "False"
  | PInt z => int_str z
  | PFloat lit => Ok lit
  | PStr s => Ok s
  | PList _ | PDict _ => Raise NotModelled
  end.

(** ** Strings *)

Fixpoint prefixb (p s : string) : bool :=
  match p, s with
  | EmptyString, _ => true
  | String a p', String b s' => Ascii.eqb a b && prefixb p' s'
  | String _ _, EmptyString => false
  end.

(** [p in s]: [p] occurs somewhere in [s]. *)
Fixpoint contains (p s : string) : bool :=
  prefixb p s ||
  match s with
  | EmptyString => false
  | String _ s' => contains p s'
  end.

Fixpoint has_char (c : ascii) (s : string) : bool :=
  match s with
  | EmptyString => false
  | String a s' => Ascii.eqb c a || has_char c s'
  end.

Fixpoint rev_string (acc : list ascii) (tail : string) : string :=
  match acc with
  | [] => tail
  | c :: acc' => rev_string acc' (String c tail)
  end.

(** [re.split("/", var)]: the segments between slashes, empty ones included. *)
Fixpoint split_slash (cur : list ascii) (s : string) : list string :=
  match s with
  | EmptyString => [rev_string cur EmptyString]
  | String c s' =>
      if Ascii.eqb c "/" then rev_string cur EmptyString :: split_slash [] s'
      else split_slash (c :: cur) s'
  end.

(** ** [string.Template] *)
Module Template.

(** What the placeholder pattern can match after a [$]: the escape [$$],
    a named or braced identifier, or nothing valid. *)
Inductive token : Type :=
| Lit (text : string)
| Escaped
| Named (name : string)
| Invalid.

Definition is_between (lo hi c : ascii) : bool :=
  (nat_of_ascii lo <=? nat_of_ascii c)%nat && (nat_of_ascii c <=? nat_of_ascii hi)%nat.

(** The identifier pattern [[_a-z][_a-z0-9]*], ASCII, case-insensitive. *)
Definition id_start (c : ascii) : bool :=
  Ascii.eqb c "_" || is_between "a" "z" c || is_between "A" "Z" c.
Definition id_char (c : ascii) : bool :=
  id_start c || is_between "0" "9" c.

Inductive mode : Type :=
| Text
| Dollar
| InName (rev_name : list ascii)
| InBrace (rev_name : list ascii).

Definition flush (lit : list ascii) (rest : list token) : list token :=
  match lit with
  | [] => rest
  | _ => Lit (rev_string lit EmptyString) :: rest
  end.

(** The matches of the placeholder pattern, left to right, with the text
    between them.  An invalid placeholder ends the scan: substitution
    raises there. *)
Fixpoint tokenize (m : mode) (lit : list ascii) (s : string) : list token :=
  match s with
  | EmptyString =>
      match m with
      | Text => flush lit []
      | Dollar => flush lit [Invalid]
      | InName n => [Named (rev_string n EmptyString)]
      | InBrace _ => flush lit [Invalid]
      end
  | String c s' =>
      match m with
      | Text =>
          if Ascii.eqb c "$" then tokenize Dollar lit s'
          else tokenize Text (c :: lit) s'
      | Dollar =>
          if Ascii.eqb c "$" then flush lit (Escaped :: tokenize Text [] s')
          else if id_start c then flush lit (tokenize (InName [c]) [] s')
          else if Ascii.eqb c "{" then tokenize (InBrace []) lit s'
          else flush lit [Invalid]
      | InName n =>
          if id_char c then tokenize (InName (c :: n)) [] s'
          else Named (rev_string n EmptyString) ::
               (if Ascii.eqb c "$" then tokenize Dollar [] s'
                else tokenize Text [c] s')
      | InBrace n =>
          if match n with [] => id_start c | _ => id_char c end
          then tokenize (InBrace (c :: n)) lit s'
          else if Ascii.eqb c "}" && negb (match n with [] => true | _ => false end)
          then flush lit (Named (rev_string n EmptyString) :: tokenize Text [] s')
          else flush lit [Invalid]
      end
  end.

(** The replacement of each match, in order: [str(mapping[name])] for a
    placeholder, a [KeyError] when the mapping lacks the name, a
    [ValueError] at an invalid placeholder. *)
Fixpoint fill (mapping : list (string * pyval)) (ts : list token) : result string :=
  match ts with
  | [] => Ok EmptyString
  | t :: rest =>
      s <- match t with
           | Lit text => Ok text
           | Escaped => Ok "$"
           | Named name =>
               match dict_get name mapping with
               | Some v => py_str v
               | None => Raise (KeyError name)
               end
           | Invalid => Raise ValueError
           end ;;
      out <- fill mapping rest ;;
      Ok (s ++ out)
  end.

(** [Template(template).substitute(mapping)]. *)
Definition substitute (template : string) (mapping : list (string * pyval))
  : result string :=
  fill mapping (tokenize Text [] template).

End Template.

(** ** The viewer document template

    The text of [geoplot_template], verbatim. *)
Definition geoplot_template : string :=
  "
<!doctype html>
<html lang=" ++ dq ++ "en" ++ dq ++ ">
	<head>
		<!-- Cesium JS dependencies and basic styling -->
		<meta charset=" ++ dq ++ "UTF-8" ++ dq ++ " />
		<meta name=" ++ dq ++ "viewport" ++ dq ++ " content=" ++ dq ++ "width=device-width, initial-scale=1.0" ++ dq ++ " />
		<title>Cesium Time-Series Heatmap Visualization</title>
		<script src=" ++ dq ++ "https://cesium.com/downloads/cesiumjs/releases/1.95/Build/Cesium/Cesium.js" ++ dq ++ "></script>
		<link href=" ++ dq ++ "https://cesium.com/downloads/cesiumjs/releases/1.95/Build/Cesium/Widgets/widgets.css" ++ dq ++ " rel=" ++ dq ++ "stylesheet" ++ dq ++ " />
		<style>
			#cesiumContainer {
				width: 100%;
				height: 100%;
			}
		</style>
	</head>
	<body>
		<div id=" ++ dq ++ "cesiumContainer" ++ dq ++ "></div>
		<script>
			// Cesium initialization and configuration
			Cesium.Ion.defaultAccessToken = '$accessToken'
			const viewer = new Cesium.Viewer('cesiumContainer')

			// Color interpolation for value visualization
			function interpolateColor(color1, color2, factor) {
				const result = new Cesium.Color()
				result.red = color1.red + factor * (color2.red - color1.red)
				result.green = color1.green + factor * (color2.green - color1.green)
				result.blue = color1.blue + factor * (color2.blue - color1.blue)
				result.alpha = '$visualType' == 'size' ? 0.2 : 
					color1.alpha + factor * (color2.alpha - color1.alpha)
				return result
			}

			// Value-to-color mapping with normalization
			function getColor(value, min, max) {
				const factor = (value - min) / (max - min)
				return interpolateColor(Cesium.Color.BLUE, Cesium.Color.RED, factor)
			}

			// Size scaling for size-based visualization
			function getPixelSize(value, min, max) {
				const factor = (value - min) / (max - min)
				return 100 * (1 + factor)
			}

			// Process GeoJSON data into time-series format
			function processTimeSeriesData(geoJsonData) {
				const timeSeriesMap = new Map()
				let minValue = Infinity
				let maxValue = -Infinity

				geoJsonData.features.forEach((feature) => {
					const id = feature.properties.id
					const time = Cesium.JulianDate.fromIso8601(feature.properties.time)
					const value = feature.properties.value
					const coordinates = feature.geometry.coordinates

					if (!timeSeriesMap.has(id)) timeSeriesMap.set(id, [])
					timeSeriesMap.get(id).push({ time, value, coordinates })

					minValue = Math.min(minValue, value)
					maxValue = Math.max(maxValue, value)
				})

				return { timeSeriesMap, minValue, maxValue }
			}

			// Create Cesium entities for visualization
			function createTimeSeriesEntities(timeSeriesData, startTime, stopTime) {
				const dataSource = new Cesium.CustomDataSource('AgentTorch Simulation')

				for (const [id, timeSeries] of timeSeriesData.timeSeriesMap) {
					const entity = new Cesium.Entity({
						id: id,
						availability: new Cesium.TimeIntervalCollection([
							new Cesium.TimeInterval({ start: startTime, stop: stopTime }),
						]),
						position: new Cesium.SampledPositionProperty(),
						point: {
							pixelSize: '$visualType' == 'size' ? new Cesium.SampledProperty(Number) : 10,
							color: new Cesium.SampledProperty(Cesium.Color),
						},
						properties: { value: new Cesium.SampledProperty(Number) },
					})

					timeSeries.forEach(({ time, value, coordinates }) => {
						const position = Cesium.Cartesian3.fromDegrees(coordinates[0], coordinates[1])
						entity.position.addSample(time, position)
						entity.properties.value.addSample(time, value)
						entity.point.color.addSample(time, getColor(value, timeSeriesData.minValue, timeSeriesData.maxValue))

						if ('$visualType' == 'size') {
							entity.point.pixelSize.addSample(time, 
								getPixelSize(value, timeSeriesData.minValue, timeSeriesData.maxValue))
						}
					})
					dataSource.entities.add(entity)
				}
				return dataSource
			}

			// Initialize timeline and load data
			const start = Cesium.JulianDate.fromIso8601('$startTime')
			const stop = Cesium.JulianDate.fromIso8601('$stopTime')
			viewer.clock.startTime = start.clone()
			viewer.clock.stopTime = stop.clone()
			viewer.clock.currentTime = start.clone()
			viewer.clock.clockRange = Cesium.ClockRange.LOOP_STOP
			viewer.clock.multiplier = 3600 // 1 hour per second
			viewer.timeline.zoomTo(start, stop)

			// Load all GeoJSON datasets
			for (const geoJsonData of geoJsons) {
				const timeSeriesData = processTimeSeriesData(geoJsonData)
				const dataSource = createTimeSeriesEntities(timeSeriesData, start, stop)
				viewer.dataSources.add(dataSource)
				viewer.zoomTo(dataSource)
			}
		</script>
	</body>
</html>
".

(** ** [json] *)
Module Json.

Definition hex_digit (n : nat) : ascii :=
  nth n (list_ascii_of_string "0123456789abcdef") "0"%char.

(** The four-digit hexadecimal escape of a character below 256. *)
Definition u_escape (c : ascii) : string :=
  let n := nat_of_ascii c in
  "\u00" ++ String (hex_digit (n / 16)) (String (hex_digit (n mod 16)) EmptyString).

Definition escape_char (ensure_ascii : bool) (c : ascii) : result string :=
  let n := nat_of_ascii c in
  if (n =? 34)%nat then Ok ("\" ++ dq)
  else if (n =? 92)%nat then Ok "\\"
  else if (n =? 10)%nat then Ok "\n"
  else if (n =? 13)%nat then Ok "\r"
  else if (n =? 9)%nat then Ok "\t"
  else if (n =? 8)%nat then Ok "\b"
  else if (n =? 12)%nat then Ok "\f"
  else if (n <? 32)%nat then Ok (u_escape c)
  else if (n <? 127)%nat then Ok (String c EmptyString)
  else if negb ensure_ascii then Ok (String c EmptyString)
  else if (n =? 127)%nat then Ok (u_escape c)
  else Raise NotModelled.

Fixpoint escape (ensure_ascii : bool) (s : string) : result string :=
  match s with
  | EmptyString => Ok EmptyString
  | String c s' =>
      e <- escape_char ensure_ascii c ;;
      r <- escape ensure_ascii s' ;;
      Ok (e ++ r)
  end.

Definition encode_string (ensure_ascii : bool) (s : string) : result string :=
  e <- escape ensure_ascii s ;; Ok (dq ++ e ++ dq).

Definition encode_float (literal : string) : string :=
  if String.eqb literal "nan" then "NaN"
  else if String.eqb literal "inf" then "Infinity"
  else if String.eqb literal "-inf" then "-Infinity"
  else literal.

Fixpoint spaces (indent : string) (level : nat) : string :=
  match level with
  | O => EmptyString
  | S l => indent ++ spaces indent l
  end.

(** The line break and indentation put before an item at [level] when an
    indent is given; nothing otherwise. *)
Definition newline_indent (indent : option string) (level : nat) : string :=
  match indent with
  | Some ind => String (ascii_of_nat 10) (spaces ind level)
  | None => EmptyString
  end.

Definition item_separator (indent : option string) : string :=
  match indent with
  | Some _ => ","
  | None => ", "
  end.

Fixpoint join (sep : string) (l : list string) : string :=
  match l with
  | [] => EmptyString
  | [x] => x
  | x :: rest => x ++ sep ++ join sep rest
  end.

(** The encoder of [json.dumps] / [json.dump] with the default key
    separator, for the given [ensure_ascii] and [indent]. *)
Fixpoint encode (ensure_ascii : bool) (indent : option string) (level : nat)
    (v : pyval) : result string :=
  match v with
  | PNone => Ok "null"
  | PBool true => Ok "true"
  | PBool false => Ok "false"
  | PInt z => int_str z
  | PFloat lit => Ok (encode_float lit)
  | PStr s => encode_string ensure_ascii s
  | PList [] => Ok "[]"
  | PList items =>
      parts <- (fix go (l : list pyval) : result (list string) :=
                  match l with
                  | [] => Ok []
                  | x :: t =>
                      s <- encode ensure_ascii indent (S level) x ;;
                      r <- go t ;;
                      Ok (s :: r)
                  end) items ;;
      Ok ("[" ++ newline_indent indent (S level)
              ++ join (item_separator indent ++ newline_indent indent (S level)) parts
              ++ newline_indent indent level ++ "]")
  | PDict [] => Ok "{}"
  | PDict entries =>
      parts <- (fix go (l : list (string * pyval)) : result (list string) :=
                  match l with
                  | [] => Ok []
                  | (k, x) :: t =>
                      ks <- encode_string ensure_ascii k ;;
                      s <- encode ensure_ascii indent (S level) x ;;
                      r <- go t ;;
                      Ok ((ks ++ ": " ++ s) :: r)
                  end) entries ;;
      Ok ("{" ++ newline_indent indent (S level)
              ++ join (item_separator indent ++ newline_indent indent (S level)) parts
              ++ newline_indent indent level ++ "}")
  end.

(** [json.dumps(obj)], which builds the whole text before it returns. *)
Definition dumps (obj : pyval) : result string := encode true None 0 obj.

(** The text [json.dump(obj, f, ensure_ascii=False, indent=2)] writes when
    it completes.  The text goes to the file piece by piece; what a failure
    leaves in the file is the business of the caller ([dump_to] below). *)
Definition dump_indent2 (obj : pyval) : result string :=
  encode false (Some "  ") 0 obj.

End Json.

(** ** Floats

    A float is carried by its [repr].  Its arithmetic is modelled where it
    is exact: on floats that are a whole number of 1/64, as far as the
    results have no more than 53 bits. *)
Module Float.

Definition digit_value (c : ascii) : option Z :=
  let n := nat_of_ascii c in
  if (48 <=? n)%nat && (n <=? 57)%nat then Some (Z.of_nat (n - 48)) else None.

(** The decimal digits [s] starts with: their value after the digits
    [acc], their number after [count], and the rest of [s]. *)
Fixpoint leading_digits (s : string) (acc : Z) (count : nat) : Z * nat * string :=
  match s with
  | String c rest =>
      match digit_value c with
      | Some d => leading_digits rest (10 * acc + d) (S count)
      | None => (acc, count, s)
      end
  | EmptyString => (acc, count, s)
  end.

Definition exponent (s : string) : option Z :=
  match s with
  | EmptyString => Some 0
  | String "e" r =>
      let '(negative, r') :=
        match r with
        | String "-" x => (true, x)
        | String "+" x => (false, x)
        | _ => (false, r)
        end in
      match leading_digits r' 0 0 with
      | (_, O, _) => None
      | (e, _, EmptyString) => Some (if negative then - e else e)
      | _ => None
      end
  | _ => None
  end.

(** The [repr] of a finite float, [-ddd.ddde+dd] with optional sign,
    fraction and exponent, as [(m, e)] for the number [m * 10^e]. *)
Definition decimal (lit : string) : option (Z * Z) :=
  let '(negative, s) :=
    match lit with
    | String "-" r => (true, r)
    | _ => (false, lit)
    end in
  match leading_digits s 0 0 with
  | (_, O, _) => None
  | (whole, _, s1) =>
      let '(m, places, s2) :=
        match s1 with
        | String "." r => leading_digits r whole 0
        | _ => (whole, O, s1)
        end in
      match exponent s2 with
      | Some e => Some (if negative then - m else m, e - Z.of_nat places)
      | None => None
      end
  end.

(** The number of 1/64 a float is, when it is a whole number of them. *)
Definition sixty_fourths (lit : string) : option Z :=
  match decimal lit with
  | Some (m, e) =>
      if 0 <=? e then Some (64 * m * 10 ^ e)
      else if (64 * m) mod 10 ^ (- e) =? 0 then Some (64 * m / 10 ^ (- e))
      else None
  | None => None
  end.

(** The integers a float holds exactly are those of at most 53 bits. *)
Definition exact_limit : Z := 9007199254740992.

End Float.

(** ** Array conversions ([numpy]) *)
Module Np.

(** An array: its shape and its items in row-major order. *)
Record ndarray : Type := mk_ndarray { shape : list nat; items : list pyval }.

(** The kinds of numbers an array holds, from the narrowest. *)
Inductive kind : Type := KBool | KInt | KFloat.

Definition scalar_kind (v : pyval) : option kind :=
  match v with
  | PBool _ => Some KBool
  | PInt _ => Some KInt
  | PFloat _ => Some KFloat
  | _ => None
  end.

Definition kind_max (a b : kind) : kind :=
  match a, b with
  | KFloat, _ | _, KFloat => KFloat
  | KInt, _ | _, KInt => KInt
  | KBool, KBool => KBool
  end.

(** The kind of an array of these items: the widest of their kinds. *)
Fixpoint common_kind (l : list pyval) : kind :=
  match l with
  | [] => KBool
  | v :: rest =>
      match scalar_kind v with
      | Some k => kind_max k (common_kind rest)
      | None => common_kind rest
      end
  end.

(** The item [v] as an array of kind [k] holds it: a boolean among
    integers is [0] or [1], a boolean or an integer among floats is the
    float of the same value.  An integer of at most 53 bits is a float
    exactly, which prints as the integer with the fraction [.0]; wider
    integers are rounded and left out. *)
Definition cast (k : kind) (v : pyval) : result pyval :=
  match k, v with
  | KBool, PBool _ | KInt, PInt _ | KFloat, PFloat _ => Ok v
  | KInt, PBool b => Ok (PInt (if b then 1 else 0))
  | KFloat, PBool b => Ok (PFloat (if b then "1.0" else "0.0"))
  | KFloat, PInt z =>
      if Z.abs z <=? Float.exact_limit
      then Ok (PFloat (string_of_Z z ++ ".0"))
      else Raise NotModelled
  | _, _ => Raise NotModelled
  end.

Definition shape_eqb (a b : list nat) : bool :=
  if list_eq_dec Nat.eq_dec a b then true else false.

(** Stacking the converted elements of a list along a new first axis. *)
Definition stack (subs : list ndarray) : result ndarray :=
  match subs with
  | [] => Ok (mk_ndarray [0%nat] [])
  | a :: rest =>
      if forallb (fun b => shape_eqb (shape a) (shape b)) rest
      then Ok (mk_ndarray (length subs :: shape a) (concat (map items subs)))
      else Raise NotModelled
  end.

(** The integers of an [int64] array. *)
Definition int64 (z : Z) : bool :=
  (-9223372036854775808 <=? z) && (z <? 9223372036854775808).

Fixpoint build (v : pyval) : result ndarray :=
  match v with
  | PBool _ | PFloat _ => Ok (mk_ndarray [] [v])
  | PInt z => if int64 z then Ok (mk_ndarray [] [v]) else Raise NotModelled
  | PList l =>
      subs <- (fix go (l : list pyval) : result (list ndarray) :=
                 match l with
                 | [] => Ok []
                 | x :: t => a <- build x ;; r <- go t ;; Ok (a :: r)
                 end) l ;;
      stack subs
  | PNone | PStr _ | PDict _ => Raise NotModelled
  end.

(** [np.array(v)] on numeric, rectangular data (what a simulation state
    holds): booleans, integers of the [int64] range and floats, nested at
    most 32 deep.  The array holds the numbers of the list, each converted
    to the widest kind among them.  Everything else is [NotModelled]:
    ragged nesting (an error or an array of lists, by the version of
    numpy), integers beyond [int64] (which numpy turns into other kinds),
    non-numeric values (string and object arrays) and deeper nesting. *)
Definition array (v : pyval) : result ndarray :=
  a <- build v ;;
  if (length (shape a) <=? 32)%nat
  then items' <- mapM (cast (common_kind (items a))) (items a) ;;
       Ok (mk_ndarray (shape a) items')
  else Raise NotModelled.

Fixpoint chunks {A} (count size : nat) (l : list A) : list (list A) :=
  match count with
  | O => []
  | S c => firstn size l :: chunks c size (skipn size l)
  end.

Fixpoint unflatten (shape : list nat) (l : list pyval) : pyval :=
  match shape with
  | [] => hd PNone l
  | n :: rest =>
      PList (map (unflatten rest) (chunks n (fold_right Nat.mul 1%nat rest) l))
  end.

(** [a.tolist()]: nested lists, or the bare scalar of a 0-d array. *)
Definition tolist (a : ndarray) : pyval := unflatten (shape a) (items a).

(** [a.flatten()]. *)
Definition flatten (a : ndarray) : ndarray :=
  mk_ndarray [length (items a)] (items a).

End Np.

(** ** Timestamps ([pandas]) *)
Module Pd.

(** A UTC timestamp, in microseconds since the Unix epoch (the resolution
    of [Timestamp.utcnow()]). *)
Definition Timestamp : Type := Z.

(** The microseconds of a span of [s] seconds. *)
Definition Timedelta_seconds (s : Z) : Z := s * 1000000.

(** pandas counts nanoseconds in 64 bits, the least value being kept for
    "not a time". *)
Definition ns_limit : Z := 9223372036854775808.

Definition in_bounds (ns : Z) : bool := (- ns_limit <? ns) && (ns <? ns_limit).

(** A number of seconds: an integer, or a float that is a whole number
    of 1/64. *)
Inductive seconds : Type :=
| Whole (s : Z)
| Sixty_fourths (m : Z).

(** [pd.Timedelta(seconds=s)], the span in microseconds.  For an integer
    the span is refused when its nanoseconds do not fit 64 bits.  For a
    float of [m / 64] seconds the nanoseconds are the float product
    [s * 1000000000], which is the exact [m * 15625000] as long as that has
    no more than 53 bits; a rounded product is cut or rounded differently
    by different versions of pandas and is left out. *)
Definition Timedelta (s : seconds) : result Z :=
  match s with
  | Whole s =>
      if in_bounds (s * 1000000000) then Ok (Timedelta_seconds s)
      else Raise OutOfBounds
  | Sixty_fourths m =>
      if Z.abs (m * 15625000) <=? Float.exact_limit then Ok (m * 15625)
      else Raise NotModelled
  end.

(** Whether a span of [us] microseconds has less than [limit] nanoseconds
    and its sum with [t] fits the nanosecond count. *)
Definition fits (limit : Z) (t : Timestamp) (us : Z) : bool :=
  (Z.abs (us * 1000) <? limit) && in_bounds ((t + us) * 1000).

(** [t + delta].  A sum within the nanosecond range is the timestamp of
    every version of pandas; beyond it the outcome, an error or a
    timestamp of a coarser unit, depends on the version and is left out. *)
Definition add (t : Timestamp) (delta : Z) : result Timestamp :=
  if in_bounds ((t + delta) * 1000) then Ok (t + delta)
  else Raise NotModelled.

Definition digit (d : Z) : ascii := ascii_of_nat (48 + Z.to_nat (d mod 10)).

(** The last [width] decimal digits of [n], zero-padded. *)
Fixpoint zfill (width : nat) (n : Z) : string :=
  match width with
  | O => EmptyString
  | S w => zfill w (n / 10) ++ String (digit n) EmptyString
  end.

(** Year, month and day of the proleptic Gregorian calendar for a day
    count since 1970-01-01. *)
Definition civil_from_days (days : Z) : Z * Z * Z :=
  let z := days + 719468 in
  let era := z / 146097 in
  let doe := z - era * 146097 in
  let yoe := (doe - doe / 1460 + doe / 36524 - doe / 146096) / 365 in
  let doy := doe - (365 * yoe + yoe / 4 - yoe / 100) in
  let mp := (5 * doy + 2) / 153 in
  let d := doy - (153 * mp + 2) / 5 + 1 in
  let m := if mp <? 10 then mp + 3 else mp - 9 in
  let y := yoe + era * 400 + (if m <=? 2 then 1 else 0) in
  (y, m, d).

(** The decimal digits of [n >= 0], for enough [fuel]. *)
Fixpoint digits (fuel : nat) (n : Z) : string :=
  match fuel with
  | O => EmptyString
  | S f =>
      if n <? 10 then String (digit n) EmptyString
      else digits f (n / 10) ++ String (digit n) EmptyString
  end.

Fixpoint zeros (k : nat) : string :=
  match k with
  | O => EmptyString
  | S k' => String "0" (zeros k')
  end.

(** [n >= 0] in decimal, zero-padded to at least [width] digits. *)
Definition zfill_min (width : nat) (n : Z) : string :=
  let d := digits (S (Z.to_nat (Z.log2 n))) n in
  zeros (width - String.length d) ++ d.

(** The year as [f"{year:04d}"] prints it. *)
Definition year_text (y : Z) : string :=
  if y <? 0 then "-" ++ zfill_min 3 (- y) else zfill_min 4 y.

(** [t.isoformat()] of a UTC-aware timestamp with microsecond resolution. *)
Definition isoformat (t : Timestamp) : string :=
  let day_us := 86400 * 1000000 in
  let '(y, m, d) := civil_from_days (t / day_us) in
  let rem := t mod day_us in
  let secs := rem / 1000000 in
  let us := rem mod 1000000 in
  year_text y ++ "-" ++ zfill 2 m ++ "-" ++ zfill 2 d ++ "T"
    ++ zfill 2 (secs / 3600) ++ ":" ++ zfill 2 (secs / 60 mod 60) ++ ":"
    ++ zfill 2 (secs mod 60)
    ++ (if us =? 0 then EmptyString else "." ++ zfill 6 us)
    ++ "+00:00".

End Pd.

(** ** The path resolver ([agent_torch.core.helpers]) *)

Fixpoint parse_index (acc : nat) (s : string) : option nat :=
  match s with
  | EmptyString => Some acc
  | String c s' =>
      let n := nat_of_ascii c in
      if ((48 <=? n) && (n <=? 57))%nat
      then parse_index (10 * acc + (n - 48)) s'
      else None
  end.

(** Modelled from the spec: [get_by_path], imported from
    [agent_torch.core.helpers], is not part of the sources.  It walks the
    state one segment at a time: a lookup by key where the node is a
    mapping, a position where it is a sequence; it fails with the
    path-not-found condition when a segment is absent or when a leaf is
    reached before the path is exhausted. *)
Fixpoint get_by_path (root : pyval) (path : list string) : result pyval :=
  match path with
  | [] => Ok root
  | seg :: rest =>
      match root with
      | PDict d =>
          match dict_get seg d with
          | Some v => get_by_path v rest
          | None => Raise PathNotFound
          end
      | PList l =>
          match seg with
          | EmptyString => Raise PathNotFound
          | _ =>
              match parse_index 0 seg with
              | Some i =>
                  match nth_error l i with
                  | Some v => get_by_path v rest
                  | None => Raise PathNotFound
                  end
              | None => Raise PathNotFound
              end
          end
      | _ => Raise PathNotFound
      end
  end.

(** ** [read_var] *)

(** [read_var(state, var)]: [re.split] wants a string. *)
Definition read_var (state var : pyval) : result pyval :=
  match var with
  | PStr path => get_by_path state (split_slash [] path)
  | _ => Raise TypeError
  end.

(** ** [GeoPlot] *)

Record GeoPlot : Type := mk_GeoPlot {
  config : pyval;
  cesium_token : pyval;
  step_time : pyval;
  entity_position : pyval;
  entity_property : pyval;
  visualization_type : pyval
}.

(** [GeoPlot.__init__(config, options)]: the five options are read in the
    order of the tuple on the right-hand side. *)
Definition init (config options : pyval) : result GeoPlot :=
  token <- getitem options "cesium_token" ;;
  step <- getitem options "step_time" ;;
  position <- getitem options "coordinates" ;;
  property <- getitem options "feature" ;;
  visual <- getitem options "visualization_type" ;;
  Ok (mk_GeoPlot config token step position property visual).

(** *** Files *)

(** What [render] does to the file system: [open(path, "w")] creates or
    truncates a file, a write puts text into it, and a write that fails on
    its way leaves some part of its text in the file.  Failures of the file
    system itself are not modelled. *)
Inductive event : Type :=
| Open (path : string)
| Write (path : string) (text : string)
| Partial (path : string).

(** Computations that may raise and that log their file events. *)
Definition M (A : Type) : Type := list event -> result A * list event.

Definition bindM {A B} (m : M A) (k : A -> M B) : M B :=
  fun log =>
    match m log with
    | (Ok a, log') => k a log'
    | (Raise e, log') => (Raise e, log')
    end.

Definition lift {A} (r : result A) : M A := fun log => (r, log).

Definition emit (e : event) : M unit := fun log => (Ok tt, (log ++ [e])%list).

(** [json.dump(obj, f, ensure_ascii=False, indent=2)] into the opened file
    [path]: the encoder hands its text to the file piece by piece, so a
    failure in the middle leaves a part of the text behind. *)
Definition dump_to (path : string) (obj : pyval) : M string :=
  fun log =>
    match Json.dump_indent2 obj with
    | Ok text => (Ok text, (log ++ [Write path text])%list)
    | Raise e => (Raise e, (log ++ [Partial path])%list)
    end.

Notation "x <-- e ;;; k" := (bindM e (fun x => k))
  (at level 61, e at next level, right associativity).
Notation "' pat <-- e ;;; k" := (bindM e (fun x => match x with pat => k end))
  (at level 61, pat pattern, e at next level, right associativity).

(** *** Step 1: extraction *)

Fixpoint foldM {A B} (f : A -> B -> result A) (acc : A) (l : list B) : result A :=
  match l with
  | [] => Ok acc
  | x :: t => acc' <- f acc x ;; foldM f acc' t
  end.

(** [np.array(read_var(final_state, self.entity_position)).tolist()]. *)
Definition read_coords (self : GeoPlot) (final_state : pyval) : result pyval :=
  position <- read_var final_state (entity_position self) ;;
  a <- Np.array position ;;
  Ok (Np.tolist a).

(** [np.array(read_var(final_state, self.entity_property)).flatten().tolist()]. *)
Definition read_values (self : GeoPlot) (final_state : pyval) : result pyval :=
  property <- read_var final_state (entity_property self) ;;
  a <- Np.array property ;;
  Ok (Np.tolist (Np.flatten a)).

(** The body of the extraction loop on one final state: [coords] is
    overwritten, the flattened property values are appended to [values]. *)
Definition extract_state (self : GeoPlot) (acc : pyval * list pyval)
    (final_state : pyval) : result (pyval * list pyval) :=
  coords <- read_coords self final_state ;;
  value_list <- read_values self final_state ;;
  Ok (coords, (snd acc ++ [value_list])%list).

(** [state_trajectory[i][-1]]. *)
Definition final_state_of (state_trajectory : list (list pyval)) (i : Z)
  : result pyval :=
  episode <- list_index state_trajectory i ;;
  list_index episode (-1).

(** One iteration of the loop, for episode [i]. *)
Definition loop_body (self : GeoPlot) (state_trajectory : list (list pyval))
    (acc : pyval * list pyval) (i : Z) : result (pyval * list pyval) :=
  final_state <- final_state_of state_trajectory i ;;
  extract_state self acc final_state.

(** The loop [for i in range(len(state_trajectory) - 1)], started from
    [coords, values = [], []]. *)
Definition extract (self : GeoPlot) (state_trajectory : list (list pyval))
  : result (pyval * list pyval) :=
  foldM (loop_body self state_trajectory) (PList [], [])
        (range (Z.of_nat (length state_trajectory) - 1)).

(** *** Step 2: the timeline *)

(** [a * b] on integers; products of other values are not modelled. *)
Definition py_mul (a b : pyval) : result pyval :=
  match a, b with
  | PInt x, PInt y => Ok (PInt (x * y))
  | _, _ => Raise NotModelled
  end.

(** [range(n)] on a dynamic value. *)
Definition py_range (n : pyval) : result (list Z) :=
  match n with
  | PInt z => Ok (range z)
  | PBool _ => Raise NotModelled
  | _ => Raise TypeError
  end.

(** [total_steps]: the two counts are read from the configuration, then
    multiplied. *)
Definition total_steps (self : GeoPlot) : result pyval :=
  metadata <- getitem (config self) "simulation_metadata" ;;
  num_episodes <- getitem metadata "num_episodes" ;;
  metadata' <- getitem (config self) "simulation_metadata" ;;
  num_steps_per_episode <- getitem metadata' "num_steps_per_episode" ;;
  py_mul num_episodes num_steps_per_episode.

(** [i * step] for the index [i] of a step: an integer for an integer
    step; for a float step of [n / 64] seconds the float of [i * n / 64]
    seconds, which is the exact product when [i * n] has no more than 53
    bits ([Pd.Timedelta] checks a stronger bound).  A float step that is
    no whole number of 1/64 seconds has rounded multiples, which are left
    out, as are steps that are no numbers. *)
Definition step_seconds (step : pyval) (i : Z) : result Pd.seconds :=
  match step with
  | PInt t => Ok (Pd.Whole (i * t))
  | PFloat lit =>
      match Float.sixty_fourths lit with
      | Some n => Ok (Pd.Sixty_fourths (i * n))
      | None => Raise NotModelled
      end
  | _ => Raise NotModelled
  end.

(** [start_time + pd.Timedelta(seconds=i*self.step_time)]. *)
Definition timestamp_at (self : GeoPlot) (start_time : Pd.Timestamp) (i : Z)
  : result Pd.Timestamp :=
  seconds <- step_seconds (step_time self) i ;;
  delta <- Pd.Timedelta seconds ;;
  Pd.add start_time delta.

(** The timeline, [start_time] being what [pd.Timestamp.utcnow()] returned. *)
Definition timeline (self : GeoPlot) (start_time : Pd.Timestamp)
  : result (list Pd.Timestamp) :=
  total <- total_steps self ;;
  steps <- py_range total ;;
  mapM (timestamp_at self start_time) steps.

(** *** Step 3: GeoJSON *)

(** The items a [for] loop draws from a value. *)
Definition iterate (v : pyval) : result (list pyval) :=
  match v with
  | PList l => Ok l
  | PStr _ | PDict _ => Raise NotModelled
  | _ => Raise TypeError
  end.

Definition enumerate {A} (l : list A) : list (Z * A) :=
  combine (range (Z.of_nat (length l))) l.

(** One feature: the point of agent [idx] at one time, with its value. *)
Definition feature (idx : Z) (coord : pyval) (tv : Pd.Timestamp * pyval)
  : result pyval :=
  let '(time, value_list) := tv in
  lon <- index coord 1 ;;
  lat <- index coord 0 ;;
  value <- index value_list idx ;;
  Ok (PDict [("type", PStr "Feature");
             ("geometry", PDict [("type", PStr "Point");
                                 ("coordinates", PList [lon; lat])]);
             ("properties", PDict [("value", value);
                                   ("time", PStr (Pd.isoformat time))])]).

(** The feature collection of one agent: one feature per pair of
    [zip(timestamps, values)]. *)
Definition feature_collection (timestamps : list Pd.Timestamp)
    (values : list pyval) (agent : Z * pyval) : result pyval :=
  let '(idx, coord) := agent in
  features <- mapM (feature idx coord) (combine timestamps values) ;;
  Ok (PDict [("type", PStr "FeatureCollection"); ("features", PList features)]).

Definition to_geojsons (coords : pyval) (timestamps : list Pd.Timestamp)
    (values : list pyval) : result (list pyval) :=
  agents <- iterate coords ;;
  mapM (feature_collection timestamps values) (enumerate agents).

(** *** Step 4: the viewer document *)

(** The mapping handed to [Template.substitute]; its entries are evaluated
    in this order. *)
Definition template_mapping (self : GeoPlot) (timestamps : list Pd.Timestamp)
    (geojsons : list pyval) : result (list (string * pyval)) :=
  start <- list_index timestamps 0 ;;
  stop <- list_index timestamps (-1) ;;
  data <- Json.dumps (PList geojsons) ;;
  Ok [("accessToken", cesium_token self);
      ("startTime", PStr (Pd.isoformat start));
      ("stopTime", PStr (Pd.isoformat stop));
      ("data", PStr data);
      ("visualType", visualization_type self)].

(** *** [GeoPlot.render] *)

Definition render (self : GeoPlot) (state_trajectory : list (list pyval))
    (utcnow : Pd.Timestamp) : M unit :=
  sim_name <-- lift (metadata <- getitem (config self) "simulation_metadata" ;;
                     getitem metadata "name") ;;;
  geodata_path <-- lift (s <- py_str sim_name ;; Ok (s ++ ".geojson")) ;;;
  geoplot_path <-- lift (s <- py_str sim_name ;; Ok (s ++ ".html")) ;;;
  '(coords, values) <-- lift (extract self state_trajectory) ;;;
  timestamps <-- lift (timeline self utcnow) ;;;
  geojsons <-- lift (to_geojsons coords timestamps values) ;;;
  _ <-- emit (Open geodata_path) ;;;
  _ <-- dump_to geodata_path (PList geojsons) ;;;
  _ <-- emit (Open geoplot_path) ;;;
  html <-- lift (mapping <- template_mapping self timestamps geojsons ;;
                 Template.substitute geoplot_template mapping) ;;;
  emit (Write geoplot_path html).

(** ** Sample inputs *)

Definition demo_config : pyval :=
  PDict [("simulation_metadata",
          PDict [("name", PStr "demo");
                 ("num_episodes", PInt 3);
                 ("num_steps_per_episode", PInt 2)])].

Definition demo_options (token : string) : pyval :=
  PDict [("cesium_token", PStr token);
         ("step_time", PInt 3600);
         ("coordinates", PStr "agents/position");
         ("feature", PStr "agents/load");
         ("visualization_type", PStr "color")].

Definition demo_plot (token : string) : GeoPlot :=
  mk_GeoPlot demo_config (PStr token) (PInt 3600)
             (PStr "agents/position") (PStr "agents/load") (PStr "color").

(** A snapshot with one agent at [[lat, lon]] carrying [load]. *)
Definition snapshot (lat lon load : string) : pyval :=
  PDict [("agents",
          PDict [("position", PList [PList [PFloat lat; PFloat lon]]);
                 ("load", PList [PList [PFloat load]])])].

Definition coords_1_2 : pyval := PList [PList [PFloat "1.0"; PFloat "2.0"]].
Definition coords_3_4 : pyval := PList [PList [PFloat "3.0"; PFloat "4.0"]].

(** Two episodes: the first ends at [[1.0, 2.0]], the second at [[3.0, 4.0]]. *)
Definition two_episodes : list (list pyval) :=
  [[snapshot "0.0" "0.0" "0.5"; snapshot "1.0" "2.0" "5.0"];
   [snapshot "3.0" "4.0" "6.0"]].

(** The same two final states of the processed episodes, other snapshots
    and the last episode changed. *)
Definition two_episodes' : list (list pyval) :=
  [[snapshot "1.0" "2.0" "5.0"];
   [snapshot "7.0" "8.0" "9.0"; PNone]].

Definition three_episodes : list (list pyval) :=
  [[snapshot "1.0" "2.0" "5.0"];
   [snapshot "3.0" "4.0" "6.0"];
   [snapshot "5.0" "6.0" "7.0"]].

Definition demo_now : Pd.Timestamp := 1762198800123456.

(** The tokens of the viewer template and the events of two sample runs,
    evaluated once. *)
Definition template_tokens : list Template.token :=
  Eval vm_compute in Template.tokenize Template.Text [] geoplot_template.

Definition demo_log : list event :=
  Eval vm_compute in snd (render (demo_plot "token") three_episodes demo_now []).

Definition placeholder_log : list event :=
  Eval vm_compute in snd (render (demo_plot "$accessToken") [] demo_now []).

(** The placeholders of the viewer template, as they are written in it. *)
Definition placeholders : list string :=
  ["$accessToken"; "$startTime"; "$stopTime"; "$visualType"].

(** Reading a written document back: the features of a collection and the
    coordinates of a feature. *)
Definition features_of (collection : pyval) : result (list pyval) :=
  fs <- getitem collection "features" ;; iterate fs.

Definition geometry_coordinates (feature : pyval) : result pyval :=
  g <- getitem feature "geometry" ;; getitem g "coordinates".

(** The text last written to [path], if any. *)
Fixpoint written (path : string) (log : list event) : option string :=
  match log with
  | [] => None
  | e :: rest =>
      match written path rest with
      | Some text => Some text
      | None =>
          match e with
          | Write p text => if String.eqb p path then Some text else None
          | Open _ | Partial _ => None
          end
      end
  end.

(** The names a template asks for, and two checks on its tokens: that no
    placeholder is invalid, and that the text around the placeholders holds
    no [$] while each placeholder is followed by the character [q]. *)
Fixpoint names_of (ts : list Template.token) : list string :=
  match ts with
  | [] => []
  | Template.Named n :: rest => n :: names_of rest
  | _ :: rest => names_of rest
  end.

Fixpoint well_formed (ts : list Template.token) : bool :=
  match ts with
  | [] => true
  | Template.Invalid :: _ => false
  | _ :: rest => well_formed rest
  end.

Fixpoint guarded (q : ascii) (ts : list Template.token) : bool :=
  match ts with
  | [] => true
  | Template.Lit text :: rest => negb (has_char "$" text) && guarded q rest
  | Template.Named _ :: rest =>
      match rest with
      | Template.Lit (String c _) :: _ => Ascii.eqb c q
      | _ => false
      end && guarded q rest
  | _ => false
  end.

(** A token list with each placeholder replaced by the value of its name:
    the text of the template with its placeholders filled in. *)
Fixpoint replaced (value_of : string -> string) (ts : list Template.token)
  : string :=
  match ts with
  | [] => EmptyString
  | Template.Lit text :: rest => text ++ replaced value_of rest
  | Template.Escaped :: rest => "$" ++ replaced value_of rest
  | Template.Named n :: rest => value_of n ++ replaced value_of rest
  | Template.Invalid :: rest => replaced value_of rest
  end.

(** The values of the four names the viewer template asks for. *)
Definition viewer_values (token visual start stop : string) (name : string)
  : string :=
  if String.eqb name "accessToken" then token
  else if String.eqb name "visualType" then visual
  else if String.eqb name "startTime" then start
  else if String.eqb name "stopTime" then stop
  else EmptyString.

(** The viewer document: the template with the token, the visualization
    type and the two times in the places of their placeholders. *)
Definition viewer_document (token visual start stop : string) : string :=
  replaced (viewer_values token visual start stop) template_tokens.

(** The microseconds of a step time whose multiples are computed exactly:
    an integer number of seconds, or a float that is a whole number of
    1/64 seconds. *)
Definition step_microseconds (step : pyval) : option Z :=
  match step with
  | PInt t => Some (t * 1000000)
  | PFloat lit =>
      match Float.sixty_fourths lit with
      | Some n => Some (n * 15625)
      | None => None
      end
  | _ => None
  end.

(** The bound on the nanoseconds of a multiple of the step: 64 bits for an
    integer step, the 53 bits a float holds exactly for a float step. *)
Definition span_limit (step : pyval) : Z :=
  match step with
  | PFloat _ => Float.exact_limit + 1
  | _ => Pd.ns_limit
  end.






(** The events of a completed run, in order. *)
Definition run_events (name text html : string) : list event :=
  [Open (name ++ ".geojson"); Write (name ++ ".geojson") text;
   Open (name ++ ".html"); Write (name ++ ".html") html].

(** The scalars an array holds, and the scalars of a nested list in
    row-major order. *)
Definition is_scalar (v : pyval) : bool :=
  match v with
  | PBool _ | PFloat _ => true
  | PInt z => Np.int64 z
  | _ => false
  end.

Fixpoint leaves (v : pyval) : list pyval :=
  match v with
  | PList l => flat_map leaves l
  | _ => [v]
  end.

(** A number as an array of kind [k] holds it, and a nested list with
    each of its numbers converted to the kind [k]. *)
Definition as_kind (k : Np.kind) (v : pyval) : pyval :=
  match Np.cast k v with
  | Ok w => w
  | Raise _ => v
  end.

Fixpoint promote (k : Np.kind) (v : pyval) : pyval :=
  match v with
  | PList l => PList (map (promote k) l)
  | _ => as_kind k v
  end.

(** A trajectory whose processed episode holds an integer next to a float
    in its coordinates and a boolean next to an integer in its values. *)
Definition mixed_snapshot : pyval :=
  PDict [("agents",
          PDict [("position", PList [PList [PInt 1; PFloat "2.5"]]);
                 ("load", PList [PList [PBool true]; PList [PInt 7]])])].

(** What iteration [i] of the extraction loop reads: the coordinates and
    the flattened values of the final snapshot of episode [i]. *)
Definition episode_reads (self : GeoPlot) (state_trajectory : list (list pyval))
    (i : Z) : result (pyval * pyval) :=
  final_state <- final_state_of state_trajectory i ;;
  coords <- read_coords self final_state ;;
  value_list <- read_values self final_state ;;
  Ok (coords, value_list).

(** Nested lists of numbers as an array holds them; ASCII text; values
    that [json] prints, their strings and keys being ASCII text and their
    integers of at most 4300 digits. *)
Fixpoint numeric (v : pyval) : bool :=
  match v with
  | PBool _ | PFloat _ => true
  | PInt z => Np.int64 z
  | PList l => forallb numeric l
  | _ => false
  end.

Fixpoint ascii_text (s : string) : bool :=
  match s with
  | EmptyString => true
  | String c s' => (nat_of_ascii c <? 128)%nat && ascii_text s'
  end.

Fixpoint json_safe (v : pyval) : bool :=
  match v with
  | PInt z => Z.abs z <? int_str_limit
  | PStr s => ascii_text s
  | PList l => forallb json_safe l
  | PDict d => forallb (fun kv => ascii_text (fst kv) && json_safe (snd kv)) d
  | _ => true
  end.

(** * Properties *)

(** ** The error monad and the list combinators *)

Lemma bind_ok {A B} (r : result A) (k : A -> result B) (b : B) :
  bind r k = Ok b -> exists a, r = Ok a /\ k a = Ok b.
Proof.
  destruct r as [a|e]; simpl; intros H; [exists a; auto | discriminate].
Qed.

Ltac inv_bind H :=
  let x := fresh "x" in
  let Hx := fresh "Hx" in
  apply bind_ok in H; destruct H as (x & Hx & H).

Lemma mapM_Forall2 {A B} (f : A -> result B) (l : list A) (l' : list B) :
  mapM f l = Ok l' -> Forall2 (fun x y => f x = Ok y) l l'.
Proof.
  revert l'; induction l as [|x t IH]; simpl; intros l' H.
  - inversion H; constructor.
  - inv_bind H. inv_bind H. inversion H; subst. constructor; auto.
Qed.

Lemma mapM_length {A B} (f : A -> result B) (l : list A) (l' : list B) :
  mapM f l = Ok l' -> length l' = length l.
Proof.
  intros H; apply mapM_Forall2 in H.
  symmetry; eapply Forall2_length; eauto.
Qed.

Lemma mapM_total {A B} (f : A -> result B) (l : list A) :
  (forall x, In x l -> exists y, f x = Ok y) -> exists l', mapM f l = Ok l'.
Proof.
  induction l as [|x t IH]; simpl; intros H.
  - eexists; reflexivity.
  - destruct (H x (or_introl eq_refl)) as [y Hy].
    destruct IH as [ys Hys]; [intros; apply H; auto|].
    rewrite Hy, Hys; simpl; eexists; reflexivity.
Qed.

Lemma mapM_ext {A B} (f g : A -> result B) (l : list A) :
  (forall x, In x l -> f x = g x) -> mapM f l = mapM g l.
Proof.
  induction l as [|x t IH]; intros H; [reflexivity|].
  simpl. rewrite (H x (or_introl eq_refl)), IH; [reflexivity|].
  intros; apply H; right; assumption.
Qed.

Lemma foldM_ext {A B} (f g : A -> B -> result A) (l : list B) :
  (forall acc x, In x l -> f acc x = g acc x) ->
  forall acc, foldM f acc l = foldM g acc l.
Proof.
  induction l as [|x t IH]; simpl; intros H acc; [reflexivity|].
  rewrite (H acc x (or_introl eq_refl)).
  destruct (g acc x); simpl; [apply IH; intros; apply H; auto | reflexivity].
Qed.

Lemma range_nat (n : nat) : range (Z.of_nat n) = map Z.of_nat (seq 0 n).
Proof. unfold range; rewrite Nat2Z.id; reflexivity. Qed.

Lemma range_length (n : Z) : length (range n) = Z.to_nat n.
Proof. unfold range; rewrite length_map, length_seq; reflexivity. Qed.

Lemma range_nth (n i : Z) :
  0 <= i < n -> nth_error (range n) (Z.to_nat i) = Some i.
Proof.
  intros H; unfold range.
  rewrite nth_error_map, nth_error_seq.
  destruct (Nat.ltb_spec (Z.to_nat i) (Z.to_nat n)); [|lia].
  simpl; f_equal; lia.
Qed.

Lemma range_nonpos (n : Z) : n <= 0 -> range n = [].
Proof.
  intros H; unfold range.
  replace (Z.to_nat n) with 0%nat by lia; reflexivity.
Qed.

(** Construction from the sample options gives the sample plot. *)
Example init_demo (token : string) :
  init demo_config (demo_options token) = Ok (demo_plot token).
Proof. reflexivity. Qed.

(** ** Step 1: the extraction loop *)

Lemma in_range (n i : Z) : In i (range n) <-> 0 <= i < n.
Proof.
  unfold range. rewrite in_map_iff. split.
  - intros (k & <- & Hk). apply in_seq in Hk. lia.
  - intros H. exists (Z.to_nat i). split; [lia|]. apply in_seq. lia.
Qed.

Section Extraction.

Variable self : GeoPlot.

Lemma extract_unfold (state_trajectory : list (list pyval)) :
  extract self state_trajectory =
  foldM (loop_body self state_trajectory) (PList [], [])
        (map Z.of_nat (seq 0 (length state_trajectory - 1))).
Proof.
  unfold extract, range.
  replace (Z.to_nat (Z.of_nat (length state_trajectory) - 1))
    with (length state_trajectory - 1)%nat by lia.
  reflexivity.
Qed.


(** The loop depends on the trajectory only through the final states of
    the episodes it visits. *)
Lemma extract_only_reads_final_states (t t' : list (list pyval)) :
  length t' = length t ->
  (forall i : nat, (i < length t - 1)%nat ->
     final_state_of t' (Z.of_nat i) = final_state_of t (Z.of_nat i)) ->
  extract self t' = extract self t.
Proof.
  intros Hlen Hfin. rewrite !extract_unfold, Hlen.
  apply foldM_ext. intros acc x Hx.
  apply in_map_iff in Hx. destruct Hx as (i & <- & Hi).
  apply in_seq in Hi. unfold loop_body. rewrite Hfin by lia. reflexivity.
Qed.


End Extraction.

(** C1, as stated, fails: with two episodes ending at [[1.0, 2.0]] and
    [[3.0, 4.0]] the loop runs for episode 0 only, and the coordinates it
    leaves are [[1.0, 2.0]]. *)
Lemma last_episode_coordinates_counterexample :
  (s0 <- final_state_of two_episodes 0 ;; read_var s0 (PStr "agents/position"))
    = Ok coords_1_2 /\
  (s1 <- final_state_of two_episodes 1 ;; read_var s1 (PStr "agents/position"))
    = Ok coords_3_4 /\
  exists coords values,
    extract (demo_plot "token") two_episodes = Ok (coords, values) /\
    coords <> coords_3_4.
Proof.
  split; [reflexivity|]. split; [reflexivity|].
  exists coords_1_2, [PList [PFloat "5.0"]].
  split; [reflexivity | discriminate].
Qed.

(** C1 (amended).  For a trajectory of two episodes whose final snapshots
    resolve the coordinates path to [[1.0, 2.0]] (episode 0) and to
    [[3.0, 4.0]] (episode 1), the coordinates left by the extraction loop
    are [[1.0, 2.0]]: the loop stops before the last episode, so episode 0
    is the last one processed. *)
Theorem two_episodes_keep_first_coordinates (self : GeoPlot)
    (episode0 episode1 : list pyval) (s0 s1 value_list : pyval) :
  list_index episode0 (-1) = Ok s0 ->
  list_index episode1 (-1) = Ok s1 ->
  read_var s0 (entity_position self) = Ok coords_1_2 ->
  read_var s1 (entity_position self) = Ok coords_3_4 ->
  read_values self s0 = Ok value_list ->
  extract self [episode0; episode1] = Ok (coords_1_2, [value_list]).
Proof.
  intros H0 _ Hc0 _ Hv0.
  unfold extract. simpl length.
  change (range (Z.of_nat 2 - 1)) with [0].
  simpl foldM. unfold loop_body, final_state_of.
  change (list_index [episode0; episode1] 0) with (Ok episode0).
  simpl bind at 2. rewrite H0. simpl bind at 2.
  unfold extract_state, read_coords. rewrite Hc0, Hv0. reflexivity.
Qed.

Lemma two_episodes_keep_first_coordinates_witness :
  extract (demo_plot "token") two_episodes
  = Ok (coords_1_2, [PList [PFloat "5.0"]]).
Proof.
  apply (two_episodes_keep_first_coordinates (demo_plot "token") _ _
           (snapshot "1.0" "2.0" "5.0") (snapshot "3.0" "4.0" "6.0"));
    reflexivity.
Defined.

(** ** Step 2: the timeline *)

Lemma mapM_pure {A B} (f : A -> result B) (g : A -> B) (l : list A) :
  (forall x, f x = Ok (g x)) -> mapM f l = Ok (map g l).
Proof.
  intros H; induction l as [|x t IH]; simpl; [reflexivity|].
  rewrite H, IH; reflexivity.
Qed.

Lemma mapM_pure_in {A B} (f : A -> result B) (g : A -> B) (l : list A) :
  (forall x, In x l -> f x = Ok (g x)) -> mapM f l = Ok (map g l).
Proof.
  intros H. rewrite (mapM_ext f (fun x => Ok (g x)) l H).
  apply mapM_pure. reflexivity.
Qed.

Lemma mapM_ok_map {A B} (f : A -> result B) (g : A -> B) (l : list A)
    (l' : list B) :
  (forall x y, In x l -> f x = Ok y -> y = g x) ->
  mapM f l = Ok l' -> l' = map g l.
Proof.
  revert l'; induction l as [|x t IH]; intros l' Hg H; simpl in H.
  - inversion H; reflexivity.
  - destruct (f x) as [y|] eqn:Hy; [|discriminate]. cbn [bind] in H.
    destruct (mapM f t) as [ys|] eqn:Hys; [|discriminate]. cbn [bind] in H.
    inversion H; subst l'. simpl. f_equal.
    + apply Hg; [left; reflexivity | exact Hy].
    + apply IH; [|reflexivity]. intros x' y' Hin. apply Hg. right; exact Hin.
Qed.


(** A span that fits is added as its microseconds. *)
Lemma timestamp_at_fits (self : GeoPlot) (start_time : Pd.Timestamp) (d i : Z) :
  step_microseconds (step_time self) = Some d ->
  Pd.fits (span_limit (step_time self)) start_time (i * d) = true ->
  timestamp_at self start_time i = Ok (start_time + i * d).
Proof.
  intros Hd Hfit. unfold Pd.fits in Hfit. apply andb_prop in Hfit as [Hspan Hsum].
  apply Z.ltb_lt in Hspan.
  unfold timestamp_at, step_seconds.
  unfold step_microseconds, span_limit in *.
  destruct (step_time self) as [|b|t|lit|s|l|dd]; try discriminate.
  - inversion Hd; subst d. cbn [bind Pd.Timedelta].
    assert (Hb : Pd.in_bounds (i * t * 1000000000) = true).
    { unfold Pd.in_bounds. apply andb_true_intro; split; apply Z.ltb_lt; lia. }
    rewrite Hb. cbn [bind]. unfold Pd.add, Pd.Timedelta_seconds.
    replace (i * t * 1000000) with (i * (t * 1000000)) by ring.
    rewrite Hsum. reflexivity.
  - destruct (Float.sixty_fourths lit) as [n|]; [|discriminate].
    inversion Hd; subst d. cbn [bind Pd.Timedelta].
    assert (Hb : (Z.abs (i * n * 15625000) <=? Float.exact_limit) = true).
    { apply Z.leb_le. lia. }
    rewrite Hb. cbn [bind]. unfold Pd.add.
    replace (i * n * 15625) with (i * (n * 15625)) by ring.
    rewrite Hsum. reflexivity.
Qed.

(** A timestamp that was produced is the start plus the microseconds of
    the span. *)
Lemma timestamp_at_ok (self : GeoPlot) (start_time x : Pd.Timestamp) (d i : Z) :
  step_microseconds (step_time self) = Some d ->
  timestamp_at self start_time i = Ok x ->
  x = start_time + i * d.
Proof.
  intros Hd H. unfold timestamp_at, step_seconds in H.
  unfold step_microseconds in Hd.
  destruct (step_time self) as [|b|t|lit|s|l|dd]; try discriminate.
  - inversion Hd; subst d. cbn [bind Pd.Timedelta] in H.
    destruct (Pd.in_bounds (i * t * 1000000000)); [|discriminate].
    cbn [bind] in H. unfold Pd.add, Pd.Timedelta_seconds in H.
    destruct (Pd.in_bounds ((start_time + i * t * 1000000) * 1000));
      [|discriminate].
    injection H as <-. unfold Pd.Timestamp in *. ring.
  - destruct (Float.sixty_fourths lit) as [n|]; [|discriminate].
    inversion Hd; subst d. cbn [bind Pd.Timedelta] in H.
    destruct (Z.abs (i * n * 15625000) <=? Float.exact_limit); [|discriminate].
    cbn [bind] in H. unfold Pd.add in H.
    destruct (Pd.in_bounds ((start_time + i * n * 15625) * 1000));
      [|discriminate].
    injection H as <-. unfold Pd.Timestamp in *. ring.
Qed.

Lemma timeline_unfold (self : GeoPlot) (start_time : Pd.Timestamp)
    (metadata : pyval) (E N : Z) :
  getitem (config self) "simulation_metadata" = Ok metadata ->
  getitem metadata "num_episodes" = Ok (PInt E) ->
  getitem metadata "num_steps_per_episode" = Ok (PInt N) ->
  timeline self start_time = mapM (timestamp_at self start_time) (range (E * N)).
Proof.
  intros Hmd HE HS.
  unfold timeline, total_steps. rewrite Hmd; simpl. rewrite HE, HS; reflexivity.
Qed.

Lemma timeline_eq (self : GeoPlot) (start_time : Pd.Timestamp)
    (metadata : pyval) (E N d : Z) :
  getitem (config self) "simulation_metadata" = Ok metadata ->
  getitem metadata "num_episodes" = Ok (PInt E) ->
  getitem metadata "num_steps_per_episode" = Ok (PInt N) ->
  step_microseconds (step_time self) = Some d ->
  (forall i, 0 <= i < E * N ->
     Pd.fits (span_limit (step_time self)) start_time (i * d) = true) ->
  timeline self start_time
  = Ok (map (fun i => start_time + i * d) (range (E * N))).
Proof.
  intros Hmd HE HS Hd Hfit.
  rewrite (timeline_unfold self start_time metadata E N Hmd HE HS).
  apply mapM_pure_in. intros i Hi. apply in_range in Hi.
  apply timestamp_at_fits; [exact Hd | apply Hfit; exact Hi].
Qed.

(** A timeline that was produced has these entries. *)
Lemma timeline_inv (self : GeoPlot) (start_time : Pd.Timestamp)
    (metadata : pyval) (E N d : Z) (timestamps : list Pd.Timestamp) :
  getitem (config self) "simulation_metadata" = Ok metadata ->
  getitem metadata "num_episodes" = Ok (PInt E) ->
  getitem metadata "num_steps_per_episode" = Ok (PInt N) ->
  step_microseconds (step_time self) = Some d ->
  timeline self start_time = Ok timestamps ->
  timestamps = map (fun i => start_time + i * d) (range (E * N)).
Proof.
  intros Hmd HE HS Hd H.
  rewrite (timeline_unfold self start_time metadata E N Hmd HE HS) in H.
  apply (mapM_ok_map _ _ _ _ (fun i y _ Hy =>
           timestamp_at_ok self start_time y d i Hd Hy) H).
Qed.




(** ** Running [render] *)

Lemma bindM_lift {A B} (r : result A) (k : A -> M B) (log : list event) :
  bindM (lift r) k log =
  match r with
  | Ok a => k a log
  | Raise e => (Raise e, log)
  end.
Proof. unfold bindM, lift; destruct r; reflexivity. Qed.

Lemma bindM_emit {B} (e : event) (k : unit -> M B) (log : list event) :
  bindM (emit e) k log = k tt (log ++ [e])%list.
Proof. reflexivity. Qed.

Lemma bindM_dump_to {B} (path : string) (obj : pyval) (k : string -> M B)
    (log : list event) :
  bindM (dump_to path obj) k log =
  match Json.dump_indent2 obj with
  | Ok text => k text (log ++ [Write path text])%list
  | Raise e => (Raise e, (log ++ [Partial path])%list)
  end.
Proof. unfold bindM, dump_to. destruct (Json.dump_indent2 obj); reflexivity. Qed.

(** A run of [render] that returns went through every step. *)
Lemma render_ok (self : GeoPlot) (state_trajectory : list (list pyval))
    (utcnow : Pd.Timestamp) (log log' : list event) :
  render self state_trajectory utcnow log = (Ok tt, log') ->
  exists sim_name name coords values timestamps geojsons text mapping html,
    (metadata <- getitem (config self) "simulation_metadata" ;;
     getitem metadata "name") = Ok sim_name /\
    py_str sim_name = Ok name /\
    extract self state_trajectory = Ok (coords, values) /\
    timeline self utcnow = Ok timestamps /\
    to_geojsons coords timestamps values = Ok geojsons /\
    Json.dump_indent2 (PList geojsons) = Ok text /\
    template_mapping self timestamps geojsons = Ok mapping /\
    Template.substitute geoplot_template mapping = Ok html /\
    log' = (log ++ run_events name text html)%list.
Proof.
  unfold render. generalize (Template.substitute geoplot_template).
  intros subst H.
  rewrite bindM_lift in H.
  destruct (metadata <- getitem (config self) "simulation_metadata" ;;
            getitem metadata "name") as [sim_name|] eqn:Hname; [|discriminate].
  rewrite bindM_lift in H.
  destruct (py_str sim_name) as [name|] eqn:Hstr; cbn [bind] in H; [|discriminate].
  rewrite bindM_lift in H.
  rewrite bindM_lift in H.
  destruct (extract self state_trajectory) as [[coords values]|] eqn:Hext;
    [|discriminate].
  rewrite bindM_lift in H.
  destruct (timeline self utcnow) as [timestamps|] eqn:Htl; [|discriminate].
  rewrite bindM_lift in H.
  destruct (to_geojsons coords timestamps values) as [geojsons|] eqn:Hgeo;
    [|discriminate].
  rewrite bindM_emit, bindM_dump_to in H.
  destruct (Json.dump_indent2 (PList geojsons)) as [text|] eqn:Htext;
    [|discriminate].
  rewrite !bindM_emit, bindM_lift in H.
  destruct (template_mapping self timestamps geojsons) as [mapping|] eqn:Hmap;
    cbn [bind] in H; [|discriminate].
  destruct (subst mapping) as [html|] eqn:Hsub; [|discriminate].
  unfold emit in H. inversion H; subst log'.
  exists sim_name, name, coords, values, timestamps, geojsons, text, mapping, html.
  repeat (split; [assumption || reflexivity|]).
  unfold run_events. rewrite <- !app_assoc. reflexivity.
Qed.

(** Conversely, the steps determine the run. *)
Lemma render_steps (self : GeoPlot) (state_trajectory : list (list pyval))
    (utcnow : Pd.Timestamp) (log : list event)
    sim_name name coords values timestamps geojsons text mapping html :
  (metadata <- getitem (config self) "simulation_metadata" ;;
   getitem metadata "name") = Ok sim_name ->
  py_str sim_name = Ok name ->
  extract self state_trajectory = Ok (coords, values) ->
  timeline self utcnow = Ok timestamps ->
  to_geojsons coords timestamps values = Ok geojsons ->
  Json.dump_indent2 (PList geojsons) = Ok text ->
  template_mapping self timestamps geojsons = Ok mapping ->
  Template.substitute geoplot_template mapping = Ok html ->
  render self state_trajectory utcnow log
  = (Ok tt, (log ++ run_events name text html)%list).
Proof.
  intros Hname Hstr Hext Htl Hgeo Htext Hmap. unfold render.
  generalize (Template.substitute geoplot_template). intros subst Hsub.
  rewrite bindM_lift, Hname; cbn [bind].
  rewrite bindM_lift, Hstr; cbn [bind].
  rewrite bindM_lift; cbn [bind].
  rewrite bindM_lift, Hext; cbn [bind].
  rewrite bindM_lift, Htl; cbn [bind].
  rewrite bindM_lift, Hgeo; cbn [bind].
  rewrite bindM_emit, bindM_dump_to, Htext.
  rewrite !bindM_emit, bindM_lift, Hmap; cbn [bind].
  rewrite Hsub. unfold emit, run_events.
  rewrite <- !app_assoc. reflexivity.
Qed.

Lemma append_inj (s a b : string) : s ++ a = s ++ b -> a = b.
Proof.
  induction s as [|c s IH]; simpl; intros H; [exact H|].
  inversion H; auto.
Qed.

Lemma written_snoc (path : string) (log : list event) (e : event) :
  written path (log ++ [e]) =
  match e with
  | Write p text => if String.eqb p path then Some text else written path log
  | Open _ | Partial _ => written path log
  end.
Proof.
  induction log as [|e' rest IH]; simpl.
  - destruct e as [p|p text|p]; [reflexivity| |reflexivity].
    destruct (String.eqb p path); reflexivity.
  - rewrite IH. destruct e as [p|p text|p]; [reflexivity| |reflexivity].
    destruct (String.eqb p path); [reflexivity|].
    destruct (written path rest); reflexivity.
Qed.

(** After a completed run both files hold what the run wrote. *)
Lemma written_after_run (log : list event) (name text html : string) :
  written (name ++ ".geojson") (log ++ run_events name text html) = Some text /\
  written (name ++ ".html") (log ++ run_events name text html) = Some html.
Proof.
  unfold run_events.
  change [Open (name ++ ".geojson"); Write (name ++ ".geojson") text;
          Open (name ++ ".html"); Write (name ++ ".html") html]
    with ([Open (name ++ ".geojson"); Write (name ++ ".geojson") text;
           Open (name ++ ".html")] ++ [Write (name ++ ".html") html])%list.
  rewrite app_assoc, !written_snoc.
  assert (Hne : String.eqb (name ++ ".html") (name ++ ".geojson") = false).
  { apply String.eqb_neq. intros H. apply append_inj in H. discriminate. }
  rewrite Hne, String.eqb_refl. split; [|reflexivity].
  change [Open (name ++ ".geojson"); Write (name ++ ".geojson") text;
          Open (name ++ ".html")]
    with ([Open (name ++ ".geojson"); Write (name ++ ".geojson") text]
            ++ [Open (name ++ ".html")])%list.
  rewrite app_assoc, written_snoc.
  change [Open (name ++ ".geojson"); Write (name ++ ".geojson") text]
    with ([Open (name ++ ".geojson")] ++ [Write (name ++ ".geojson") text])%list.
  rewrite app_assoc, written_snoc, String.eqb_refl. reflexivity.
Qed.

(** ** Step 3: the feature collections *)

Lemma Forall2_nth_error {A B} (R : A -> B -> Prop) (l : list A) (l' : list B) :
  Forall2 R l l' ->
  forall (i : nat) x y,
    nth_error l i = Some x -> nth_error l' i = Some y -> R x y.
Proof.
  induction 1 as [|a b l l' Hab _ IH]; intros i x y Hx Hy.
  - destruct i; discriminate.
  - destruct i as [|i]; simpl in *.
    + inversion Hx; inversion Hy; subst; assumption.
    + eapply IH; eauto.
Qed.

Lemma Forall2_Forall_right {A B} (R : A -> B -> Prop) (P : B -> Prop)
    (l : list A) (l' : list B) :
  Forall2 R l l' -> (forall x y, R x y -> P y) -> Forall P l'.
Proof.
  induction 1; intros HP; constructor; eauto.
Qed.

Lemma nth_error_combine {A B} (l1 : list A) (l2 : list B) :
  forall (i : nat) a b,
    nth_error l1 i = Some a -> nth_error l2 i = Some b ->
    nth_error (combine l1 l2) i = Some (a, b).
Proof.
  revert l2; induction l1 as [|x l1 IH]; intros l2 i a b Ha Hb.
  - destruct i; discriminate.
  - destruct l2 as [|y l2]; [destruct i; discriminate|].
    destruct i as [|i]; simpl in *.
    + inversion Ha; inversion Hb; reflexivity.
    + apply IH; assumption.
Qed.

Lemma enumerate_nth {A} (l : list A) (i : nat) (x : A) :
  nth_error l i = Some x -> nth_error (enumerate l) i = Some (Z.of_nat i, x).
Proof.
  intros H. unfold enumerate. apply nth_error_combine; [|exact H].
  assert (Hlt : (i < length l)%nat) by (apply nth_error_Some; rewrite H; discriminate).
  rewrite <- (Nat2Z.id i) at 1. apply range_nth. lia.
Qed.

Lemma enumerate_length {A} (l : list A) : length (enumerate l) = length l.
Proof.
  unfold enumerate. rewrite length_combine, range_length. lia.
Qed.

(** A feature holds the coordinates of its agent, second entry first. *)
Lemma feature_coordinates (idx : Z) (coord : pyval) (tv : Pd.Timestamp * pyval)
    (f : pyval) :
  feature idx coord tv = Ok f ->
  exists lon lat,
    index coord 1 = Ok lon /\ index coord 0 = Ok lat /\
    geometry_coordinates f = Ok (PList [lon; lat]).
Proof.
  destruct tv as [time value_list]. unfold feature. intros H.
  inv_bind H. inv_bind H. inv_bind H. inversion H; subst f.
  exists x, x0. repeat split; assumption || reflexivity.
Qed.

Lemma feature_collection_ok (timestamps : list Pd.Timestamp) (values : list pyval)
    (idx : Z) (coord collection : pyval) :
  feature_collection timestamps values (idx, coord) = Ok collection ->
  exists features,
    collection = PDict [("type", PStr "FeatureCollection");
                        ("features", PList features)] /\
    length features = Nat.min (length timestamps) (length values) /\
    Forall (fun f => exists lon lat,
                index coord 1 = Ok lon /\ index coord 0 = Ok lat /\
                geometry_coordinates f = Ok (PList [lon; lat])) features.
Proof.
  unfold feature_collection. intros H. inv_bind H. inversion H; subst collection.
  exists x. split; [reflexivity|]. split.
  - apply mapM_length in Hx. rewrite Hx. apply length_combine.
  - apply mapM_Forall2 in Hx.
    apply (Forall2_Forall_right _ _ _ _ Hx).
    intros tv f Hf. apply (feature_coordinates idx coord tv f Hf).
Qed.

(** The collections follow the agents of the coordinate set, one each. *)
Lemma to_geojsons_ok (coords : pyval) (timestamps : list Pd.Timestamp)
    (values geojsons : list pyval) :
  to_geojsons coords timestamps values = Ok geojsons ->
  exists agents,
    iterate coords = Ok agents /\
    length geojsons = length agents /\
    forall (idx : nat) coord collection,
      nth_error agents idx = Some coord ->
      nth_error geojsons idx = Some collection ->
      feature_collection timestamps values (Z.of_nat idx, coord) = Ok collection.
Proof.
  unfold to_geojsons. intros H. inv_bind H. rename x into agents.
  exists agents. split; [assumption|]. split.
  - apply mapM_length in H. rewrite H. apply enumerate_length.
  - intros idx coord collection Ha Hc.
    apply mapM_Forall2 in H.
    eapply (Forall2_nth_error _ _ _ H idx); [|exact Hc].
    apply enumerate_nth; assumption.
Qed.

Lemma to_geojsons_each (coords : pyval) (timestamps : list Pd.Timestamp)
    (values geojsons : list pyval) (collection : pyval) :
  to_geojsons coords timestamps values = Ok geojsons ->
  In collection geojsons ->
  exists idx coord, feature_collection timestamps values (idx, coord) = Ok collection.
Proof.
  unfold to_geojsons. intros H Hin. inv_bind H.
  apply mapM_Forall2 in H.
  induction H as [|a b l l' Hab _ IH]; [contradiction|].
  destruct Hin as [<-|Hin]; [|auto].
  destruct a as [idx coord]. eauto.
Qed.


Lemma list_index_nonempty {A} (l : list A) (i : Z) (x : A) :
  list_index l i = Ok x -> l <> [].
Proof.
  intros H ->. unfold list_index in H. simpl in H.
  destruct (i <? 0); [rewrite Z.add_0_r in H|].
  - destruct (i <? 0); [discriminate|]. destruct (Z.to_nat i); discriminate.
  - destruct (i <? 0); [discriminate|]. destruct (Z.to_nat i); discriminate.
Qed.

Lemma template_mapping_nonempty (self : GeoPlot) (timestamps : list Pd.Timestamp)
    (geojsons : list pyval) mapping :
  template_mapping self timestamps geojsons = Ok mapping -> timestamps <> [].
Proof.
  unfold template_mapping. intros H. inv_bind H.
  eapply list_index_nonempty; eauto.
Qed.






(** C10.  Within each written feature collection all features carry one
    and the same geometry coordinates. *)
Theorem collection_shares_coordinates (self : GeoPlot)
    (state_trajectory : list (list pyval)) (utcnow : Pd.Timestamp)
    (log log' : list event) :
  render self state_trajectory utcnow log = (Ok tt, log') ->
  exists name geojsons text,
    written (name ++ ".geojson") log' = Some text /\
    Json.dump_indent2 (PList geojsons) = Ok text /\
    Forall (fun collection =>
              exists features point,
                features_of collection = Ok features /\
                Forall (fun f => geometry_coordinates f = Ok point) features)
           geojsons.
Proof.
  intros Hrun. apply render_ok in Hrun.
  destruct Hrun as (sim_name & name & coords & values & timestamps & geojsons
                    & text & mapping & html & _ & _ & _ & _ & Hgeo
                    & Htext & _ & _ & ->).
  exists name, geojsons, text.
  split; [apply written_after_run|]. split; [exact Htext|].
  apply Forall_forall. intros collection Hin.
  destruct (to_geojsons_each _ _ _ _ _ Hgeo Hin) as (idx & coord & Hfc).
  apply feature_collection_ok in Hfc.
  destruct Hfc as (features & -> & _ & Hall).
  exists features.
  destruct features as [|f0 rest].
  - exists PNone. split; [reflexivity | constructor].
  - pose proof (Forall_inv Hall) as (lon & lat & Hlon & Hlat & _).
    exists (PList [lon; lat]). split; [reflexivity|].
    eapply Forall_impl; [|exact Hall].
    intros f (lon' & lat' & Hlon' & Hlat' & Hf).
    rewrite Hlon in Hlon'. rewrite Hlat in Hlat'.
    inversion Hlon'; inversion Hlat'; subst. exact Hf.
Qed.

Lemma collection_shares_coordinates_witness :
  exists name geojsons text,
    written (name ++ ".geojson") demo_log = Some text /\
    Json.dump_indent2 (PList geojsons) = Ok text /\
    Forall (fun collection =>
              exists features point,
                features_of collection = Ok features /\
                Forall (fun f => geometry_coordinates f = Ok point) features)
           geojsons.
Proof.
  apply (collection_shares_coordinates (demo_plot "token") three_episodes
           demo_now [] demo_log).
  vm_compute; reflexivity.
Defined.

(** ** Step 4: the viewer document *)

Lemma has_char_app (c : ascii) (a b : string) :
  has_char c (a ++ b) = has_char c a || has_char c b.
Proof.
  induction a as [|x a IH]; simpl; [reflexivity|].
  rewrite IH. apply orb_assoc.
Qed.

(** A prefix match that would run over the character [q] needs [q]. *)
Lemma prefixb_before (q : ascii) (p : string) :
  has_char q p = false ->
  forall v r, prefixb p (v ++ String q r) = true -> prefixb p v = true.
Proof.
  induction p as [|a p IH]; intros Hq v r H; [reflexivity|].
  simpl in Hq. apply orb_false_iff in Hq. destruct Hq as [Hqa Hq].
  destruct v as [|b v]; simpl in *.
  - apply andb_true_iff in H. destruct H as [H _].
    apply Ascii.eqb_eq in H. subst a. rewrite Ascii.eqb_refl in Hqa. discriminate.
  - apply andb_true_iff in H. destruct H as [Hab H].
    rewrite Hab. simpl. eapply IH; eauto.
Qed.

(** No occurrence of [p] in [v], none after it, and none across the
    character [q] between them. *)
Lemma contains_across (q : ascii) (p v r : string) :
  has_char q p = false ->
  contains p v = false ->
  contains p (String q r) = false ->
  contains p (v ++ String q r) = false.
Proof.
  intros Hq. induction v as [|b v IH]; intros Hv Hr; [exact Hr|].
  simpl in Hv. apply orb_false_iff in Hv. destruct Hv as [Hpre Hv].
  change (String b v ++ String q r) with (String b (v ++ String q r)).
  cbn [contains]. apply orb_false_iff. split.
  - destruct (prefixb p (String b (v ++ String q r))) eqn:E; [|reflexivity].
    apply (prefixb_before q p Hq (String b v) r) in E. congruence.
  - destruct p as [|a p]; [discriminate|]. apply IH; assumption.
Qed.

(** Text without the first character of [p] adds no occurrence of [p]. *)
Lemma contains_after (d : ascii) (p' text out : string) :
  has_char d text = false ->
  contains (String d p') (text ++ out) = contains (String d p') out.
Proof.
  induction text as [|c text IH]; intros H; [reflexivity|].
  simpl in H. apply orb_false_iff in H. destruct H as [Hdc H].
  change (String c text ++ out) with (String c (text ++ out)).
  cbn [contains prefixb]. rewrite Hdc. simpl. apply IH; assumption.
Qed.

Lemma contains_without (d : ascii) (p' s : string) :
  has_char d s = false -> contains (String d p') s = false.
Proof.
  induction s as [|c s IH]; intros H; [reflexivity|].
  simpl in H. apply orb_false_iff in H. destruct H as [Hdc H].
  cbn [contains prefixb]. rewrite Hdc. simpl. apply IH; assumption.
Qed.

Lemma in_names_of (ts : list Template.token) (n : string) :
  In (Template.Named n) ts <-> In n (names_of ts).
Proof.
  induction ts as [|t ts IH]; simpl; [tauto|].
  destruct t as [text| |name|]; simpl; rewrite <- IH;
    try (split; [intros [H|H]; [discriminate | exact H] | auto]; fail).
  split; intros [H|H]; auto.
  - inversion H; auto.
  - subst; auto.
Qed.

(** Every name of the template was looked up and printed. *)
Lemma fill_names (mapping : list (string * pyval)) (ts : list Template.token)
    (html : string) :
  Template.fill mapping ts = Ok html ->
  forall n, In n (names_of ts) ->
    exists v s, dict_get n mapping = Some v /\ py_str v = Ok s.
Proof.
  revert html; induction ts as [|t ts IH]; intros html H n Hn; [contradiction|].
  simpl in H. inv_bind H. inv_bind H.
  destruct t as [text| |name|]; simpl in Hn; try (eapply IH; eauto; fail).
  destruct Hn as [<-|Hn]; [|eapply IH; eauto].
  destruct (dict_get name mapping) as [v|]; [|discriminate]. eauto.
Qed.

(** Substitution reads the mapping at the names of the template only. *)
Lemma fill_ext (m1 m2 : list (string * pyval)) (ts : list Template.token) :
  (forall n, In n (names_of ts) -> dict_get n m1 = dict_get n m2) ->
  Template.fill m1 ts = Template.fill m2 ts.
Proof.
  induction ts as [|t ts IH]; intros H; [reflexivity|].
  destruct t as [text| |name|]; simpl in *; try (rewrite IH; auto; fail).
  - rewrite (H name (or_introl eq_refl)), IH; auto.
  - reflexivity.
Qed.

(** In the output of a guarded template a placeholder [p] can only come
    from a substituted value. *)
Lemma fill_guarded (q : ascii) (p' : string) (mapping : list (string * pyval))
    (ts : list Template.token) :
  has_char q (String "$" p') = false ->
  (forall n v s, In n (names_of ts) -> dict_get n mapping = Some v ->
     py_str v = Ok s -> contains (String "$" p') s = false) ->
  guarded q ts = true ->
  forall html, Template.fill mapping ts = Ok html ->
    contains (String "$" p') html = false.
Proof.
  intros Hq. induction ts as [|t ts IH]; intros Hvals Hg html H.
  - simpl in H. inversion H. reflexivity.
  - simpl in H. inv_bind H. inv_bind H. inversion H; subst html; clear H.
    destruct t as [text| |name|]; simpl in Hg; try discriminate.
    + apply andb_true_iff in Hg. destruct Hg as [Htext Hg].
      inversion Hx; subst x. rewrite contains_after.
      * apply IH; auto.
      * apply negb_true_iff; exact Htext.
    + apply andb_true_iff in Hg. destruct Hg as [Hnext Hg].
      destruct (dict_get name mapping) as [v|] eqn:Hv; [|discriminate].
      assert (Hs : contains (String "$" p') x = false)
        by (apply (Hvals name v x); simpl; auto).
      assert (Hout : contains (String "$" p') x0 = false)
        by (apply IH; auto; intros; eapply Hvals; simpl; eauto).
      destruct ts as [|[[|c text]| | |] rest]; try discriminate.
      apply Ascii.eqb_eq in Hnext. subst c.
      simpl in Hx0. inv_bind Hx0. inversion Hx0; subst x0.
      change (String q text ++ x1) with (String q (text ++ x1)) in *.
      apply contains_across; assumption.
Qed.

(** *** The template of the viewer *)

Lemma template_tokens_eq :
  Template.tokenize Template.Text [] geoplot_template = template_tokens.
Proof. vm_compute. reflexivity. Qed.

Lemma substitute_unfold (template : string) (mapping : list (string * pyval)) :
  Template.substitute template mapping
  = Template.fill mapping (Template.tokenize Template.Text [] template).
Proof. reflexivity. Qed.

Lemma substitute_template (mapping : list (string * pyval)) :
  Template.substitute geoplot_template mapping
  = Template.fill mapping template_tokens.
Proof. rewrite substitute_unfold, template_tokens_eq. reflexivity. Qed.

(** The template asks for four names; [data] is not among them. *)
Lemma template_names :
  names_of template_tokens
  = ["accessToken"; "visualType"; "visualType"; "visualType";
     "startTime"; "stopTime"].
Proof. vm_compute. reflexivity. Qed.

Lemma template_well_formed : well_formed template_tokens = true.
Proof. vm_compute. reflexivity. Qed.

(** Its only [$] signs are those of the placeholders, and each placeholder
    is followed by a closing quote. *)
Lemma template_guarded : guarded "'" template_tokens = true.
Proof. vm_compute. reflexivity. Qed.

Lemma digit_not_dollar (d : Z) : Ascii.eqb "$" (Pd.digit d) = false.
Proof.
  unfold Pd.digit.
  assert (H : (Z.to_nat (d mod 10) < 10)%nat)
    by (pose proof (Z.mod_pos_bound d 10); lia).
  destruct (Z.to_nat (d mod 10)) as [|k]; [reflexivity|].
  do 9 (destruct k as [|k]; [reflexivity|]). lia.
Qed.

Lemma zfill_no_dollar (width : nat) (n : Z) :
  has_char "$" (Pd.zfill width n) = false.
Proof.
  revert n; induction width as [|w IH]; intros n; [reflexivity|].
  cbn [Pd.zfill]. rewrite has_char_app, IH. cbn [has_char].
  rewrite digit_not_dollar. reflexivity.
Qed.

Lemma digits_no_dollar (fuel : nat) (n : Z) :
  has_char "$" (Pd.digits fuel n) = false.
Proof.
  revert n; induction fuel as [|f IH]; intros n; [reflexivity|].
  cbn [Pd.digits]. destruct (n <? 10).
  - cbn [has_char]. rewrite digit_not_dollar. reflexivity.
  - rewrite has_char_app, IH. cbn [has_char].
    rewrite digit_not_dollar. reflexivity.
Qed.

Lemma zeros_no_dollar (k : nat) : has_char "$" (Pd.zeros k) = false.
Proof. induction k as [|k IH]; [reflexivity|]. cbn [Pd.zeros has_char]. exact IH. Qed.

Lemma year_text_no_dollar (y : Z) : has_char "$" (Pd.year_text y) = false.
Proof.
  unfold Pd.year_text, Pd.zfill_min.
  destruct (y <? 0);
    repeat rewrite has_char_app;
    rewrite zeros_no_dollar, digits_no_dollar; reflexivity.
Qed.

(** An ISO-8601 time holds no [$]. *)
Lemma isoformat_no_dollar (t : Pd.Timestamp) :
  has_char "$" (Pd.isoformat t) = false.
Proof.
  unfold Pd.isoformat.
  destruct (Pd.civil_from_days (t / (86400 * 1000000))) as [[y m] d].
  repeat (rewrite has_char_app; rewrite ?zfill_no_dollar, ?year_text_no_dollar).
  destruct (_ =? 0); [reflexivity|].
  rewrite has_char_app, zfill_no_dollar. reflexivity.
Qed.

Lemma template_mapping_ok (self : GeoPlot) (timestamps : list Pd.Timestamp)
    (geojsons : list pyval) (mapping : list (string * pyval)) :
  template_mapping self timestamps geojsons = Ok mapping ->
  exists start stop data,
    list_index timestamps 0 = Ok start /\
    list_index timestamps (-1) = Ok stop /\
    Json.dumps (PList geojsons) = Ok data /\
    mapping = [("accessToken", cesium_token self);
               ("startTime", PStr (Pd.isoformat start));
               ("stopTime", PStr (Pd.isoformat stop));
               ("data", PStr data);
               ("visualType", visualization_type self)].
Proof.
  unfold template_mapping. intros H. inv_bind H. inv_bind H. inv_bind H.
  inversion H. eauto 8.
Qed.

(** Substitution into a well-formed template whose names all have a
    printable value gives the template text with each placeholder replaced
    by the printed value of its name. *)
Lemma fill_replaced (mapping : list (string * pyval))
    (value_of : string -> string) (ts : list Template.token) :
  well_formed ts = true ->
  (forall n, In n (names_of ts) ->
     exists v, dict_get n mapping = Some v /\ py_str v = Ok (value_of n)) ->
  Template.fill mapping ts = Ok (replaced value_of ts).
Proof.
  induction ts as [|t ts IH]; intros Hwf Hnames; [reflexivity|].
  destruct t as [text| |name|]; simpl in Hwf; try discriminate.
  - simpl. rewrite IH; auto.
  - simpl. rewrite IH; auto.
  - destruct (Hnames name) as (v & Hv & Hs); [left; reflexivity|].
    simpl. rewrite Hv, Hs, IH; [reflexivity | assumption |].
    intros; apply Hnames; right; auto.
Qed.

(** Replacing each placeholder of the token list by its own spelling gives
    the template back: the tokens are the template, cut at its
    placeholders. *)
Lemma template_spelling :
  replaced (fun n => String "$" n) template_tokens = geoplot_template.
Proof. vm_compute. reflexivity. Qed.

(** The mapping of [render] turns the template into the viewer document. *)
Lemma substitute_viewer_document (self : GeoPlot) (token visual start stop : string)
    (data : string) :
  py_str (cesium_token self) = Ok token ->
  py_str (visualization_type self) = Ok visual ->
  Template.substitute geoplot_template
    [("accessToken", cesium_token self);
     ("startTime", PStr start);
     ("stopTime", PStr stop);
     ("data", PStr data);
     ("visualType", visualization_type self)]
  = Ok (viewer_document token visual start stop).
Proof.
  intros Htoken Hvisual. rewrite substitute_template. unfold viewer_document.
  apply fill_replaced; [exact template_well_formed|].
  intros n Hn. rewrite template_names in Hn. simpl in Hn.
  destruct Hn as [<-|[<-|[<-|[<-|[<-|[<-|[]]]]]]];
    eexists; (split; [reflexivity|]);
    first [exact Htoken | exact Hvisual | reflexivity].
Qed.

Lemma affine_ends (start d n : Z) :
  1 <= n ->
  list_index (map (fun i => start + i * d) (range n)) 0 = Ok start /\
  list_index (map (fun i => start + i * d) (range n)) (-1)
  = Ok (start + (n - 1) * d).
Proof.
  intros Hn.
  set (ts := map (fun i => start + i * d) (range n)).
  assert (Hlen : length ts = Z.to_nat n)
    by (unfold ts; rewrite length_map, range_length; reflexivity).
  assert (Hnth : forall i, 0 <= i < n ->
            nth_error ts (Z.to_nat i) = Some (start + i * d)).
  { intros i Hi. unfold ts. rewrite nth_error_map, range_nth by lia. reflexivity. }
  split.
  - pose proof (Hnth 0 ltac:(lia)) as Hn0.
    change (Z.to_nat 0) with 0%nat in Hn0.
    unfold list_index. change (0 <? 0) with false. cbv iota.
    change (Z.to_nat 0) with 0%nat. rewrite Hn0.
    rewrite Z.mul_0_l, Z.add_0_r. reflexivity.
  - unfold list_index. change (-1 <? 0) with true. cbv iota.
    rewrite Hlen.
    destruct (-1 + Z.of_nat (Z.to_nat n) <? 0) eqn:E; [apply Z.ltb_lt in E; lia|].
    replace (Z.to_nat (-1 + Z.of_nat (Z.to_nat n))) with (Z.to_nat (n - 1)) by lia.
    rewrite Hnth by lia. reflexivity.
Qed.

(** What is left of the placeholders in a rendered viewer document: the
    token and the visualization type were printed into it, and a
    placeholder occurs in it only if one of these two holds it. *)
Lemma viewer_document_placeholders (self : GeoPlot)
    (timestamps : list Pd.Timestamp) (geojsons : list pyval)
    (mapping : list (string * pyval)) (html : string) :
  template_mapping self timestamps geojsons = Ok mapping ->
  Template.substitute geoplot_template mapping = Ok html ->
  exists token visual,
    py_str (cesium_token self) = Ok token /\
    py_str (visualization_type self) = Ok visual /\
    forall p, In p placeholders ->
      contains p token = false -> contains p visual = false ->
      contains p html = false.
Proof.
  intros Hmap Hsub.
  apply template_mapping_ok in Hmap.
  destruct Hmap as (start & stop & data & _ & _ & _ & ->).
  rewrite substitute_template in Hsub.
  destruct (fill_names _ _ _ Hsub "accessToken") as (v & token & Hv & Htoken);
    [rewrite template_names; simpl; auto|].
  destruct (fill_names _ _ _ Hsub "visualType") as (w & visual & Hw & Hvisual);
    [rewrite template_names; simpl; auto|].
  simpl in Hv, Hw. inversion Hv; subst v. inversion Hw; subst w.
  exists token, visual. split; [assumption|]. split; [assumption|].
  intros p Hp Ht Hvis.
  assert (Hvals : forall n v s,
            In n (names_of template_tokens) ->
            dict_get n [("accessToken", cesium_token self);
                        ("startTime", PStr (Pd.isoformat start));
                        ("stopTime", PStr (Pd.isoformat stop));
                        ("data", PStr data);
                        ("visualType", visualization_type self)] = Some v ->
            py_str v = Ok s ->
            forall p', p = String "$" p' -> contains p s = false).
  { intros n v s Hn Hget Hs p' Ep. rewrite template_names in Hn. simpl in Hn.
    destruct Hn as [<-|[<-|[<-|[<-|[<-|[<-|[]]]]]]]; simpl in Hget;
      inversion Hget; subst v;
      try (rewrite Htoken in Hs; inversion Hs; subst s; exact Ht);
      try (rewrite Hvisual in Hs; inversion Hs; subst s; exact Hvis);
      simpl in Hs; inversion Hs; subst s p;
      apply contains_without; apply isoformat_no_dollar. }
  unfold placeholders in Hp. simpl in Hp.
  destruct Hp as [<-|[<-|[<-|[<-|[]]]]];
    (eapply (fill_guarded "'"); [reflexivity | | exact template_guarded | exact Hsub]);
    intros n v s Hn Hget Hs; eapply Hvals; eauto.
Qed.

(** C7, as stated, fails: an access token that spells a placeholder is
    printed into the document as it is, and the placeholder is there after
    a run that completed. *)
Lemma placeholder_from_token_counterexample :
  render (demo_plot "$accessToken") [] demo_now [] = (Ok tt, placeholder_log) /\
  exists html,
    written "demo.html" placeholder_log = Some html /\
    contains "$accessToken" html = true.
Proof.
  split; [vm_compute; reflexivity|].
  eexists. split; vm_compute; reflexivity.
Qed.

(** The text of a rendered viewer document. *)
Lemma viewer_document_text (self : GeoPlot)
    (timestamps : list Pd.Timestamp) (geojsons : list pyval)
    (mapping : list (string * pyval)) (html : string) :
  template_mapping self timestamps geojsons = Ok mapping ->
  Template.substitute geoplot_template mapping = Ok html ->
  exists token visual start stop,
    py_str (cesium_token self) = Ok token /\
    py_str (visualization_type self) = Ok visual /\
    list_index timestamps 0 = Ok start /\
    list_index timestamps (-1) = Ok stop /\
    html = viewer_document token visual (Pd.isoformat start) (Pd.isoformat stop).
Proof.
  intros Hmap Hsub.
  destruct (viewer_document_placeholders _ _ _ _ _ Hmap Hsub)
    as (token & visual & Htoken & Hvisual & _).
  apply template_mapping_ok in Hmap.
  destruct Hmap as (start & stop & data & Hstart & Hstop & _ & ->).
  exists token, visual, start, stop.
  repeat (split; [assumption|]).
  rewrite (substitute_viewer_document self token visual _ _ data Htoken Hvisual)
    in Hsub.
  inversion Hsub; reflexivity.
Qed.

(** C7 (amended).  After a completed run the written viewer document is the
    template with every placeholder replaced by its value: the printed
    access token for [$accessToken], the printed visualization type for
    [$visualType], the ISO-8601 text of the first timeline entry for
    [$startTime] and of the last one for [$stopTime].  (The template is
    its token list with the six placeholders spelled out, and the document
    is that list with their values put in.)  So the document holds one of
    these four placeholders only if the access token or the visualization
    type, as printed, holds it. *)
Theorem placeholders_only_from_values (self : GeoPlot)
    (state_trajectory : list (list pyval)) (utcnow : Pd.Timestamp)
    (log log' : list event) :
  render self state_trajectory utcnow log = (Ok tt, log') ->
  exists sim_name name token visual timestamps start stop html,
    (metadata <- getitem (config self) "simulation_metadata" ;;
     getitem metadata "name") = Ok sim_name /\
    py_str sim_name = Ok name /\
    py_str (cesium_token self) = Ok token /\
    py_str (visualization_type self) = Ok visual /\
    timeline self utcnow = Ok timestamps /\
    list_index timestamps 0 = Ok start /\
    list_index timestamps (-1) = Ok stop /\
    written (name ++ ".html") log' = Some html /\
    replaced (fun n => String "$" n) template_tokens = geoplot_template /\
    names_of template_tokens
    = ["accessToken"; "visualType"; "visualType"; "visualType";
       "startTime"; "stopTime"] /\
    html = replaced (viewer_values token visual (Pd.isoformat start)
                                   (Pd.isoformat stop))
                    template_tokens /\
    forall p, In p placeholders ->
      contains p token = false -> contains p visual = false ->
      contains p html = false.
Proof.
  intros Hrun. apply render_ok in Hrun.
  destruct Hrun as (sim_name & name & coords & values & timestamps & geojsons
                    & text & mapping & html & Hname & Hstr & _ & Htl & _ & _
                    & Hmap & Hsub & ->).
  destruct (viewer_document_placeholders _ _ _ _ _ Hmap Hsub)
    as (token & visual & Htoken & Hvisual & Hp).
  destruct (viewer_document_text _ _ _ _ _ Hmap Hsub)
    as (token' & visual' & start & stop & Htoken' & Hvisual' & Hstart & Hstop
        & Hhtml).
  rewrite Htoken in Htoken'. inversion Htoken'; subst token'.
  rewrite Hvisual in Hvisual'. inversion Hvisual'; subst visual'.
  exists sim_name, name, token, visual, timestamps, start, stop, html.
  split; [exact Hname|]. split; [exact Hstr|].
  split; [exact Htoken|]. split; [exact Hvisual|].
  split; [exact Htl|]. split; [exact Hstart|]. split; [exact Hstop|].
  split; [apply written_after_run|].
  split; [exact template_spelling|]. split; [exact template_names|].
  split; [exact Hhtml | exact Hp].
Qed.

Lemma placeholders_only_from_values_witness :
  exists sim_name name token visual timestamps start stop html,
    (metadata <- getitem (config (demo_plot "token")) "simulation_metadata" ;;
     getitem metadata "name") = Ok sim_name /\
    py_str sim_name = Ok name /\
    py_str (cesium_token (demo_plot "token")) = Ok token /\
    py_str (visualization_type (demo_plot "token")) = Ok visual /\
    timeline (demo_plot "token") demo_now = Ok timestamps /\
    list_index timestamps 0 = Ok start /\
    list_index timestamps (-1) = Ok stop /\
    written (name ++ ".html") demo_log = Some html /\
    replaced (fun n => String "$" n) template_tokens = geoplot_template /\
    names_of template_tokens
    = ["accessToken"; "visualType"; "visualType"; "visualType";
       "startTime"; "stopTime"] /\
    html = replaced (viewer_values token visual (Pd.isoformat start)
                                   (Pd.isoformat stop))
                    template_tokens /\
    forall p, In p placeholders ->
      contains p token = false -> contains p visual = false ->
      contains p html = false.
Proof.
  apply (placeholders_only_from_values (demo_plot "token") three_episodes
           demo_now [] demo_log).
  vm_compute; reflexivity.
Defined.

(** *** The dataset *)

(** The viewer document does not depend on the feature collections. *)
Lemma viewer_document_ignores_dataset (self : GeoPlot)
    (timestamps : list Pd.Timestamp) (geojsons geojsons' : list pyval)
    (mapping mapping' : list (string * pyval)) :
  template_mapping self timestamps geojsons = Ok mapping ->
  template_mapping self timestamps geojsons' = Ok mapping' ->
  Template.substitute geoplot_template mapping
  = Template.substitute geoplot_template mapping'.
Proof.
  intros H H'.
  apply template_mapping_ok in H. destruct H as (s & e & d & Hs & He & _ & ->).
  apply template_mapping_ok in H'. destruct H' as (s' & e' & d' & Hs' & He' & _ & ->).
  rewrite Hs in Hs'. inversion Hs'; subst s'.
  rewrite He in He'. inversion He'; subst e'.
  rewrite !substitute_template. apply fill_ext.
  intros n Hn. rewrite template_names in Hn. simpl in Hn.
  destruct Hn as [<-|[<-|[<-|[<-|[<-|[<-|[]]]]]]]; reflexivity.
Qed.

(** C6.  A run on three episodes: the feature collections are not empty,
    their serialization is handed to the template under the name [data],
    and the written viewer document holds neither that text nor any
    feature collection. *)
Theorem viewer_document_lacks_dataset :
  exists coords values timestamps geojsons data mapping html,
    render (demo_plot "token") three_episodes demo_now [] = (Ok tt, demo_log) /\
    extract (demo_plot "token") three_episodes = Ok (coords, values) /\
    timeline (demo_plot "token") demo_now = Ok timestamps /\
    to_geojsons coords timestamps values = Ok geojsons /\
    geojsons <> [] /\
    Json.dumps (PList geojsons) = Ok data /\
    template_mapping (demo_plot "token") timestamps geojsons = Ok mapping /\
    dict_get "data" mapping = Some (PStr data) /\
    written "demo.html" demo_log = Some html /\
    contains data html = false /\
    contains "FeatureCollection" html = false /\
    ~ In "data" (names_of (Template.tokenize Template.Text [] geoplot_template)).
Proof.
  do 7 eexists.
  split; [vm_compute; reflexivity|].
  split; [vm_compute; reflexivity|].
  split; [vm_compute; reflexivity|].
  split; [vm_compute; reflexivity|].
  split; [discriminate|].
  split; [vm_compute; reflexivity|].
  split; [vm_compute; reflexivity|].
  split; [vm_compute; reflexivity|].
  split; [vm_compute; reflexivity|].
  split; [vm_compute; reflexivity|].
  split; [vm_compute; reflexivity|].
  rewrite template_tokens_eq, template_names. simpl.
  intros H. repeat (destruct H as [H|H]; [discriminate|]). exact H.
Qed.

(** ** Short trajectories *)





(** ** Missing keys *)


Lemma getitem_present (d : list (string * pyval)) (k : string) (v : pyval) :
  dict_get k d = Some v -> getitem (PDict d) k = Ok v.
Proof. intros H. unfold getitem. rewrite H. reflexivity. Qed.



(** A failure of the first step, the lookup of the name, ends the run
    before anything else happens. *)
Lemma render_name_fails (self : GeoPlot) (state_trajectory : list (list pyval))
    (utcnow : Pd.Timestamp) (log : list event) (e : exn) :
  (metadata <- getitem (config self) "simulation_metadata" ;;
   getitem metadata "name") = Raise e ->
  render self state_trajectory utcnow log = (Raise e, log).
Proof.
  intros H. unfold render. rewrite bindM_lift, H. reflexivity.
Qed.







(** * Further properties *)

(** ** Induction on nested values *)

Lemma pyval_nested_ind (P : pyval -> Prop) :
  P PNone ->
  (forall b, P (PBool b)) ->
  (forall z, P (PInt z)) ->
  (forall lit, P (PFloat lit)) ->
  (forall s, P (PStr s)) ->
  (forall l, Forall P l -> P (PList l)) ->
  (forall d, Forall (fun kv => P (snd kv)) d -> P (PDict d)) ->
  forall v, P v.
Proof.
  intros HN HB HI HF HS HL HD.
  fix IH 1. intros v. destruct v as [|b|z|lit|s|l|d].
  - exact HN.
  - apply HB.
  - apply HI.
  - apply HF.
  - apply HS.
  - apply HL. induction l as [|x t IHt]; constructor; [apply IH | exact IHt].
  - apply HD. induction d as [|[k x] t IHt]; constructor; [apply IH | exact IHt].
Qed.

(** ** When the JSON encoder succeeds *)

Lemma escape_char_plain (c : ascii) : exists s, Json.escape_char false c = Ok s.
Proof.
  unfold Json.escape_char. cbn [negb].
  repeat match goal with
         | |- context [if ?b then _ else _] => destruct b
         end; eexists; reflexivity.
Qed.

Lemma escape_plain (s : string) : exists e, Json.escape false s = Ok e.
Proof.
  induction s as [|c s [e He]]; [eexists; reflexivity|].
  destruct (escape_char_plain c) as [x Hx].
  cbn [Json.escape]. rewrite Hx, He. eexists; reflexivity.
Qed.

Lemma encode_string_plain (s : string) :
  exists e, Json.encode_string false s = Ok e.
Proof.
  unfold Json.encode_string. destruct (escape_plain s) as [e He].
  rewrite He. eexists; reflexivity.
Qed.

Lemma escape_char_ascii (c : ascii) :
  (nat_of_ascii c <? 128)%nat = true ->
  exists s, Json.escape_char true c = Ok s.
Proof.
  intros H. apply Nat.ltb_lt in H. unfold Json.escape_char. cbn [negb].
  repeat match goal with
         | |- context [if ?b then _ else _] => destruct b eqn:?
         end; try (eexists; reflexivity).
  exfalso.
  repeat match goal with
         | E : (_ <? _)%nat = false |- _ => apply Nat.ltb_ge in E
         | E : (_ =? _)%nat = false |- _ => apply Nat.eqb_neq in E
         end. lia.
Qed.

Lemma escape_ascii (s : string) :
  ascii_text s = true -> exists e, Json.escape true s = Ok e.
Proof.
  induction s as [|c s IH]; intros H; [eexists; reflexivity|].
  cbn [ascii_text] in H. apply andb_true_iff in H. destruct H as [Hc Hs].
  destruct (escape_char_ascii c Hc) as [x Hx]. destruct (IH Hs) as [e He].
  cbn [Json.escape]. rewrite Hx, He. eexists; reflexivity.
Qed.

Lemma encode_string_ascii (s : string) :
  ascii_text s = true -> exists e, Json.encode_string true s = Ok e.
Proof.
  intros H. unfold Json.encode_string. destruct (escape_ascii s H) as [e He].
  rewrite He. eexists; reflexivity.
Qed.

Lemma encode_string_safe (ensure_ascii : bool) (s : string) :
  ascii_text s = true -> exists e, Json.encode_string ensure_ascii s = Ok e.
Proof.
  intros H. destruct ensure_ascii;
    [apply encode_string_ascii; exact H | apply encode_string_plain].
Qed.

(** The encoder succeeds, with or without [ensure_ascii], on values whose
    strings are ASCII and whose integers can be printed. *)
Lemma encode_json_safe (ensure_ascii : bool) (indent : option string)
    (v : pyval) :
  json_safe v = true ->
  forall level, exists s, Json.encode ensure_ascii indent level v = Ok s.
Proof.
  induction v as [|b|z|lit|s|l IH|d IH] using pyval_nested_ind;
    intros Hsafe level.
  - eexists; reflexivity.
  - destruct b; eexists; reflexivity.
  - cbn [json_safe] in Hsafe. cbn [Json.encode]. unfold int_str.
    rewrite Hsafe. eexists; reflexivity.
  - eexists; reflexivity.
  - apply encode_string_safe. exact Hsafe.
  - cbn [json_safe] in Hsafe. rewrite forallb_forall in Hsafe.
    assert (Hgo : exists parts,
              (fix go (l : list pyval) : result (list string) :=
                 match l with
                 | [] => Ok []
                 | x :: t =>
                     s <- Json.encode ensure_ascii indent (S level) x ;;
                     r <- go t ;; Ok (s :: r)
                 end) l = Ok parts).
    { induction IH as [|y r Hy _ IHr]; [eexists; reflexivity|].
      destruct (Hy (Hsafe y (or_introl eq_refl)) (S level)) as [sy Hsy].
      destruct IHr as [ps Hps]; [intros; apply Hsafe; right; assumption|].
      rewrite Hsy; cbn [bind]. rewrite Hps. eexists; reflexivity. }
    destruct Hgo as [parts Hparts].
    destruct l as [|x t]; [eexists; reflexivity|].
    cbn [Json.encode]. rewrite Hparts. eexists; reflexivity.
  - cbn [json_safe] in Hsafe. rewrite forallb_forall in Hsafe.
    assert (Hgo : exists parts,
              (fix go (l : list (string * pyval)) : result (list string) :=
                 match l with
                 | [] => Ok []
                 | (k, x) :: t =>
                     ks <- Json.encode_string ensure_ascii k ;;
                     s <- Json.encode ensure_ascii indent (S level) x ;;
                     r <- go t ;; Ok ((ks ++ ": " ++ s) :: r)
                 end) d = Ok parts).
    { induction IH as [|[k' y] r Hy _ IHr]; [eexists; reflexivity|].
      pose proof (Hsafe (k', y) (or_introl eq_refl)) as Hky.
      cbn [fst snd] in Hky. apply andb_true_iff in Hky. destruct Hky as [Hk Hyy].
      destruct (encode_string_safe ensure_ascii k' Hk) as [sk Hsk].
      destruct (Hy Hyy (S level)) as [sy Hsy]. cbn [snd] in Hsy.
      destruct IHr as [ps Hps]; [intros; apply Hsafe; right; assumption|].
      rewrite Hsk; cbn [bind]. rewrite Hsy; cbn [bind].
      rewrite Hps. eexists; reflexivity. }
    destruct Hgo as [parts Hparts].
    destruct d as [|[k x] t]; [eexists; reflexivity|].
    cbn [Json.encode]. rewrite Hparts. eexists; reflexivity.
Qed.

Lemma dump_indent2_json_safe (v : pyval) :
  json_safe v = true -> exists text, Json.dump_indent2 v = Ok text.
Proof. intros H. apply encode_json_safe. exact H. Qed.

(** The integers of an array are far below the limit of the printer. *)
Lemma int64_prints (z : Z) :
  Np.int64 z = true -> (Z.abs z <? int_str_limit) = true.
Proof.
  unfold Np.int64. intros H. apply andb_prop in H as [Hlo Hhi].
  apply Z.leb_le in Hlo. apply Z.ltb_lt in Hhi.
  assert (Hlim : 9223372036854775808 < int_str_limit)
    by (vm_compute; reflexivity).
  apply Z.ltb_lt. lia.
Qed.

Lemma numeric_json_safe (v : pyval) : numeric v = true -> json_safe v = true.
Proof.
  induction v as [|b|z|lit|s|l IH|d IH] using pyval_nested_ind;
    intros H; try reflexivity; try discriminate.
  { cbn [numeric] in H. cbn [json_safe]. apply int64_prints. exact H. }
  cbn [numeric] in H. cbn [json_safe].
  rewrite forallb_forall in *. intros x Hx.
  rewrite Forall_forall in IH. apply IH; auto.
Qed.

(** ** The array conversions *)

Lemma firstn_length_app {A} (l r : list A) : firstn (length l) (l ++ r) = l.
Proof. induction l as [|x l IH]; simpl; [destruct r; reflexivity | rewrite IH; reflexivity]. Qed.

Lemma skipn_length_app {A} (l r : list A) : skipn (length l) (l ++ r) = r.
Proof. induction l as [|x l IH]; simpl; [reflexivity | exact IH]. Qed.

(** Cutting a concatenation of equally long rows gives the rows back. *)
Lemma chunks_concat {A} (size : nat) (rows : list (list A)) :
  Forall (fun row => length row = size) rows ->
  Np.chunks (length rows) size (concat rows) = rows.
Proof.
  induction 1 as [|row rows Hrow _ IH]; [reflexivity|].
  simpl. subst size. rewrite firstn_length_app, skipn_length_app, IH.
  reflexivity.
Qed.

Lemma length_concat_rows {A} (size : nat) (rows : list (list A)) :
  Forall (fun row => length row = size) rows ->
  length (concat rows) = (length rows * size)%nat.
Proof.
  induction 1 as [|row rows Hrow _ IH]; [reflexivity|].
  simpl. rewrite length_app, IH, Hrow. reflexivity.
Qed.

Lemma chunks_singletons {A} (l : list A) :
  Np.chunks (length l) 1 l = map (fun x => [x]) l.
Proof.
  induction l as [|x l IH]; [reflexivity|]. simpl. rewrite IH. reflexivity.
Qed.

Lemma tolist_flatten (a : Np.ndarray) :
  Np.tolist (Np.flatten a) = PList (Np.items a).
Proof.
  unfold Np.tolist, Np.flatten. simpl.
  rewrite chunks_singletons, map_map. simpl. rewrite map_id. reflexivity.
Qed.

Lemma build_elements (l : list pyval) (subs : list Np.ndarray) :
  (fix go (l : list pyval) : result (list Np.ndarray) :=
     match l with
     | [] => Ok []
     | x :: t => a <- Np.build x ;; r <- go t ;; Ok (a :: r)
     end) l = Ok subs ->
  Forall2 (fun x a => Np.build x = Ok a) l subs.
Proof.
  revert subs; induction l as [|x t IH]; intros subs H.
  - inversion H. constructor.
  - inv_bind H. inv_bind H. inversion H; subst. constructor; auto.
Qed.

Lemma stack_ok (subs : list Np.ndarray) (a : Np.ndarray) :
  Np.stack subs = Ok a ->
  (subs = [] /\ a = Np.mk_ndarray [0%nat] []) \/
  (exists sh, subs <> [] /\
     Forall (fun b => Np.shape b = sh) subs /\
     a = Np.mk_ndarray (length subs :: sh) (concat (map Np.items subs))).
Proof.
  unfold Np.stack. destruct subs as [|a0 rest]; intros H.
  - left. inversion H. auto.
  - right. destruct (forallb _ rest) eqn:E; [|discriminate].
    inversion H; subst a. exists (Np.shape a0).
    split; [discriminate|]. split; [|reflexivity].
    constructor; [reflexivity|].
    rewrite forallb_forall in E. apply Forall_forall. intros b Hb.
    specialize (E b Hb). unfold Np.shape_eqb in E.
    destruct (list_eq_dec Nat.eq_dec (Np.shape a0) (Np.shape b)); congruence.
Qed.

(** What the conversion of a nested list holds: its scalars in row-major
    order, as many as the shape says, and enough to give the list back. *)
Lemma build_spec (v : pyval) :
  forall a, Np.build v = Ok a ->
    Np.items a = leaves v /\
    Forall (fun x => is_scalar x = true) (Np.items a) /\
    length (Np.items a) = fold_right Nat.mul 1%nat (Np.shape a) /\
    Np.unflatten (Np.shape a) (Np.items a) = v.
Proof.
  induction v as [|b|z|lit|s|l IH|d IH] using pyval_nested_ind; intros a H;
    try discriminate;
    try (cbn [Np.build] in H; destruct (Np.int64 z) eqn:Ez; [|discriminate];
         inversion H; subst a; cbn [Np.items Np.shape leaves];
         repeat split; auto; fail);
    try (inversion H; subst a; simpl; repeat split; auto; fail).
  cbn [Np.build] in H. inv_bind H. rename x into subs.
  apply build_elements in Hx.
  assert (Hall : Forall2 (fun x b =>
                   Np.items b = leaves x /\
                   Forall (fun y => is_scalar y = true) (Np.items b) /\
                   length (Np.items b) = fold_right Nat.mul 1%nat (Np.shape b) /\
                   Np.unflatten (Np.shape b) (Np.items b) = x) l subs).
  { clear H. induction Hx as [|x b l subs Hb _ IHx]; [constructor|].
    inversion IH; subst. constructor; auto. }
  clear IH Hx.
  apply stack_ok in H. destruct H as [[-> ->]|(sh & Hne & Hsh & ->)].
  - inversion Hall; subst. simpl. repeat split; auto.
  - cbn [Np.items Np.shape].
    assert (Hitems : concat (map Np.items subs) = flat_map leaves l).
    { clear Hne Hsh. induction Hall as [|x b l subs (Hi & _) _ IHa]; [reflexivity|].
      simpl. rewrite Hi, IHa. reflexivity. }
    assert (Hrows : Forall (fun row => length row = fold_right Nat.mul 1%nat sh)
                           (map Np.items subs)).
    { clear Hne Hitems. apply Forall_map.
      induction Hall as [|x b l subs (_ & _ & Hl & _) _ IHa]; [constructor|].
      inversion Hsh; subst. constructor; auto. }
    split; [exact Hitems|]. split; [|split].
    + clear Hne Hsh Hitems Hrows.
      induction Hall as [|x b l subs (_ & Hs & _) _ IHa]; [constructor|].
      simpl. apply Forall_app. auto.
    + rewrite (length_concat_rows _ _ Hrows), length_map. reflexivity.
    + cbn [Np.unflatten]. rewrite <- (length_map Np.items subs).
      rewrite (chunks_concat _ _ Hrows). rewrite map_map. f_equal.
      clear Hne Hitems Hrows.
      induction Hall as [|x b l subs (_ & _ & _ & Hu) _ IHa]; [reflexivity|].
      pose proof (Forall_inv Hsh) as Hb. pose proof (Forall_inv_tail Hsh) as Hrest.
      simpl. f_equal; [rewrite <- Hb; exact Hu | apply IHa; exact Hrest].
Qed.

Lemma chunks_map {A B} (f : A -> B) (count size : nat) (l : list A) :
  Np.chunks count size (map f l) = map (map f) (Np.chunks count size l).
Proof.
  revert l; induction count as [|c IH]; intros l; [reflexivity|].
  cbn [Np.chunks map]. rewrite firstn_map, skipn_map, IH. reflexivity.
Qed.

Lemma Forall_firstn_skipn {A} (P : A -> Prop) (n : nat) (l : list A) :
  Forall P l -> Forall P (firstn n l) /\ Forall P (skipn n l).
Proof.
  revert l; induction n as [|n IH]; intros l H.
  - split; [constructor | exact H].
  - destruct l as [|x l]; [split; constructor|].
    destruct (IH l (Forall_inv_tail H)) as [Hf Hs].
    split; [constructor; [exact (Forall_inv H) | exact Hf] | exact Hs].
Qed.

(** The chunks of a list of [count * size] items have [size] items each. *)
Lemma chunks_rows {A} (P : A -> Prop) (count size : nat) (l : list A) :
  Forall P l -> length l = (count * size)%nat ->
  Forall (fun row => Forall P row /\ length row = size)
         (Np.chunks count size l).
Proof.
  revert l; induction count as [|c IH]; intros l HP Hlen; [constructor|].
  cbn [Np.chunks]. destruct (Forall_firstn_skipn P size l HP) as [Hf Hs].
  constructor.
  - split; [exact Hf|]. rewrite length_firstn. simpl in Hlen. lia.
  - apply IH; [exact Hs|]. rewrite length_skipn. simpl in Hlen. lia.
Qed.

Lemma cast_as_kind (k : Np.kind) (l l' : list pyval) :
  mapM (Np.cast k) l = Ok l' -> l' = map (as_kind k) l.
Proof.
  apply mapM_ok_map. intros x y _ H. unfold as_kind. rewrite H. reflexivity.
Qed.

Lemma as_kind_scalar (k : Np.kind) (x : pyval) :
  is_scalar x = true -> is_scalar (as_kind k x) = true.
Proof.
  unfold as_kind.
  destruct k, x as [|b|z|lit|s|l|d]; cbn [Np.cast]; intros H;
    try discriminate; try exact H; try reflexivity;
    try (destruct b; reflexivity).
  destruct (Z.abs z <=? Float.exact_limit); [reflexivity | exact H].
Qed.

Lemma as_kind_same (k : Np.kind) (x : pyval) :
  Np.scalar_kind x = Some k -> as_kind k x = x.
Proof.
  unfold as_kind.
  destruct k, x as [|b|z|lit|s|l|d]; cbn [Np.cast Np.scalar_kind]; intros H;
    try discriminate; reflexivity.
Qed.

Lemma common_kind_same (k : Np.kind) (l : list pyval) :
  l <> [] -> Forall (fun x => Np.scalar_kind x = Some k) l ->
  Np.common_kind l = k.
Proof.
  induction l as [|x l IH]; intros Hne H; [contradiction|].
  cbn [Np.common_kind]. rewrite (Forall_inv H).
  destruct l as [|y l]; [destruct k; reflexivity|].
  rewrite IH; [destruct k; reflexivity | discriminate | exact (Forall_inv_tail H)].
Qed.

(** Converting the items of an array converts the numbers of its list. *)
Lemma unflatten_as_kind (k : Np.kind) (shape : list nat) :
  forall l,
    Forall (fun x => is_scalar x = true) l ->
    length l = fold_right Nat.mul 1%nat shape ->
    Np.unflatten shape (map (as_kind k) l) = promote k (Np.unflatten shape l).
Proof.
  induction shape as [|n rest IH]; intros l Hs Hlen.
  - destruct l as [|x [|y l]]; try discriminate.
    cbn [Np.unflatten map hd].
    pose proof (Forall_inv Hs) as Hx.
    destruct x; try discriminate; reflexivity.
  - cbn [Np.unflatten promote]. cbn [fold_right] in Hlen.
    rewrite chunks_map, !map_map. f_equal.
    pose proof (chunks_rows _ n _ l Hs Hlen) as Hrows.
    apply map_ext_in. intros row Hrow.
    rewrite Forall_forall in Hrows. destruct (Hrows row Hrow) as [HP Hl].
    apply IH; assumption.
Qed.

Lemma promote_same (k : Np.kind) (v : pyval) :
  Forall (fun x => Np.scalar_kind x = Some k) (leaves v) -> promote k v = v.
Proof.
  induction v as [|b|z|lit|s|l IH|d IH] using pyval_nested_ind; intros H;
    try (apply as_kind_same; exact (Forall_inv H)).
  cbn [promote]. f_equal. cbn [leaves] in H.
  induction l as [|x l IHl]; [reflexivity|].
  cbn [flat_map] in H. apply Forall_app in H. destruct H as [Hx Hl].
  cbn [map]. f_equal.
  - apply (Forall_inv IH). exact Hx.
  - apply IHl; [exact (Forall_inv_tail IH) | exact Hl].
Qed.

Lemma leaves_promote (k : Np.kind) (v : pyval) :
  leaves (promote k v) = map (as_kind k) (leaves v).
Proof.
  induction v as [|b|z|lit|s|l IH|d IH] using pyval_nested_ind;
    try (destruct k; reflexivity).
  - destruct k; try reflexivity. cbn [promote leaves map]. unfold as_kind.
    cbn [Np.cast]. destruct (Z.abs z <=? Float.exact_limit); reflexivity.
  - cbn [promote leaves]. rewrite !flat_map_concat_map, concat_map, !map_map.
    f_equal. apply map_ext_in. intros x Hx.
    rewrite Forall_forall in IH. apply IH; exact Hx.
Qed.

(** What [np.array] gives: the array of the list, its items converted to
    their common kind. *)
Lemma array_spec (v : pyval) (a : Np.ndarray) :
  Np.array v = Ok a ->
  exists b,
    Np.build v = Ok b /\
    Np.shape a = Np.shape b /\
    Np.items a = map (as_kind (Np.common_kind (leaves v))) (leaves v) /\
    Np.tolist a = promote (Np.common_kind (leaves v)) v.
Proof.
  unfold Np.array. intros H. inv_bind H. rename x into b.
  destruct (length (Np.shape b) <=? 32)%nat; [|discriminate].
  inv_bind H. inversion H; subst a; clear H.
  apply cast_as_kind in Hx0. subst x.
  destruct (build_spec _ _ Hx) as (Hitems & Hscalar & Hlen & Hback).
  exists b. split; [exact Hx|]. split; [reflexivity|].
  cbn [Np.items]. rewrite Hitems. split; [reflexivity|].
  unfold Np.tolist. cbn [Np.shape Np.items]. rewrite <- Hitems.
  rewrite (unflatten_as_kind _ _ _ Hscalar Hlen), Hback. reflexivity.
Qed.

Lemma array_scalars (v : pyval) (a : Np.ndarray) :
  Np.array v = Ok a -> Forall (fun x => is_scalar x = true) (Np.items a).
Proof.
  intros H. pose proof H as H'. apply array_spec in H'.
  destruct H' as (b & Hb & _ & Hitems & _).
  destruct (build_spec _ _ Hb) as (Hleaves & Hscalar & _ & _).
  rewrite Hitems, <- Hleaves. apply Forall_map.
  eapply Forall_impl; [|exact Hscalar]. intros x. apply as_kind_scalar.
Qed.

(** X1.  The coordinates handed on by the loop are the value the
    coordinates path resolves to with each of its numbers converted to
    the widest kind among them (boolean, integer, float), whenever that
    value is what the array conversion is modelled for (a rectangular
    nested list of booleans, [int64] integers and floats, at most 32
    deep); every entry of them is a number, and they are the resolved
    value itself when its numbers are of one kind. *)
Theorem read_coords_is_resolved_value (self : GeoPlot) (final_state coords : pyval) :
  read_coords self final_state = Ok coords ->
  exists position,
    read_var final_state (entity_position self) = Ok position /\
    coords = promote (Np.common_kind (leaves position)) position /\
    leaves coords
    = map (as_kind (Np.common_kind (leaves position))) (leaves position) /\
    Forall (fun x => is_scalar x = true) (leaves coords) /\
    (forall k, Forall (fun x => Np.scalar_kind x = Some k) (leaves position) ->
               coords = position).
Proof.
  unfold read_coords. intros H. inv_bind H. inv_bind H. inversion H; subst coords.
  rename x into position, x0 into a.
  pose proof (array_scalars _ _ Hx0) as Hscalar.
  pose proof Hx0 as Harr. apply array_spec in Harr.
  destruct Harr as (b & Hb & Hshape & Hitems & Htolist).
  assert (Hleaves : leaves (Np.tolist a) = Np.items a)
    by (rewrite Htolist, Hitems; apply leaves_promote).
  exists position. split; [exact Hx|]. split; [exact Htolist|].
  split; [rewrite Hleaves; exact Hitems|].
  split; [rewrite Hleaves; exact Hscalar|].
  intros k Hk. rewrite Htolist.
  destruct (leaves position) as [|y r] eqn:El.
  - clear - El. revert El.
    induction position as [|c|z|lit|s|l IH|d IH] using pyval_nested_ind;
      try discriminate.
    intros El. cbn [promote]. f_equal. cbn [leaves] in El.
    induction l as [|x l IHl]; [reflexivity|].
    cbn [flat_map] in El. apply app_eq_nil in El. destruct El as [Ex El].
    cbn [map]. f_equal.
    + pose proof (Forall_inv IH Ex) as Hp.
      cbn [Np.common_kind] in Hp |- *. exact Hp.
    + apply IHl; [exact (Forall_inv_tail IH) | exact El].
  - rewrite <- El in *.
    rewrite (common_kind_same k); [apply promote_same; exact Hk | | exact Hk].
    rewrite El. discriminate.
Qed.

Lemma read_coords_is_resolved_value_witness :
  exists position,
    read_var mixed_snapshot (entity_position (demo_plot "token")) = Ok position /\
    PList [PList [PFloat "1.0"; PFloat "2.5"]]
    = promote (Np.common_kind (leaves position)) position /\
    leaves (PList [PList [PFloat "1.0"; PFloat "2.5"]])
    = map (as_kind (Np.common_kind (leaves position))) (leaves position) /\
    Forall (fun x => is_scalar x = true)
           (leaves (PList [PList [PFloat "1.0"; PFloat "2.5"]])) /\
    (forall k, Forall (fun x => Np.scalar_kind x = Some k) (leaves position) ->
               PList [PList [PFloat "1.0"; PFloat "2.5"]] = position).
Proof.
  apply (read_coords_is_resolved_value (demo_plot "token") mixed_snapshot).
  reflexivity.
Defined.

(** X2.  The value array of an episode is the flat list of the numbers of
    the resolved property, in row-major order, whatever its nesting, each
    converted to the widest kind among them (on the values the array
    conversion is modelled for, as in X1). *)
Theorem read_values_is_flat (self : GeoPlot) (final_state value_list : pyval) :
  read_values self final_state = Ok value_list ->
  exists property,
    read_var final_state (entity_property self) = Ok property /\
    value_list
    = PList (map (as_kind (Np.common_kind (leaves property))) (leaves property)) /\
    Forall (fun x => is_scalar x = true) (leaves value_list) /\
    (forall k, Forall (fun x => Np.scalar_kind x = Some k) (leaves property) ->
               value_list = PList (leaves property)).
Proof.
  unfold read_values. intros H. inv_bind H. inv_bind H. inversion H; subst.
  rename x into property, x0 into a.
  pose proof (array_scalars _ _ Hx0) as Hscalar.
  pose proof Hx0 as Harr. apply array_spec in Harr.
  destruct Harr as (b & Hb & Hshape & Hitems & _).
  exists property. split; [exact Hx|]. rewrite tolist_flatten.
  split; [rewrite Hitems; reflexivity|]. split.
  - cbn [leaves]. rewrite flat_map_concat_map.
    assert (Hflat : concat (map leaves (Np.items a)) = Np.items a).
    { clear - Hscalar. induction Hscalar as [|x l Hx _ IH]; [reflexivity|].
      cbn [map concat]. rewrite IH.
      destruct x; try discriminate; reflexivity. }
    rewrite Hflat. exact Hscalar.
  - intros k Hk. rewrite Hitems. f_equal.
    destruct (leaves property) as [|y r] eqn:El; [reflexivity|].
    rewrite <- El in *.
    rewrite (common_kind_same k); [| rewrite El; discriminate | exact Hk].
    rewrite <- (map_id (leaves property)) at 2.
    apply map_ext_in. intros x Hin. rewrite Forall_forall in Hk.
    apply as_kind_same. apply Hk. exact Hin.
Qed.

Lemma read_values_is_flat_witness :
  exists property,
    read_var mixed_snapshot (entity_property (demo_plot "token")) = Ok property /\
    PList [PInt 1; PInt 7]
    = PList (map (as_kind (Np.common_kind (leaves property))) (leaves property)) /\
    Forall (fun x => is_scalar x = true) (leaves (PList [PInt 1; PInt 7])) /\
    (forall k, Forall (fun x => Np.scalar_kind x = Some k) (leaves property) ->
               PList [PInt 1; PInt 7] = PList (leaves property)).
Proof.
  apply (read_values_is_flat (demo_plot "token") mixed_snapshot).
  reflexivity.
Defined.

(** ** More on the extraction loop *)

Lemma foldM_app {A B} (f : A -> B -> result A) (l1 l2 : list B) (acc : A) :
  foldM f acc (l1 ++ l2) = (acc' <- foldM f acc l1 ;; foldM f acc' l2).
Proof.
  revert acc; induction l1 as [|x t IH]; intros acc; [reflexivity|].
  simpl. destruct (f acc x); simpl; [apply IH | reflexivity].
Qed.

Lemma loop_body_reads (self : GeoPlot) (state_trajectory : list (list pyval))
    (acc : pyval * list pyval) (i : Z) :
  loop_body self state_trajectory acc i =
  (cv <- episode_reads self state_trajectory i ;;
   Ok (fst cv, (snd acc ++ [snd cv])%list)).
Proof.
  unfold loop_body, episode_reads, extract_state.
  destruct (final_state_of state_trajectory i) as [s|]; [|reflexivity].
  cbn [bind]. destruct (read_coords self s); [|reflexivity].
  cbn [bind]. destruct (read_values self s); reflexivity.
Qed.

Lemma last_cons_default {A} (l : list A) (x d : A) :
  last (x :: l) d = last l x.
Proof.
  revert x d; induction l as [|y l IH]; intros x d; [reflexivity|].
  change (last (x :: y :: l) d) with (last (y :: l) d).
  rewrite (IH y d). symmetry. apply IH.
Qed.

(** The loop as a map: it reads the episodes in order, stops at the first
    one it cannot read, keeps every value list and the last coordinates. *)
Lemma loop_as_map (self : GeoPlot) (state_trajectory : list (list pyval))
    (indices : list Z) :
  forall c0 vs0,
    foldM (loop_body self state_trajectory) (c0, vs0) indices =
    (cvs <- mapM (episode_reads self state_trajectory) indices ;;
     Ok (last (map fst cvs) c0, (vs0 ++ map snd cvs)%list)).
Proof.
  induction indices as [|i rest IH]; intros c0 vs0.
  - simpl. rewrite app_nil_r. reflexivity.
  - cbn [foldM mapM]. rewrite loop_body_reads.
    destruct (episode_reads self state_trajectory i) as [[c v]|]; [|reflexivity].
    cbn [bind fst snd]. rewrite IH.
    destruct (mapM (episode_reads self state_trajectory) rest) as [cvs|];
      [|reflexivity].
    cbn [bind map fst snd]. rewrite <- app_assoc, last_cons_default.
    reflexivity.
Qed.

Lemma extract_as_map (self : GeoPlot) (state_trajectory : list (list pyval)) :
  extract self state_trajectory =
  (cvs <- mapM (episode_reads self state_trajectory)
               (range (Z.of_nat (length state_trajectory) - 1)) ;;
   Ok (last (map fst cvs) (PList []), map snd cvs)).
Proof. unfold extract. rewrite loop_as_map. reflexivity. Qed.

Lemma mapM_first_error {A B} (f : A -> result B) (l1 l2 : list A) (x : A)
    (e : exn) :
  (forall y, In y l1 -> exists b, f y = Ok b) ->
  f x = Raise e ->
  mapM f (l1 ++ x :: l2) = Raise e.
Proof.
  induction l1 as [|y t IH]; intros Hok Hx; simpl.
  - rewrite Hx. reflexivity.
  - destruct (Hok y (or_introl eq_refl)) as [b Hb]. rewrite Hb. cbn [bind].
    rewrite IH; [reflexivity | intros; apply Hok; right; auto | exact Hx].
Qed.

Lemma mapM_app {A B} (f : A -> result B) (l1 l2 : list A) :
  mapM f (l1 ++ l2) =
  (r1 <- mapM f l1 ;; r2 <- mapM f l2 ;; Ok (r1 ++ r2)%list).
Proof.
  induction l1 as [|x t IH]; simpl.
  - destruct (mapM f l2); reflexivity.
  - destruct (f x); [|reflexivity]. cbn [bind]. rewrite IH.
    destruct (mapM f t); [|reflexivity]. cbn [bind].
    destruct (mapM f l2); reflexivity.
Qed.

Lemma range_succ (n : nat) :
  range (Z.of_nat (S n)) = (range (Z.of_nat n) ++ [Z.of_nat n])%list.
Proof.
  rewrite !range_nat, seq_S, map_app. reflexivity.
Qed.

Lemma range_split (n i : nat) :
  (i < n)%nat ->
  range (Z.of_nat n) =
  (range (Z.of_nat i) ++ Z.of_nat i :: map Z.of_nat (seq (S i) (n - S i)))%list.
Proof.
  intros H. rewrite !range_nat.
  replace n with (i + (1 + (n - S i)))%nat at 1 by lia.
  rewrite seq_app, map_app. simpl. reflexivity.
Qed.

Lemma list_index_app_left {A} (l r : list A) (i : Z) :
  0 <= i < Z.of_nat (length l) -> list_index (l ++ r) i = list_index l i.
Proof.
  intros H. unfold list_index.
  destruct (i <? 0) eqn:E; [apply Z.ltb_lt in E; lia|].
  rewrite E. rewrite nth_error_app1 by lia. reflexivity.
Qed.

Lemma list_index_app_here {A} (l r : list A) (x : A) :
  list_index (l ++ x :: r) (Z.of_nat (length l)) = Ok x.
Proof.
  unfold list_index.
  destruct (Z.of_nat (length l) <? 0) eqn:E; [apply Z.ltb_lt in E; lia|].
  rewrite E, Nat2Z.id, nth_error_app2, Nat.sub_diag by lia. reflexivity.
Qed.

Lemma episode_reads_app_left (self : GeoPlot) (t r : list (list pyval)) (i : Z) :
  0 <= i < Z.of_nat (length t) ->
  episode_reads self (t ++ r) i = episode_reads self t i.
Proof.
  intros H. unfold episode_reads, final_state_of.
  rewrite list_index_app_left by exact H. reflexivity.
Qed.

(** X3.  After a completed loop over at least two episodes the coordinates
    are those read from the final snapshot of the last episode but one;
    the coordinates of every earlier processed episode were read as well,
    and had to resolve, although nothing of them is kept. *)
Theorem extract_keeps_last_processed_coordinates (self : GeoPlot)
    (state_trajectory : list (list pyval)) (coords : pyval)
    (values : list pyval) :
  (2 <= length state_trajectory)%nat ->
  extract self state_trajectory = Ok (coords, values) ->
  (exists value_list,
     episode_reads self state_trajectory
       (Z.of_nat (length state_trajectory - 2)) = Ok (coords, value_list)) /\
  (forall i : nat, (i < length state_trajectory - 1)%nat ->
     exists c v, episode_reads self state_trajectory (Z.of_nat i) = Ok (c, v)).
Proof.
  intros Hlen H. rewrite extract_as_map in H.
  replace (Z.of_nat (length state_trajectory) - 1)
    with (Z.of_nat (S (length state_trajectory - 2))) in H by lia.
  inv_bind H. rename x into cvs. inversion H; subst coords values; clear H.
  split.
  - rewrite range_succ, mapM_app in Hx. inv_bind Hx. inv_bind Hx.
    inversion Hx; subst cvs; clear Hx.
    cbn [mapM] in Hx1. inv_bind Hx1. inversion Hx1; subst x0.
    destruct x1 as [c v]. exists v.
    rewrite map_app. cbn [map fst]. rewrite last_last. exact Hx.
  - intros i Hi. apply mapM_Forall2 in Hx.
    assert (Hn : nth_error (range (Z.of_nat (S (length state_trajectory - 2))))
                           (Z.to_nat (Z.of_nat i)) = Some (Z.of_nat i))
      by (apply range_nth; lia).
    rewrite Nat2Z.id in Hn.
    assert (Hlt : (i < length cvs)%nat).
    { rewrite <- (Forall2_length Hx), range_length. lia. }
    destruct (nth_error cvs i) as [[c v]|] eqn:E;
      [|apply nth_error_None in E; lia].
    exists c, v. exact (Forall2_nth_error _ _ _ Hx i _ _ Hn E).
Qed.

Lemma extract_keeps_last_processed_coordinates_witness :
  (exists value_list,
     episode_reads (demo_plot "token") three_episodes
       (Z.of_nat (length three_episodes - 2))
     = Ok (PList [PList [PFloat "3.0"; PFloat "4.0"]], value_list)) /\
  (forall i : nat, (i < length three_episodes - 1)%nat ->
     exists c v,
       episode_reads (demo_plot "token") three_episodes (Z.of_nat i) = Ok (c, v)).
Proof.
  apply (extract_keeps_last_processed_coordinates (demo_plot "token")
           three_episodes _ [PList [PFloat "5.0"]; PList [PFloat "6.0"]]);
    [simpl; lia | reflexivity].
Defined.

Lemma extract_fails_at (self : GeoPlot) (state_trajectory : list (list pyval))
    (i : nat) (e : exn) :
  (i < length state_trajectory - 1)%nat ->
  (forall j : nat, (j < i)%nat ->
     exists cv, episode_reads self state_trajectory (Z.of_nat j) = Ok cv) ->
  episode_reads self state_trajectory (Z.of_nat i) = Raise e ->
  extract self state_trajectory = Raise e.
Proof.
  intros Hi Hbefore Hfail. rewrite extract_as_map.
  replace (Z.of_nat (length state_trajectory) - 1)
    with (Z.of_nat (length state_trajectory - 1)) by lia.
  rewrite (range_split _ i Hi), mapM_first_error with (e := e);
    [reflexivity | | exact Hfail].
  intros y Hy. apply in_range in Hy.
  rewrite <- (Z2Nat.id y) by lia. apply Hbefore. lia.
Qed.




Lemma render_extract_fails (self : GeoPlot)
    (state_trajectory : list (list pyval)) (utcnow : Pd.Timestamp)
    (log : list event) (sim_name : pyval) (name : string) (e : exn) :
  (metadata <- getitem (config self) "simulation_metadata" ;;
   getitem metadata "name") = Ok sim_name ->
  py_str sim_name = Ok name ->
  extract self state_trajectory = Raise e ->
  render self state_trajectory utcnow log = (Raise e, log).
Proof.
  intros Hname Hstr Hext. unfold render.
  generalize (Template.substitute geoplot_template). intros subst.
  rewrite bindM_lift, Hname; cbn [bind].
  rewrite bindM_lift, Hstr; cbn [bind].
  rewrite bindM_lift; cbn [bind].
  rewrite bindM_lift, Hext. reflexivity.
Qed.

(** X4.  The loop stops at the first processed episode it cannot read and
    its error is the error of [render], which has touched no file by then;
    an empty episode is such a failure, with an [IndexError]. *)
Theorem first_unreadable_episode_fails (self : GeoPlot)
    (state_trajectory : list (list pyval)) (utcnow : Pd.Timestamp)
    (log : list event) (sim_name : pyval) (name : string) (i : nat) (e : exn) :
  (metadata <- getitem (config self) "simulation_metadata" ;;
   getitem metadata "name") = Ok sim_name ->
  py_str sim_name = Ok name ->
  (i < length state_trajectory - 1)%nat ->
  (forall j : nat, (j < i)%nat ->
     exists cv, episode_reads self state_trajectory (Z.of_nat j) = Ok cv) ->
  episode_reads self state_trajectory (Z.of_nat i) = Raise e \/
  (nth_error state_trajectory i = Some [] /\ e = IndexError) ->
  extract self state_trajectory = Raise e /\
  render self state_trajectory utcnow log = (Raise e, log).
Proof.
  intros Hname Hstr Hi Hbefore Hfail.
  assert (Hread : episode_reads self state_trajectory (Z.of_nat i) = Raise e).
  { destruct Hfail as [H|[Hnth ->]]; [exact H|].
    unfold episode_reads, final_state_of, list_index.
    destruct (Z.of_nat i <? 0) eqn:E; [apply Z.ltb_lt in E; lia|].
    rewrite E, Nat2Z.id, Hnth. reflexivity. }
  pose proof (extract_fails_at self state_trajectory i e Hi Hbefore Hread) as Hext.
  split; [exact Hext|].
  eapply render_extract_fails; eauto.
Qed.

Lemma first_unreadable_episode_fails_witness :
  extract (demo_plot "token")
          [[snapshot "1.0" "2.0" "5.0"]; []; [snapshot "3.0" "4.0" "6.0"]]
  = Raise IndexError /\
  render (demo_plot "token")
         [[snapshot "1.0" "2.0" "5.0"]; []; [snapshot "3.0" "4.0" "6.0"]]
         demo_now []
  = (Raise IndexError, []).
Proof.
  apply (first_unreadable_episode_fails (demo_plot "token") _ demo_now []
           (PStr "demo") "demo" 1 IndexError);
    [reflexivity | reflexivity | simpl; lia | | right; split; reflexivity].
  intros j Hj. assert (j = 0%nat) by lia. subst j.
  eexists. reflexivity.
Defined.

(** X5.  Rendering a trajectory that has grown by one episode processes
    the episode that was last before: [values] gains the values of its
    final snapshot and the coordinates become those of that snapshot. *)
Theorem extract_after_one_more_episode (self : GeoPlot)
    (earlier : list (list pyval)) (episode added : list pyval)
    (coords : pyval) (values : list pyval)
    (final_state new_coords value_list : pyval) :
  extract self (earlier ++ [episode]) = Ok (coords, values) ->
  list_index episode (-1) = Ok final_state ->
  read_coords self final_state = Ok new_coords ->
  read_values self final_state = Ok value_list ->
  extract self (earlier ++ [episode; added])
  = Ok (new_coords, (values ++ [value_list])%list).
Proof.
  intros Hext Hlast Hc Hv.
  rewrite extract_as_map in Hext. rewrite extract_as_map.
  rewrite length_app in *. simpl length in *.
  replace (Z.of_nat (length earlier + 1) - 1)
    with (Z.of_nat (length earlier)) in Hext by lia.
  replace (Z.of_nat (length earlier + 2) - 1)
    with (Z.of_nat (S (length earlier))) by lia.
  inv_bind Hext. rename x into cvs. inversion Hext; subst coords values.
  rewrite range_succ, mapM_app.
  rewrite (mapM_ext (episode_reads self (earlier ++ [episode; added]))
                    (episode_reads self (earlier ++ [episode]))).
  - rewrite Hx. cbn [bind mapM].
    assert (Hhere : episode_reads self (earlier ++ [episode; added])
                      (Z.of_nat (length earlier)) = Ok (new_coords, value_list)).
    { unfold episode_reads, final_state_of.
      rewrite list_index_app_here. cbn [bind]. rewrite Hlast. cbn [bind].
      rewrite Hc, Hv. reflexivity. }
    rewrite Hhere. cbn [bind].
    rewrite !map_app. cbn [map fst snd]. rewrite last_last. reflexivity.
  - intros i Hi. apply in_range in Hi.
    change (earlier ++ [episode; added])%list
      with (earlier ++ [episode] ++ [added])%list.
    rewrite app_assoc. apply episode_reads_app_left.
    rewrite length_app. simpl. lia.
Qed.

Lemma extract_after_one_more_episode_witness :
  extract (demo_plot "token")
          ([[snapshot "1.0" "2.0" "5.0"]]
             ++ [[snapshot "3.0" "4.0" "6.0"]; [snapshot "5.0" "6.0" "7.0"]])
  = Ok (PList [PList [PFloat "3.0"; PFloat "4.0"]],
        ([PList [PFloat "5.0"]] ++ [PList [PFloat "6.0"]])%list).
Proof.
  apply (extract_after_one_more_episode (demo_plot "token")
           [[snapshot "1.0" "2.0" "5.0"]] [snapshot "3.0" "4.0" "6.0"]
           [snapshot "5.0" "6.0" "7.0"] coords_1_2 [PList [PFloat "5.0"]]
           (snapshot "3.0" "4.0" "6.0"));
    reflexivity.
Defined.

(** ** More on the feature collections *)

Lemma Forall2_nth_error_left {A B} (R : A -> B -> Prop) (l : list A) (l' : list B) :
  Forall2 R l l' ->
  forall (i : nat) x, nth_error l i = Some x ->
    exists y, nth_error l' i = Some y /\ R x y.
Proof.
  induction 1 as [|a b l l' Hab _ IH]; intros i x Hx.
  - destruct i; discriminate.
  - destruct i as [|i]; simpl in *.
    + inversion Hx; subst. eauto.
    + apply IH; assumption.
Qed.

Lemma nth_error_combine_inv {A B} (l1 : list A) (l2 : list B) :
  forall (i : nat) a b,
    nth_error (combine l1 l2) i = Some (a, b) ->
    nth_error l1 i = Some a /\ nth_error l2 i = Some b.
Proof.
  revert l2; induction l1 as [|x l1 IH]; intros l2 i a b H.
  - destruct i; discriminate.
  - destruct l2 as [|y l2]; [destruct i; discriminate|].
    destruct i as [|i]; simpl in *.
    + inversion H; auto.
    + apply IH; assumption.
Qed.

Lemma mapM_error_in {A B} (f : A -> result B) (l : list A) (e : exn) :
  mapM f l = Raise e -> exists x, In x l /\ f x = Raise e.
Proof.
  induction l as [|x t IH]; simpl; intros H; [discriminate|].
  destruct (f x) as [y|e'] eqn:E.
  - cbn [bind] in H. destruct (mapM f t) as [ys|e'']; [discriminate|].
    cbn [bind] in H. inversion H; subst.
    destruct (IH eq_refl) as (z & Hz & Hfz). eauto.
  - cbn [bind] in H. inversion H; subst. eauto.
Qed.

Lemma list_index_in_range {A} (l : list A) (i : Z) :
  0 <= i < Z.of_nat (length l) -> exists x, list_index l i = Ok x.
Proof.
  intros H. unfold list_index.
  destruct (i <? 0) eqn:E; [apply Z.ltb_lt in E; lia|]. rewrite E.
  destruct (nth_error l (Z.to_nat i)) eqn:En; [eauto|].
  apply nth_error_None in En. lia.
Qed.

Lemma list_index_error {A} (l : list A) (i : Z) (e : exn) :
  list_index l i = Raise e -> e = IndexError.
Proof.
  unfold list_index. intros H.
  destruct (_ <? 0); [inversion H; reflexivity|].
  destruct (nth_error l _); [discriminate | inversion H; reflexivity].
Qed.

Lemma list_index_ok_bound {A} (l : list A) (i : nat) (x : A) :
  list_index l (Z.of_nat i) = Ok x -> (i < length l)%nat.
Proof.
  unfold list_index. intros H.
  destruct (Z.of_nat i <? 0) eqn:E; [apply Z.ltb_lt in E; lia|]. rewrite E in H.
  rewrite Nat2Z.id in H. apply nth_error_Some.
  destruct (nth_error l i); [discriminate | discriminate].
Qed.

Lemma feature_inv (idx : Z) (coord : pyval) (time : Pd.Timestamp)
    (value_list f : pyval) :
  feature idx coord (time, value_list) = Ok f ->
  exists lon lat value,
    index coord 1 = Ok lon /\ index coord 0 = Ok lat /\
    index value_list idx = Ok value /\
    f = PDict [("type", PStr "Feature");
               ("geometry", PDict [("type", PStr "Point");
                                   ("coordinates", PList [lon; lat])]);
               ("properties", PDict [("value", value);
                                     ("time", PStr (Pd.isoformat time))])].
Proof.
  unfold feature. intros H. inv_bind H. inv_bind H. inv_bind H.
  inversion H. eauto 10.
Qed.

(** The value a feature carries was found in its value list. *)
Lemma paired_value_was_found (coords : pyval)
    (timestamps : list Pd.Timestamp) (values geojsons agents : list pyval)
    (idx j : nat) (coord collection value_list : pyval) (time : Pd.Timestamp) :
  to_geojsons coords timestamps values = Ok geojsons ->
  iterate coords = Ok agents ->
  nth_error agents idx = Some coord ->
  nth_error geojsons idx = Some collection ->
  nth_error timestamps j = Some time ->
  nth_error values j = Some value_list ->
  exists value, index value_list (Z.of_nat idx) = Ok value.
Proof.
  intros Hgeo Hit Hagent Hcol Htime Hval.
  apply to_geojsons_ok in Hgeo. destruct Hgeo as (agents' & Hit' & _ & Hall).
  rewrite Hit in Hit'. inversion Hit'; subst agents'.
  specialize (Hall idx coord collection Hagent Hcol).
  unfold feature_collection in Hall. inv_bind Hall.
  apply mapM_Forall2 in Hx.
  pose proof (nth_error_combine _ _ _ _ _ Htime Hval) as Hpair.
  destruct (Forall2_nth_error_left _ _ _ Hx j _ Hpair) as (f & Hf & Hfeat).
  apply feature_inv in Hfeat.
  destruct Hfeat as (lon & lat & value & _ & _ & Hvalue & _). eauto.
Qed.

(** X6.  Feature [j] of the collection of agent [idx] is the point
    [[coord[1], coord[0]]] of that agent with the value [values[j][idx]] and
    the ISO-8601 text of [timestamps[j]]. *)
Theorem feature_holds_value_and_time (coords : pyval)
    (timestamps : list Pd.Timestamp) (values geojsons agents : list pyval)
    (idx j : nat) (coord collection value_list : pyval) (time : Pd.Timestamp) :
  to_geojsons coords timestamps values = Ok geojsons ->
  iterate coords = Ok agents ->
  nth_error agents idx = Some coord ->
  nth_error geojsons idx = Some collection ->
  nth_error timestamps j = Some time ->
  nth_error values j = Some value_list ->
  exists lon lat value features,
    index coord 1 = Ok lon /\ index coord 0 = Ok lat /\
    index value_list (Z.of_nat idx) = Ok value /\
    features_of collection = Ok features /\
    nth_error features j
    = Some (PDict [("type", PStr "Feature");
                   ("geometry", PDict [("type", PStr "Point");
                                       ("coordinates", PList [lon; lat])]);
                   ("properties", PDict [("value", value);
                                         ("time", PStr (Pd.isoformat time))])]).
Proof.
  intros Hgeo Hit Hagent Hcol Htime Hval.
  apply to_geojsons_ok in Hgeo. destruct Hgeo as (agents' & Hit' & _ & Hall).
  rewrite Hit in Hit'. inversion Hit'; subst agents'.
  specialize (Hall idx coord collection Hagent Hcol).
  unfold feature_collection in Hall. inv_bind Hall. rename x into features.
  inversion Hall; subst collection.
  apply mapM_Forall2 in Hx.
  pose proof (nth_error_combine _ _ _ _ _ Htime Hval) as Hpair.
  destruct (Forall2_nth_error_left _ _ _ Hx j _ Hpair) as (f & Hf & Hfeat).
  apply feature_inv in Hfeat.
  destruct Hfeat as (lon & lat & value & Hlon & Hlat & Hvalue & ->).
  exists lon, lat, value, features. repeat split; assumption || reflexivity.
Qed.

Lemma feature_holds_value_and_time_witness :
  exists lon lat value features,
    index (PList [PFloat "3.0"; PFloat "4.0"]) 1 = Ok lon /\
    index (PList [PFloat "3.0"; PFloat "4.0"]) 0 = Ok lat /\
    index (PList [PFloat "6.0"]) (Z.of_nat 0) = Ok value /\
    features_of
      (PDict [("type", PStr "FeatureCollection");
              ("features",
               PList [PDict [("type", PStr "Feature");
                             ("geometry",
                              PDict [("type", PStr "Point");
                                     ("coordinates",
                                      PList [PFloat "4.0"; PFloat "3.0"])]);
                             ("properties",
                              PDict [("value", PFloat "5.0");
                                     ("time", PStr (Pd.isoformat 0))])];
                      PDict [("type", PStr "Feature");
                             ("geometry",
                              PDict [("type", PStr "Point");
                                     ("coordinates",
                                      PList [PFloat "4.0"; PFloat "3.0"])]);
                             ("properties",
                              PDict [("value", PFloat "6.0");
                                     ("time", PStr (Pd.isoformat 60000000))])]])])
    = Ok features /\
    nth_error features 1
    = Some (PDict [("type", PStr "Feature");
                   ("geometry", PDict [("type", PStr "Point");
                                       ("coordinates", PList [lon; lat])]);
                   ("properties", PDict [("value", value);
                                         ("time", PStr (Pd.isoformat 60000000))])]).
Proof.
  eapply (feature_holds_value_and_time
            (PList [PList [PFloat "3.0"; PFloat "4.0"]])
            [0; 60000000; 120000000]
            [PList [PFloat "5.0"]; PList [PFloat "6.0"]]
            _ [PList [PFloat "3.0"; PFloat "4.0"]] 0 1);
    reflexivity.
Defined.

Lemma in_enumerate {A} (l : list A) (idx : Z) (x : A) :
  In (idx, x) (enumerate l) ->
  0 <= idx < Z.of_nat (length l) /\ In x l.
Proof.
  unfold enumerate. intros H. split.
  - apply in_combine_l in H. apply in_range in H. exact H.
  - apply in_combine_r in H. exact H.
Qed.

Lemma in_combine_nth {A B} (l1 : list A) (l2 : list B) (a : A) (b : B) :
  In (a, b) (combine l1 l2) ->
  exists j : nat, (j < length l1)%nat /\ nth_error l2 j = Some b.
Proof.
  intros H. apply In_nth_error in H. destruct H as [j Hj].
  apply nth_error_combine_inv in Hj. destruct Hj as [H1 H2].
  exists j. split; [|exact H2]. apply nth_error_Some. rewrite H1. discriminate.
Qed.

(** With pairs as coordinates and lists as values, building the features
    can only fail on a value list that is too short. *)
Lemma to_geojsons_only_index_error (agents : list pyval)
    (timestamps : list Pd.Timestamp) (values : list pyval) (e : exn) :
  Forall (fun c => exists a b, c = PList [a; b]) agents ->
  Forall (fun v => exists l, v = PList l) values ->
  to_geojsons (PList agents) timestamps values = Raise e ->
  e = IndexError.
Proof.
  intros Hpairs Hlists H. unfold to_geojsons in H. cbn [iterate bind] in H.
  apply mapM_error_in in H. destruct H as ([idx coord] & Hin & H).
  apply in_enumerate in Hin. destruct Hin as [_ Hin].
  rewrite Forall_forall in Hpairs. destruct (Hpairs coord Hin) as (a & b & ->).
  unfold feature_collection in H.
  destruct (mapM (feature idx (PList [a; b])) (combine timestamps values))
    as [fs|e'] eqn:E; [discriminate|].
  cbn [bind] in H. inversion H; subst e'. clear H.
  apply mapM_error_in in E. destruct E as ([time vl] & Hin' & H).
  apply in_combine_r in Hin'.
  rewrite Forall_forall in Hlists. destruct (Hlists vl Hin') as (l & ->).
  unfold feature in H. change (index (PList [a; b]) 1) with (Ok b) in H.
  change (index (PList [a; b]) 0) with (Ok a) in H. cbn [bind index] in H.
  destruct (list_index l idx) eqn:El; [discriminate|].
  cbn [bind] in H. inversion H; subst. eapply list_index_error; eauto.
Qed.

(** X7.  With one [[lat, lon]] pair per agent and one list of values per
    processed episode, the features can be built when every value list
    that is paired with a timestamp has a value for each agent; surplus
    values are ignored.  A paired value list with fewer values than there
    are agents makes the conversion fail with an [IndexError]. *)
Theorem to_geojsons_needs_a_value_per_agent (agents : list pyval)
    (timestamps : list Pd.Timestamp) (values : list pyval) :
  Forall (fun c => exists a b, c = PList [a; b]) agents ->
  Forall (fun v => exists l, v = PList l) values ->
  ((forall (j : nat) l,
      (j < length timestamps)%nat -> nth_error values j = Some (PList l) ->
      (length agents <= length l)%nat) ->
   exists geojsons, to_geojsons (PList agents) timestamps values = Ok geojsons) /\
  ((exists (j : nat) l,
      (j < length timestamps)%nat /\ nth_error values j = Some (PList l) /\
      (length l < length agents)%nat) ->
   to_geojsons (PList agents) timestamps values = Raise IndexError).
Proof.
  intros Hpairs Hlists. split.
  - intros Hlong. unfold to_geojsons. cbn [iterate bind].
    apply mapM_total. intros [idx coord] Hin.
    apply in_enumerate in Hin. destruct Hin as [Hidx Hin].
    rewrite Forall_forall in Hpairs. destruct (Hpairs coord Hin) as (a & b & ->).
    unfold feature_collection.
    destruct (mapM_total (feature idx (PList [a; b])) (combine timestamps values))
      as [fs Hfs].
    + intros [time vl] Hin'.
      pose proof (in_combine_r _ _ _ _ Hin') as Hvl.
      rewrite Forall_forall in Hlists. destruct (Hlists vl Hvl) as (l & ->).
      destruct (in_combine_nth _ _ _ _ Hin') as (j & Hj & Hnth).
      specialize (Hlong j l Hj Hnth).
      destruct (list_index_in_range l idx) as [value Hvalue]; [lia|].
      unfold feature. change (index (PList [a; b]) 1) with (Ok b).
      change (index (PList [a; b]) 0) with (Ok a). cbn [bind index].
      rewrite Hvalue. eexists; reflexivity.
    + rewrite Hfs. eexists; reflexivity.
  - intros (j & l & Hj & Hnth & Hshort).
    destruct (to_geojsons (PList agents) timestamps values) as [geojsons|e] eqn:E.
    + exfalso.
      destruct (nth_error agents (length l)) as [coord|] eqn:Ha;
        [|apply nth_error_None in Ha; lia].
      pose proof (to_geojsons_ok _ _ _ _ E) as (agents' & Hit & Hlen & _).
      cbn [iterate] in Hit. inversion Hit; subst agents'.
      destruct (nth_error geojsons (length l)) as [collection|] eqn:Hc;
        [|apply nth_error_None in Hc; lia].
      destruct (nth_error timestamps j) as [time|] eqn:Ht;
        [|apply nth_error_None in Ht; lia].
      destruct (paired_value_was_found _ _ _ _ _ _ _ _ _ _ _
                  E eq_refl Ha Hc Ht Hnth) as (value & Hvalue).
      cbn [index] in Hvalue. apply list_index_ok_bound in Hvalue. lia.
    + f_equal. eapply to_geojsons_only_index_error; eauto.
Qed.

Lemma to_geojsons_needs_a_value_per_agent_witness :
  (exists geojsons,
     to_geojsons (PList [PList [PFloat "1.0"; PFloat "2.0"]]) [0; 60000000]
                 [PList [PFloat "5.0"; PFloat "9.0"]] = Ok geojsons) /\
  to_geojsons (PList [PList [PFloat "1.0"; PFloat "2.0"];
                      PList [PFloat "3.0"; PFloat "4.0"]]) [0; 60000000]
              [PList [PFloat "5.0"]] = Raise IndexError.
Proof.
  split.
  - apply (to_geojsons_needs_a_value_per_agent
             [PList [PFloat "1.0"; PFloat "2.0"]] [0; 60000000]
             [PList [PFloat "5.0"; PFloat "9.0"]]).
    + repeat constructor. eexists; eexists; reflexivity.
    + repeat constructor. eexists; reflexivity.
    + intros j l Hj Hnth. destruct j as [|[|j]]; simpl in Hnth;
        [inversion Hnth; subst; simpl; lia | discriminate | discriminate].
  - apply (to_geojsons_needs_a_value_per_agent
             [PList [PFloat "1.0"; PFloat "2.0"];
              PList [PFloat "3.0"; PFloat "4.0"]] [0; 60000000]
             [PList [PFloat "5.0"]]).
    + repeat constructor; eexists; eexists; reflexivity.
    + repeat constructor. eexists; reflexivity.
    + exists 0%nat, [PFloat "5.0"]. simpl. repeat split; lia.
Defined.

(** ** More on [render] *)

(** The events of a run that wrote the [.geojson] file and failed while
    preparing the viewer document. *)
Lemma render_viewer_fails (self : GeoPlot) (state_trajectory : list (list pyval))
    (utcnow : Pd.Timestamp) (log : list event)
    sim_name name coords values timestamps geojsons text (e : exn) :
  (metadata <- getitem (config self) "simulation_metadata" ;;
   getitem metadata "name") = Ok sim_name ->
  py_str sim_name = Ok name ->
  extract self state_trajectory = Ok (coords, values) ->
  timeline self utcnow = Ok timestamps ->
  to_geojsons coords timestamps values = Ok geojsons ->
  Json.dump_indent2 (PList geojsons) = Ok text ->
  (mapping <- template_mapping self timestamps geojsons ;;
   Template.substitute geoplot_template mapping) = Raise e ->
  render self state_trajectory utcnow log
  = (Raise e, (log ++ [Open (name ++ ".geojson");
                       Write (name ++ ".geojson") text;
                       Open (name ++ ".html")])%list).
Proof.
  intros Hname Hstr Hext Htl Hgeo Htext. unfold render.
  generalize (Template.substitute geoplot_template). intros subst Hfail.
  rewrite bindM_lift, Hname; cbn [bind].
  rewrite bindM_lift, Hstr; cbn [bind].
  rewrite bindM_lift; cbn [bind].
  rewrite bindM_lift, Hext; cbn [bind].
  rewrite bindM_lift, Htl; cbn [bind].
  rewrite bindM_lift, Hgeo; cbn [bind].
  rewrite bindM_emit, bindM_dump_to, Htext.
  rewrite !bindM_emit, bindM_lift, Hfail.
  rewrite <- !app_assoc. reflexivity.
Qed.

Lemma timeline_empty (self : GeoPlot) (utcnow : Pd.Timestamp) (metadata : pyval)
    (E N : Z) :
  getitem (config self) "simulation_metadata" = Ok metadata ->
  getitem metadata "num_episodes" = Ok (PInt E) ->
  getitem metadata "num_steps_per_episode" = Ok (PInt N) ->
  E * N <= 0 ->
  timeline self utcnow = Ok [].
Proof.
  intros Hmd HE HN Hle. unfold timeline, total_steps.
  rewrite Hmd; cbn [bind]. rewrite HE, HN; cbn [bind py_mul py_range].
  rewrite range_nonpos by exact Hle. reflexivity.
Qed.

Lemma to_geojsons_no_timestamps (coords : pyval) (values agents : list pyval) :
  iterate coords = Ok agents ->
  exists geojsons,
    to_geojsons coords [] values = Ok geojsons /\
    length geojsons = length agents /\
    Forall (fun collection => features_of collection = Ok []) geojsons /\
    json_safe (PList geojsons) = true.
Proof.
  intros Hit. unfold to_geojsons. rewrite Hit. cbn [bind].
  rewrite (mapM_pure _ (fun _ => PDict [("type", PStr "FeatureCollection");
                                        ("features", PList [])])).
  - eexists. split; [reflexivity|]. split; [|split].
    + rewrite length_map. apply enumerate_length.
    + apply Forall_map. apply Forall_forall. intros; reflexivity.
    + cbn [json_safe]. apply forallb_forall. intros x Hx.
      apply in_map_iff in Hx. destruct Hx as (a & <- & _). reflexivity.
  - intros [idx coord]. reflexivity.
Qed.

(** X9.  When [num_episodes * num_steps_per_episode] is zero or negative
    the timeline is empty: [render] still writes the [.geojson] file, one
    collection without features per agent, opens the [.html] file and then
    fails with an [IndexError] at [timestamps[0]], leaving that file
    empty. *)
Theorem empty_timeline_leaves_empty_viewer (self : GeoPlot)
    (state_trajectory : list (list pyval)) (utcnow : Pd.Timestamp)
    (log : list event) (metadata sim_name coords : pyval) (name : string)
    (values agents : list pyval) (E N : Z) :
  getitem (config self) "simulation_metadata" = Ok metadata ->
  getitem metadata "name" = Ok sim_name ->
  py_str sim_name = Ok name ->
  getitem metadata "num_episodes" = Ok (PInt E) ->
  getitem metadata "num_steps_per_episode" = Ok (PInt N) ->
  E * N <= 0 ->
  extract self state_trajectory = Ok (coords, values) ->
  iterate coords = Ok agents ->
  exists geojsons text,
    length geojsons = length agents /\
    Forall (fun collection => features_of collection = Ok []) geojsons /\
    Json.dump_indent2 (PList geojsons) = Ok text /\
    render self state_trajectory utcnow log
    = (Raise IndexError,
       (log ++ [Open (name ++ ".geojson"); Write (name ++ ".geojson") text;
                Open (name ++ ".html")])%list).
Proof.
  intros Hmd Hname Hstr HE HN Hle Hext Hit.
  pose proof (timeline_empty self utcnow metadata E N Hmd HE HN Hle) as Htl.
  destruct (to_geojsons_no_timestamps coords values agents Hit)
    as (geojsons & Hgeo & Hlen & Hnone & Hsafe).
  destruct (dump_indent2_json_safe (PList geojsons) Hsafe) as [text Htext].
  exists geojsons, text.
  split; [exact Hlen|]. split; [exact Hnone|]. split; [exact Htext|].
  apply (render_viewer_fails self state_trajectory utcnow log sim_name name
           coords values [] geojsons text IndexError); auto.
  rewrite Hmd. exact Hname.
Qed.

Lemma empty_timeline_leaves_empty_viewer_witness :
  exists geojsons text,
    length geojsons = length [PList [PFloat "3.0"; PFloat "4.0"]] /\
    Forall (fun collection => features_of collection = Ok []) geojsons /\
    Json.dump_indent2 (PList geojsons) = Ok text /\
    render (mk_GeoPlot
              (PDict [("simulation_metadata",
                       PDict [("name", PStr "demo"); ("num_episodes", PInt 0);
                              ("num_steps_per_episode", PInt 2)])])
              (PStr "token") (PInt 3600) (PStr "agents/position")
              (PStr "agents/load") (PStr "color"))
           three_episodes demo_now []
    = (Raise IndexError,
       ([] ++ [Open ("demo" ++ ".geojson"); Write ("demo" ++ ".geojson") text;
               Open ("demo" ++ ".html")])%list).
Proof.
  apply (empty_timeline_leaves_empty_viewer _ three_episodes demo_now []
           (PDict [("name", PStr "demo"); ("num_episodes", PInt 0);
                   ("num_steps_per_episode", PInt 2)])
           (PStr "demo") (PList [PList [PFloat "3.0"; PFloat "4.0"]]) "demo"
           [PList [PFloat "5.0"]; PList [PFloat "6.0"]] _ 0 2);
    first [reflexivity | lia].
Defined.

Lemma list_index_last_nth {A} (l : list A) (x : A) :
  nth_error l (length l - 1) = Some x -> l <> [] -> list_index l (-1) = Ok x.
Proof.
  intros Hnth Hne. unfold list_index. change (-1 <? 0) with true. cbn iota.
  assert (Hlen : (1 <= length l)%nat)
    by (destruct l; [contradiction | simpl; lia]).
  destruct (-1 + Z.of_nat (length l) <? 0) eqn:E; [apply Z.ltb_lt in E; lia|].
  replace (Z.to_nat (-1 + Z.of_nat (length l))) with (length l - 1)%nat by lia.
  rewrite Hnth. reflexivity.
Qed.

(** X10.  The viewer's time window: [startTime] is the ISO-8601 text of
    the call time and [stopTime] that of the call time plus
    [(num_episodes * num_steps_per_episode - 1) * step_time] seconds,
    whatever the trajectory holds. *)
Theorem viewer_time_window (self : GeoPlot) (utcnow : Pd.Timestamp)
    (metadata : pyval) (E N t : Z) (timestamps : list Pd.Timestamp)
    (geojsons : list pyval) (mapping : list (string * pyval)) :
  getitem (config self) "simulation_metadata" = Ok metadata ->
  getitem metadata "num_episodes" = Ok (PInt E) ->
  getitem metadata "num_steps_per_episode" = Ok (PInt N) ->
  step_time self = PInt t ->
  timeline self utcnow = Ok timestamps ->
  template_mapping self timestamps geojsons = Ok mapping ->
  dict_get "startTime" mapping = Some (PStr (Pd.isoformat utcnow)) /\
  dict_get "stopTime" mapping
  = Some (PStr (Pd.isoformat (utcnow + Pd.Timedelta_seconds ((E * N - 1) * t)))).
Proof.
  intros Hmd HE HN Ht Htl Hmap.
  assert (Hd : step_microseconds (step_time self) = Some (t * 1000000))
    by (rewrite Ht; reflexivity).
  pose proof (timeline_inv self utcnow metadata E N _ timestamps
                Hmd HE HN Hd Htl) as Hts.
  subst timestamps.
  pose proof (template_mapping_nonempty _ _ _ _ Hmap) as Hne.
  apply template_mapping_ok in Hmap.
  destruct Hmap as (start & stop & data & Hstart & Hstop & _ & ->).
  assert (Hpos : 1 <= E * N).
  { destruct (Z_lt_le_dec (E * N) 1) as [Hlt|Hge]; [|exact Hge].
    exfalso. apply Hne. rewrite range_nonpos by lia. reflexivity. }
  destruct (affine_ends utcnow (t * 1000000) (E * N) Hpos) as [H0 H1].
  unfold Pd.Timestamp in *.
  rewrite H0 in Hstart. rewrite H1 in Hstop.
  inversion Hstart; inversion Hstop; subst.
  split; [reflexivity|].
  cbn [dict_get String.eqb Ascii.eqb Bool.eqb]. do 3 f_equal.
  unfold Pd.Timedelta_seconds. ring.
Qed.

Lemma viewer_time_window_witness :
  dict_get "startTime"
    [("accessToken", PStr "token");
     ("startTime", PStr (Pd.isoformat demo_now));
     ("stopTime", PStr (Pd.isoformat (demo_now + 18000000000)));
     ("data", PStr "[]");
     ("visualType", PStr "color")]
  = Some (PStr (Pd.isoformat demo_now)) /\
  dict_get "stopTime"
    [("accessToken", PStr "token");
     ("startTime", PStr (Pd.isoformat demo_now));
     ("stopTime", PStr (Pd.isoformat (demo_now + 18000000000)));
     ("data", PStr "[]");
     ("visualType", PStr "color")]
  = Some (PStr (Pd.isoformat
                  (demo_now + Pd.Timedelta_seconds ((3 * 2 - 1) * 3600)))).
Proof.
  apply (viewer_time_window (demo_plot "token") demo_now
           (PDict [("name", PStr "demo"); ("num_episodes", PInt 3);
                   ("num_steps_per_episode", PInt 2)]) 3 2 3600
           [demo_now; demo_now + 3600000000; demo_now + 7200000000;
            demo_now + 10800000000; demo_now + 14400000000;
            demo_now + 18000000000] []);
    reflexivity.
Defined.



(** The written viewer document does not depend on the trajectory (the
    template has no placeholder for the data):
    two completed runs of the same plot at the same call time write the
    same text to the [.html] file, whatever the two trajectories are. *)
Theorem viewer_document_is_independent_of_trajectory (self : GeoPlot)
    (trajectory1 trajectory2 : list (list pyval)) (utcnow : Pd.Timestamp)
    (log1 log1' log2 log2' : list event) :
  render self trajectory1 utcnow log1 = (Ok tt, log1') ->
  render self trajectory2 utcnow log2 = (Ok tt, log2') ->
  exists name html,
    written (name ++ ".html") log1' = Some html /\
    written (name ++ ".html") log2' = Some html.
Proof.
  intros H1 H2. apply render_ok in H1. apply render_ok in H2.
  destruct H1 as (sim1 & name1 & c1 & v1 & ts1 & g1 & text1 & m1 & html1
                  & Hn1 & Hs1 & _ & Ht1 & _ & _ & Hm1 & Hsub1 & ->).
  destruct H2 as (sim2 & name2 & c2 & v2 & ts2 & g2 & text2 & m2 & html2
                  & Hn2 & Hs2 & _ & Ht2 & _ & _ & Hm2 & Hsub2 & ->).
  rewrite Hn1 in Hn2. inversion Hn2; subst sim2.
  rewrite Hs1 in Hs2. inversion Hs2; subst name2.
  rewrite Ht1 in Ht2. inversion Ht2; subst ts2.
  rewrite (viewer_document_ignores_dataset _ _ _ _ _ _ Hm1 Hm2) in Hsub1.
  rewrite Hsub1 in Hsub2. inversion Hsub2; subst html2.
  exists name1, html1. split; apply written_after_run.
Qed.

Lemma viewer_document_is_independent_of_trajectory_witness :
  exists name html,
    written (name ++ ".html") demo_log = Some html /\
    written (name ++ ".html")
            (snd (render (demo_plot "token") [] demo_now [])) = Some html.
Proof.
  apply (viewer_document_is_independent_of_trajectory (demo_plot "token")
           three_episodes [] demo_now [] demo_log []);
    vm_compute; reflexivity.
Defined.

(** *** When [render] completes *)

Lemma ascii_text_app (a b : string) :
  ascii_text (a ++ b) = ascii_text a && ascii_text b.
Proof.
  induction a as [|c a IH]; [reflexivity|].
  cbn [append ascii_text]. rewrite IH. apply andb_assoc.
Qed.

Lemma digit_ascii (d : Z) : (nat_of_ascii (Pd.digit d) <? 128)%nat = true.
Proof.
  unfold Pd.digit.
  assert (H : (Z.to_nat (d mod 10) < 10)%nat)
    by (pose proof (Z.mod_pos_bound d 10); lia).
  destruct (Z.to_nat (d mod 10)) as [|k]; [reflexivity|].
  do 9 (destruct k as [|k]; [reflexivity|]). lia.
Qed.

Lemma zfill_ascii (width : nat) (n : Z) : ascii_text (Pd.zfill width n) = true.
Proof.
  revert n; induction width as [|w IH]; intros n; [reflexivity|].
  cbn [Pd.zfill]. rewrite ascii_text_app, IH. cbn [ascii_text].
  rewrite digit_ascii. reflexivity.
Qed.

Lemma digits_ascii (fuel : nat) (n : Z) : ascii_text (Pd.digits fuel n) = true.
Proof.
  revert n; induction fuel as [|f IH]; intros n; [reflexivity|].
  cbn [Pd.digits]. destruct (n <? 10).
  - cbn [ascii_text]. rewrite digit_ascii. reflexivity.
  - rewrite ascii_text_app, IH. cbn [ascii_text].
    rewrite digit_ascii. reflexivity.
Qed.

Lemma zeros_ascii (k : nat) : ascii_text (Pd.zeros k) = true.
Proof. induction k as [|k IH]; [reflexivity|]. cbn [Pd.zeros ascii_text]. exact IH. Qed.

Lemma year_text_ascii (y : Z) : ascii_text (Pd.year_text y) = true.
Proof.
  unfold Pd.year_text, Pd.zfill_min.
  destruct (y <? 0);
    repeat rewrite ascii_text_app;
    rewrite zeros_ascii, digits_ascii; reflexivity.
Qed.

Lemma isoformat_ascii (t : Pd.Timestamp) : ascii_text (Pd.isoformat t) = true.
Proof.
  unfold Pd.isoformat.
  destruct (Pd.civil_from_days (t / (86400 * 1000000))) as [[y m] d].
  repeat (rewrite ascii_text_app; rewrite ?zfill_ascii, ?year_text_ascii).
  destruct (_ =? 0); [reflexivity|].
  rewrite ascii_text_app, zfill_ascii. reflexivity.
Qed.

Lemma build_numeric (v : pyval) :
  forall a, Np.build v = Ok a -> numeric v = true.
Proof.
  induction v as [|b|z|lit|s|l IH|d IH] using pyval_nested_ind; intros a H;
    try discriminate; try reflexivity.
  { cbn [Np.build] in H. cbn [numeric].
    destruct (Np.int64 z); [reflexivity | discriminate]. }
  cbn [Np.build] in H. inv_bind H. apply build_elements in Hx.
  cbn [numeric]. apply forallb_forall. intros y Hy.
  rewrite Forall_forall in IH.
  apply In_nth_error in Hy. destruct Hy as [i Hi].
  destruct (Forall2_nth_error_left _ _ _ Hx i y Hi) as (b & _ & Hb).
  apply (IH y (nth_error_In _ _ Hi) b Hb).
Qed.

Lemma scalars_numeric (l : list pyval) :
  Forall (fun x => is_scalar x = true) l -> forallb numeric l = true.
Proof.
  intros H. apply forallb_forall. rewrite Forall_forall in H.
  intros x Hx. specialize (H x Hx).
  destruct x; try discriminate; try reflexivity. exact H.
Qed.

Lemma promote_numeric (k : Np.kind) (v : pyval) :
  numeric v = true -> numeric (promote k v) = true.
Proof.
  induction v as [|b|z|lit|s|l IH|d IH] using pyval_nested_ind; intros H;
    try discriminate.
  - destruct k; try reflexivity; destruct b; reflexivity.
  - cbn [promote]. unfold as_kind. destruct k; cbn [Np.cast]; try exact H.
    destruct (Z.abs z <=? Float.exact_limit); [reflexivity | exact H].
  - destruct k; reflexivity.
  - cbn [promote numeric] in *. rewrite forallb_forall in *.
    intros y Hy. apply in_map_iff in Hy. destruct Hy as (x & <- & Hx).
    rewrite Forall_forall in IH. apply IH; auto.
Qed.

(** What one iteration reads is numeric: nested lists of numbers for the
    coordinates, a flat list of numbers for the values. *)
Lemma episode_reads_numeric (self : GeoPlot)
    (state_trajectory : list (list pyval)) (i : Z) (c v : pyval) :
  episode_reads self state_trajectory i = Ok (c, v) ->
  numeric c = true /\ exists l, v = PList l /\ forallb numeric l = true.
Proof.
  unfold episode_reads. intros H. inv_bind H. inv_bind H. inv_bind H.
  inversion H; subst c v; clear H. split.
  - unfold read_coords in Hx0. inv_bind Hx0. inv_bind Hx0.
    inversion Hx0; subst x0.
    destruct (array_spec _ _ Hx3) as (b & Hb & _ & _ & Htolist).
    rewrite Htolist. apply promote_numeric. eapply build_numeric; eauto.
  - unfold read_values in Hx1. inv_bind Hx1. inv_bind Hx1.
    inversion Hx1; subst x1.
    rewrite tolist_flatten. eexists. split; [reflexivity|].
    apply scalars_numeric. eapply array_scalars; eauto.
Qed.

Lemma last_in_or_default {A} (l : list A) (d : A) :
  l = [] \/ In (last l d) l.
Proof.
  induction l as [|x l IH]; [left; reflexivity|]. right.
  destruct IH as [->|IH]; [left; reflexivity|].
  destruct l as [|y l]; [contradiction|].
  change (last (x :: y :: l) d) with (last (y :: l) d). right. exact IH.
Qed.

Lemma extract_numeric (self : GeoPlot) (state_trajectory : list (list pyval))
    (coords : pyval) (values : list pyval) :
  extract self state_trajectory = Ok (coords, values) ->
  numeric coords = true /\
  Forall (fun v => exists l, v = PList l /\ forallb numeric l = true) values.
Proof.
  intros H. rewrite extract_as_map in H. inv_bind H. rename x into cvs.
  inversion H; subst coords values; clear H.
  apply mapM_Forall2 in Hx.
  assert (Hall : Forall (fun cv => numeric (fst cv) = true /\
                           exists l, snd cv = PList l /\ forallb numeric l = true)
                        cvs).
  { eapply Forall2_Forall_right; [exact Hx|].
    intros i [c v] Hr. cbn [fst snd]. eapply episode_reads_numeric; eauto. }
  rewrite Forall_forall in Hall. split.
  - destruct (last_in_or_default (map fst cvs) (PList [])) as [E|Hin].
    + rewrite E. reflexivity.
    + apply in_map_iff in Hin. destruct Hin as (cv & Hcv & Hin).
      rewrite <- Hcv. apply (Hall cv Hin).
  - apply Forall_forall. intros v Hin.
    apply in_map_iff in Hin. destruct Hin as (cv & <- & Hin).
    apply (Hall cv Hin).
Qed.

Lemma index_numeric (v x : pyval) (i : Z) :
  numeric v = true -> index v i = Ok x -> numeric x = true.
Proof.
  destruct v as [|b|z|lit|s|l|d]; try discriminate.
  cbn [numeric index]. intros Hn H. unfold list_index in H.
  destruct (_ <? 0); [discriminate|].
  destruct (nth_error l _) eqn:E; [|discriminate]. inversion H; subst.
  rewrite forallb_forall in Hn. apply Hn. eapply nth_error_In; eauto.
Qed.

(** The features can be built when every agent has at least two
    coordinates and every paired value list a value for each agent. *)
Lemma to_geojsons_total (agents : list pyval) (timestamps : list Pd.Timestamp)
    (values : list pyval) :
  Forall (fun c => exists l, c = PList l /\ (2 <= length l)%nat) agents ->
  Forall (fun v => exists l, v = PList l) values ->
  (forall (j : nat) l,
     (j < length timestamps)%nat -> nth_error values j = Some (PList l) ->
     (length agents <= length l)%nat) ->
  exists geojsons, to_geojsons (PList agents) timestamps values = Ok geojsons.
Proof.
  intros Hpairs Hlists Hlong. unfold to_geojsons. cbn [iterate bind].
  apply mapM_total. intros [idx coord] Hin.
  apply in_enumerate in Hin. destruct Hin as [Hidx Hin].
  rewrite Forall_forall in Hpairs. destruct (Hpairs coord Hin) as (cl & -> & Hcl).
  unfold feature_collection.
  destruct (mapM_total (feature idx (PList cl)) (combine timestamps values))
    as [fs Hfs].
  - intros [time vl] Hin'.
    pose proof (in_combine_r _ _ _ _ Hin') as Hvl.
    rewrite Forall_forall in Hlists. destruct (Hlists vl Hvl) as (l & ->).
    destruct (in_combine_nth _ _ _ _ Hin') as (j & Hj & Hnth).
    specialize (Hlong j l Hj Hnth).
    destruct (list_index_in_range l idx) as [value Hvalue]; [lia|].
    destruct (list_index_in_range cl 1) as [lon Hlon]; [lia|].
    destruct (list_index_in_range cl 0) as [lat Hlat]; [lia|].
    unfold feature. cbn [index]. rewrite Hlon, Hlat, Hvalue.
    eexists; reflexivity.
  - rewrite Hfs. eexists; reflexivity.
Qed.

Lemma feature_json_safe (lon lat value : pyval) (iso : string) :
  json_safe lon = true -> json_safe lat = true -> json_safe value = true ->
  ascii_text iso = true ->
  json_safe (PDict [("type", PStr "Feature");
                    ("geometry", PDict [("type", PStr "Point");
                                        ("coordinates", PList [lon; lat])]);
                    ("properties", PDict [("value", value);
                                          ("time", PStr iso)])]) = true.
Proof.
  intros H1 H2 H3 H4. simpl. rewrite H1, H2, H3, H4. reflexivity.
Qed.

Lemma to_geojsons_json_safe (coords : pyval) (timestamps : list Pd.Timestamp)
    (values geojsons : list pyval) :
  numeric coords = true ->
  Forall (fun v => numeric v = true) values ->
  to_geojsons coords timestamps values = Ok geojsons ->
  json_safe (PList geojsons) = true.
Proof.
  intros Hc Hv H. cbn [json_safe]. apply forallb_forall. intros collection Hin.
  unfold to_geojsons in H. inv_bind H. rename x into agents.
  apply mapM_Forall2 in H.
  apply In_nth_error in Hin. destruct Hin as [k Hk].
  assert (Hex : exists a, nth_error (enumerate agents) k = Some a /\
                          feature_collection timestamps values a = Ok collection).
  { clear - H Hk. revert k Hk.
    induction H as [|a b l l' Hab _ IH]; intros k Hk; [destruct k; discriminate|].
    destruct k as [|k]; simpl in *; [inversion Hk; subst; eauto | eauto]. }
  destruct Hex as ([idx coord] & Ha & Hfc).
  apply nth_error_In in Ha. apply in_enumerate in Ha. destruct Ha as [_ Ha].
  assert (Hcoord : numeric coord = true).
  { destruct coords; try discriminate. cbn [iterate] in Hx. inversion Hx; subst.
    cbn [numeric] in Hc. rewrite forallb_forall in Hc. auto. }
  unfold feature_collection in Hfc. inv_bind Hfc. inversion Hfc; subst collection.
  apply mapM_Forall2 in Hx0.
  assert (Hfs : forallb json_safe x = true).
  { apply forallb_forall. intros f Hf.
    assert (Hfrom : exists tv, In tv (combine timestamps values) /\
                               feature idx coord tv = Ok f).
    { clear - Hx0 Hf. induction Hx0 as [|a b l l' Hab _ IH]; [contradiction|].
      destruct Hf as [<-|Hf]; [exists a; split; [left; reflexivity | exact Hab]|].
      destruct (IH Hf) as (tv & Htv & Hfeat). exists tv. split; [right|]; auto. }
    destruct Hfrom as ([time vl] & Htv & Hfeat).
    apply in_combine_r in Htv. rewrite Forall_forall in Hv.
    apply feature_inv in Hfeat.
    destruct Hfeat as (lon & lat & value & Hlon & Hlat & Hvalue & ->).
    apply feature_json_safe.
    - apply numeric_json_safe. eapply index_numeric; eauto.
    - apply numeric_json_safe. eapply index_numeric; eauto.
    - apply numeric_json_safe. eapply index_numeric; [apply Hv|]; eauto.
    - apply isoformat_ascii. }
  simpl. rewrite Hfs. reflexivity.
Qed.

(** X8.  A run of [render] that stays within what is modelled leaves the
    files in one of three states: nothing touched (a failure before the
    first file is opened); the [.geojson] file written in full and the
    [.html] file opened but empty (a failure while the viewer document is
    prepared); or both files written, which is the only case in which it
    returns.  It never writes the viewer document without the data file,
    it leaves the earlier events as they were, and it never leaves the
    [.geojson] file partly written: what the loop has extracted is numbers
    of an array, which the encoder prints. *)
Theorem render_leaves_files_in_three_states (self : GeoPlot)
    (state_trajectory : list (list pyval)) (utcnow : Pd.Timestamp)
    (log log' : list event) (r : result unit) :
  render self state_trajectory utcnow log = (r, log') ->
  r <> Raise NotModelled ->
  (r = Ok tt /\
   exists name text html, log' = (log ++ run_events name text html)%list) \/
  (exists e, r = Raise e /\
     (log' = log \/
      exists name text,
        log' = (log ++ [Open (name ++ ".geojson");
                        Write (name ++ ".geojson") text;
                        Open (name ++ ".html")])%list)).
Proof.
  unfold render. generalize (Template.substitute geoplot_template).
  intros subst H _.
  rewrite bindM_lift in H.
  destruct (metadata <- getitem (config self) "simulation_metadata" ;;
            getitem metadata "name") as [sim_name|e];
    [|inversion H; subst; right; eauto].
  rewrite bindM_lift in H.
  destruct (py_str sim_name) as [name|e]; cbn [bind] in H;
    [|inversion H; subst; right; eauto].
  rewrite bindM_lift in H. cbn [bind] in H.
  rewrite bindM_lift in H.
  destruct (extract self state_trajectory) as [[coords values]|e] eqn:Hext;
    [|inversion H; subst; right; eauto].
  rewrite bindM_lift in H.
  destruct (timeline self utcnow) as [timestamps|e];
    [|inversion H; subst; right; eauto].
  rewrite bindM_lift in H.
  destruct (to_geojsons coords timestamps values) as [geojsons|e] eqn:Hgeo;
    [|inversion H; subst; right; eauto].
  rewrite bindM_emit, bindM_dump_to in H.
  destruct (dump_indent2_json_safe (PList geojsons)) as [text Htext].
  { destruct (extract_numeric _ _ _ _ Hext) as [Hcn Hvn].
    eapply to_geojsons_json_safe; [exact Hcn | | exact Hgeo].
    eapply Forall_impl; [|exact Hvn]. intros v (l & -> & Hl). exact Hl. }
  rewrite Htext in H.
  rewrite !bindM_emit, bindM_lift in H.
  destruct (mapping <- template_mapping self timestamps geojsons ;; subst mapping)
    as [html|e].
  - unfold emit in H. inversion H; subst. left. split; [reflexivity|].
    exists name, text, html. unfold run_events. rewrite <- !app_assoc. reflexivity.
  - inversion H; subst. right. exists e. split; [reflexivity|]. right.
    exists name, text. rewrite <- !app_assoc. reflexivity.
Qed.

Lemma render_leaves_files_in_three_states_witness :
  (Ok tt = Ok tt /\
   exists name text html, demo_log = ([] ++ run_events name text html)%list) \/
  (exists e, Ok tt = Raise e /\
     (demo_log = [] \/
      exists name text,
        demo_log = ([] ++ [Open (name ++ ".geojson");
                           Write (name ++ ".geojson") text;
                           Open (name ++ ".html")])%list)).
Proof.
  apply (render_leaves_files_in_three_states (demo_plot "token") three_episodes
           demo_now [] demo_log (Ok tt)).
  - vm_compute; reflexivity.
  - discriminate.
Defined.

(** X11.  [render] completes, writing both files, when: the configuration
    has a printable name and integer counts whose product is at least one;
    the step time is one whose multiples are computed exactly (an integer,
    or a float that is a whole number of 1/64 seconds; [d] is its
    microseconds) such that for every timeline index [i] the span of [i]
    steps has few enough nanoseconds (less than [2^63] for an integer
    step, at most [2^53] for a float step) and its sum with the call time
    fits the 64-bit nanosecond count; the token and visualization type are
    printable; the extraction loop completes with coordinates that hold at
    least two entries per agent; and every value list that is paired with a
    timestamp has a value for each agent.  The viewer document it writes is
    the template with the token, the visualization type, the call time and
    the time of the last timeline entry in the places of their
    placeholders. *)
Theorem render_completes (self : GeoPlot) (state_trajectory : list (list pyval))
    (utcnow : Pd.Timestamp) (log : list event) (metadata sim_name coords : pyval)
    (name token visual : string) (values agents : list pyval) (E N d : Z) :
  getitem (config self) "simulation_metadata" = Ok metadata ->
  getitem metadata "name" = Ok sim_name ->
  py_str sim_name = Ok name ->
  getitem metadata "num_episodes" = Ok (PInt E) ->
  getitem metadata "num_steps_per_episode" = Ok (PInt N) ->
  1 <= E * N ->
  step_microseconds (step_time self) = Some d ->
  (forall i, 0 <= i < E * N ->
     Pd.fits (span_limit (step_time self)) utcnow (i * d) = true) ->
  py_str (cesium_token self) = Ok token ->
  py_str (visualization_type self) = Ok visual ->
  extract self state_trajectory = Ok (coords, values) ->
  iterate coords = Ok agents ->
  Forall (fun c => exists l, c = PList l /\ (2 <= length l)%nat) agents ->
  (forall (j : nat) l,
     (j < Z.to_nat (E * N))%nat -> nth_error values j = Some (PList l) ->
     (length agents <= length l)%nat) ->
  exists text,
    render self state_trajectory utcnow log
    = (Ok tt,
       (log ++ run_events name text
                 (viewer_document token visual (Pd.isoformat utcnow)
                    (Pd.isoformat (utcnow + (E * N - 1) * d))))%list).
Proof.
  intros Hmd Hname Hstr HE HN Hpos Hd Hfit Htoken Hvisual Hext Hit Hpairs Hlong.
  destruct (extract_numeric _ _ _ _ Hext) as [Hcn Hvn].
  assert (Hcoords : coords = PList agents).
  { destruct coords; try discriminate. cbn [iterate] in Hit.
    inversion Hit; reflexivity. }
  subst coords.
  pose proof (timeline_eq self utcnow metadata E N d Hmd HE HN Hd Hfit) as Htl.
  destruct (affine_ends utcnow d (E * N) Hpos) as [Hstart Hstop].
  unfold Pd.Timestamp in *.
  set (timestamps := map (fun i => utcnow + i * d) (range (E * N))) in *.
  set (stop := utcnow + (E * N - 1) * d) in *.
  assert (Hlen : length timestamps = Z.to_nat (E * N))
    by (unfold timestamps; rewrite length_map, range_length; reflexivity).
  destruct (to_geojsons_total agents timestamps values) as [geojsons Hgeo].
  { exact Hpairs. }
  { eapply Forall_impl; [|exact Hvn]. intros v (l & -> & _). eauto. }
  { intros j l Hj. apply Hlong. unfold Pd.Timestamp in Hj. lia. }
  assert (Hsafe : json_safe (PList geojsons) = true).
  { eapply to_geojsons_json_safe; [exact Hcn | | exact Hgeo].
    eapply Forall_impl; [|exact Hvn]. intros v (l & -> & Hl). exact Hl. }
  destruct (dump_indent2_json_safe (PList geojsons) Hsafe) as [text Htext].
  destruct (encode_json_safe true None (PList geojsons) Hsafe 0%nat)
    as [data Hdata].
  set (mapping := [("accessToken", cesium_token self);
                   ("startTime", PStr (Pd.isoformat utcnow));
                   ("stopTime", PStr (Pd.isoformat stop));
                   ("data", PStr data);
                   ("visualType", visualization_type self)]).
  assert (Hmap : template_mapping self timestamps geojsons = Ok mapping).
  { unfold template_mapping, Pd.Timestamp. rewrite Hstart, Hstop. cbn [bind].
    unfold Json.dumps. rewrite Hdata. reflexivity. }
  pose proof (substitute_viewer_document self token visual
                (Pd.isoformat utcnow) (Pd.isoformat stop) data Htoken Hvisual)
    as Hsub.
  fold mapping in Hsub.
  exists text.
  apply (render_steps self state_trajectory utcnow log sim_name name
           (PList agents) values timestamps geojsons text mapping _); auto.
  rewrite Hmd. exact Hname.
Qed.

Lemma render_completes_witness :
  exists text,
    render (demo_plot "token") three_episodes demo_now []
    = (Ok tt,
       ([] ++ run_events "demo" text
                (viewer_document "token" "color" (Pd.isoformat demo_now)
                   (Pd.isoformat (demo_now + (3 * 2 - 1) * 3600000000))))%list).
Proof.
  apply (render_completes (demo_plot "token") three_episodes demo_now []
           (PDict [("name", PStr "demo"); ("num_episodes", PInt 3);
                   ("num_steps_per_episode", PInt 2)])
           (PStr "demo") (PList [PList [PFloat "3.0"; PFloat "4.0"]])
           "demo" "token" "color"
           [PList [PFloat "5.0"]; PList [PFloat "6.0"]]
           [PList [PFloat "3.0"; PFloat "4.0"]] 3 2 3600000000);
    try reflexivity.
  - lia.
  - intros i Hi. unfold Pd.fits, Pd.in_bounds, span_limit, Pd.ns_limit, demo_now.
    cbn [step_time demo_plot].
    apply andb_true_intro; split; [|apply andb_true_intro; split];
      apply Z.ltb_lt; lia.
  - repeat constructor. eexists. split; [reflexivity | simpl; lia].
  - intros j l Hj Hnth.
    destruct j as [|[|j]]; simpl in Hnth;
      [inversion Hnth; subst; simpl; lia
      | inversion Hnth; subst; simpl; lia
      | destruct j; discriminate].
Defined.

(** ** Construction *)

(** X12.  Construction checks nothing but the presence of the five
    options: with them it succeeds for any configuration and any option
    values, keeping them as they are.  A configuration that is not a
    mapping is found out by [render] only, which then fails with a
    [TypeError] before it touches a file. *)
Theorem init_checks_only_the_option_keys (cfg : pyval)
    (entries : list (string * pyval)) (token step position property visual : pyval) :
  dict_get "cesium_token" entries = Some token ->
  dict_get "step_time" entries = Some step ->
  dict_get "coordinates" entries = Some position ->
  dict_get "feature" entries = Some property ->
  dict_get "visualization_type" entries = Some visual ->
  init cfg (PDict entries)
  = Ok (mk_GeoPlot cfg token step position property visual) /\
  ((forall d, cfg <> PDict d) ->
   forall state_trajectory utcnow log,
     render (mk_GeoPlot cfg token step position property visual)
            state_trajectory utcnow log
     = (Raise TypeError, log)).
Proof.
  intros H1 H2 H3 H4 H5. split.
  - unfold init.
    rewrite (getitem_present _ _ _ H1), (getitem_present _ _ _ H2),
      (getitem_present _ _ _ H3), (getitem_present _ _ _ H4),
      (getitem_present _ _ _ H5). reflexivity.
  - intros Hnot traj utcnow log. apply render_name_fails. cbn [config].
    destruct cfg; try reflexivity. exfalso. eapply Hnot; reflexivity.
Qed.

Lemma init_checks_only_the_option_keys_witness :
  init (PList []) (demo_options "token")
  = Ok (mk_GeoPlot (PList []) (PStr "token") (PInt 3600)
                   (PStr "agents/position") (PStr "agents/load") (PStr "color")) /\
  ((forall d, PList [] <> PDict d) ->
   forall state_trajectory utcnow log,
     render (mk_GeoPlot (PList []) (PStr "token") (PInt 3600)
                        (PStr "agents/position") (PStr "agents/load")
                        (PStr "color"))
            state_trajectory utcnow log
     = (Raise TypeError, log)).
Proof.
  apply (init_checks_only_the_option_keys (PList [])
           [("cesium_token", PStr "token"); ("step_time", PInt 3600);
            ("coordinates", PStr "agents/position");
            ("feature", PStr "agents/load");
            ("visualization_type", PStr "color")]);
    reflexivity.
Defined.

(** ** Paths *)

Lemma split_slash_app (p q : string) :
  forall cur,
    split_slash cur (p ++ String "/" q)
    = (split_slash cur p ++ split_slash [] q)%list.
Proof.
  induction p as [|c p IH]; intros cur.
  - reflexivity.
  - cbn [append split_slash]. destruct (Ascii.eqb c "/").
    + rewrite IH. reflexivity.
    + apply IH.
Qed.

Lemma get_by_path_app (a b : list string) :
  forall root,
    get_by_path root (a ++ b)
    = (v <- get_by_path root a ;; get_by_path v b).
Proof.
  induction a as [|seg a IH]; intros root; [reflexivity|].
  cbn [app get_by_path].
  destruct root as [| | | | |l|d]; try reflexivity.
  - destruct seg as [|c seg]; [reflexivity|].
    destruct (parse_index 0 (String c seg)); [|reflexivity].
    destruct (nth_error l n); [apply IH | reflexivity].
  - destruct (dict_get seg d); [apply IH | reflexivity].
Qed.

(** X13.  Paths compose: reading [p/q] is reading [p] and then reading
    [q] in what was found, failures included (with the resolver as the
    specification describes it). *)
Theorem read_var_composes (state : pyval) (p q : string) :
  read_var state (PStr (p ++ "/" ++ q))
  = (v <- read_var state (PStr p) ;; read_var v (PStr q)).
Proof.
  unfold read_var. change ("/" ++ q) with (String "/" q).
  rewrite split_slash_app. apply get_by_path_app.
Qed.

(** ** The trajectory as [render] sees it *)

(** X14.  The whole effect of [render] depends on the trajectory only
    through its length and the final snapshots of all episodes but the
    last: a trajectory that agrees on these gives the same result and the
    same file events, whatever its other snapshots and its last episode
    hold. *)
Theorem render_reads_final_states_only (self : GeoPlot)
    (state_trajectory other : list (list pyval)) (utcnow : Pd.Timestamp)
    (log : list event) :
  length other = length state_trajectory ->
  (forall i : nat, (i < length state_trajectory - 1)%nat ->
     final_state_of other (Z.of_nat i)
     = final_state_of state_trajectory (Z.of_nat i)) ->
  render self other utcnow log = render self state_trajectory utcnow log.
Proof.
  intros Hlen Hfin. unfold render.
  rewrite (extract_only_reads_final_states self state_trajectory other Hlen Hfin).
  reflexivity.
Qed.

Lemma render_reads_final_states_only_witness :
  render (demo_plot "token") two_episodes' demo_now []
  = render (demo_plot "token") two_episodes demo_now [].
Proof.
  apply (render_reads_final_states_only (demo_plot "token") two_episodes
           two_episodes' demo_now []); [reflexivity|].
  intros i Hi. destruct i as [|i]; [reflexivity | simpl in Hi; lia].
Defined.
